(** * Construction-template provisioning: compiler, estimator, validator and
      deployment orchestrator

    A shallow embedding of the scripts of the repository:
    - [Builder]   : the template builder   (build-template,  unnamed/part_002)
    - [Estimator] : the cost estimator     (estimate-cost,   unnamed/part_002)
    - [Validator] : the input validator    (validate-inputs, scripts/deploy-construction.js)
    - [Deploy]    : the deployment script  (scripts/deploy-construction.js)

    JavaScript strings are modelled as [string] (a sequence of character
    codes), JavaScript objects used as dictionaries as [gmap string _]
    (their own properties; reading one goes through [JS.get], which also
    knows the names inherited from [Object.prototype], and writing one
    through [JS.put]), arrays as [list], [undefined]/[null] as [None],
    exceptions as the [Throw] result of a small state-and-error monad.  The scripts are
    sequential: every [await] is the evaluation of the awaited call.
    Console output is not part of the model. *)

From Stdlib Require Import ZArith QArith Qround Ascii String Sorted.
From stdpp Require Import base option list gmap strings pretty fin_maps.

Open Scope string_scope.
Open Scope Z_scope.

(** ** JavaScript string primitives used by the scripts *)

Module JS.

(** [s.startsWith(p)] *)
Definition startsWith (s p : string) : bool := String.prefix p s.

(** [s.endsWith(p)] *)
Definition endsWith (s p : string) : bool :=
  String.prefix (String.rev p) (String.rev s).

(** [s.includes(needle)] : [needle] occurs as a contiguous substring. *)
Fixpoint includes (s needle : string) : bool :=
  String.prefix needle s ||
  match s with
  | EmptyString => false
  | String _ rest => includes rest needle
  end.

Definition lower_char (c : ascii) : ascii :=
  let n := nat_of_ascii c in
  if ((65 <=? n) && (n <=? 90))%nat then ascii_of_nat (n + 32) else c.

(** [s.toLowerCase()].  Only the letters A-Z are folded; the other
    character codes are kept.  The only non-ASCII characters that the
    real function folds to an ASCII letter are the Kelvin sign (to k) and
    the dotted capital I (to i followed by a combining mark), and no
    word compared against a lowered string in the scripts contains a k
    or can equal a string holding a combining mark. *)
Fixpoint toLowerCase (s : string) : string :=
  match s with
  | EmptyString => EmptyString
  | String c rest => String (lower_char c) (toLowerCase rest)
  end.

Fixpoint drop_chars (n : nat) (s : string) : string :=
  match n, s with
  | O, _ => s
  | S n', String _ rest => drop_chars n' rest
  | S _, EmptyString => EmptyString
  end.

(** [s.replace(pat, rep)] with a string pattern: only the first
    occurrence is replaced. *)
Fixpoint replace (s pat rep : string) : string :=
  if String.prefix pat s then rep +:+ drop_chars (String.length pat) s
  else match s with
       | EmptyString => EmptyString
       | String c rest => String c (replace rest pat rep)
       end.

(** Truthiness of a value that is either [undefined] or a string. *)
Definition truthy (v : option string) : bool :=
  match v with
  | Some (String _ _) => true
  | _ => false
  end.

(** [a || b] on such values. *)
Definition or_else (v : option string) (d : string) : string :=
  match v with
  | Some (String c r) => String c r
  | _ => d
  end.

(** [arr.includes(x)] on an array of strings. *)
Definition arr_includes (l : list string) (x : string) : bool :=
  existsb (String.eqb x) l.

(** [arr.sort()] with the default comparison on strings (code-unit
    order), as an insertion sort. *)
Fixpoint insert_sorted (x : string) (l : list string) : list string :=
  match l with
  | [] => [x]
  | y :: ys => if String.leb x y then x :: l else y :: insert_sorted x ys
  end.

Definition sort (l : list string) : list string :=
  foldr insert_sorted [] l.

(** The property names that every object literal inherits from
    [Object.prototype]. *)
Definition objectPrototypeKeys : list string :=
  ["constructor"; "__defineGetter__"; "__defineSetter__"; "hasOwnProperty";
   "__lookupGetter__"; "__lookupSetter__"; "isPrototypeOf";
   "propertyIsEnumerable"; "toString"; "valueOf"; "__proto__";
   "toLocaleString"].

(** What [table[key]] gives on an object literal: the value of its own
    property [key]; otherwise, for a name of [Object.prototype], the
    inherited value (a function, or the prototype itself for __proto__:
    a truthy value that has none of the fields the scripts go on to
    read); otherwise [undefined]. *)
Inductive Lookup (A : Type) : Type :=
| Own (a : A)
| Inherited
| Undefined.
Arguments Own {A} a.
Arguments Inherited {A}.
Arguments Undefined {A}.

Definition get {A} (table : gmap string A) (key : string) : Lookup A :=
  match table !! key with
  | Some a => Own a
  | None => if arr_includes objectPrototypeKeys key then Inherited
            else Undefined
  end.

(** [found.field] where [found] is the result of a lookup that is not
    [undefined]: the inherited values have no such field. *)
Definition field {A B} (f : A -> B) (found : Lookup A) : option B :=
  match found with
  | Own a => Some (f a)
  | _ => None
  end.

(** [obj[key] = v] on an object created by a literal, for a value [v]
    that is an object: the assignment to __proto__ replaces the prototype
    of [obj] and creates no property. *)
Definition put {A} (obj : gmap string A) (key : string) (v : A)
    : gmap string A :=
  if String.eqb key "__proto__" then obj else <[key := v]> obj.

(** [Math.ceil(a / b)] on integers, through exact rational division. *)
Definition ceil_div (a : Z) (b : positive) : Z := Qceiling (a # b).

(** [Math.floor(a / b)]. *)
Definition floor_div (a : Z) (b : positive) : Z := Qfloor (a # b).

End JS.

(** ** Exceptions and the state-and-error monad of the scripts *)

(** A thrown [Error]: its [message] and, for file-system errors, its
    [code]. *)
Record JsError := {
  message : string;
  code : option string
}.

(** [new Error(msg)] *)
Definition Error (msg : string) : JsError :=
  {| message := msg; code := None |}.

(** How the evaluation of a statement or call ends. *)
Inductive Completion (A : Type) : Type :=
| Normal (a : A)
| Throw (e : JsError).
Arguments Normal {A} a.
Arguments Throw {A} e.

Definition is_normal {A} (c : Completion A) : bool :=
  match c with Normal _ => true | Throw _ => false end.

Module Monad.
Section WithState.
Context {St : Type}.

Definition M (A : Type) : Type := St -> Completion A * St.

Definition ret {A} (a : A) : M A := fun s => (Normal a, s).

Definition throw {A} (e : JsError) : M A := fun s => (Throw e, s).

Definition bind {A B} (m : M A) (k : A -> M B) : M B :=
  fun s =>
    match m s with
    | (Normal a, s') => k a s'
    | (Throw e, s') => (Throw e, s')
    end.

(** [try { m } catch (e) { h e }] *)
Definition try_catch {A} (m : M A) (h : JsError -> M A) : M A :=
  fun s =>
    match m s with
    | (Normal a, s') => (Normal a, s')
    | (Throw e, s') => h e s'
    end.

Definition get : M St := fun s => (Normal s, s).

Definition modify (f : St -> St) : M unit := fun s => (Normal tt, f s).

(** [for (const x of l) { body x }] *)
Fixpoint for_of {A} (l : list A) (body : A -> M unit) : M unit :=
  match l with
  | [] => ret tt
  | x :: rest => bind (body x) (fun _ => for_of rest body)
  end.

(** A loop that pushes into a local array. *)
Fixpoint for_of_acc {A B} (l : list A) (acc : list B)
    (body : A -> list B -> M (list B)) : M (list B) :=
  match l with
  | [] => ret acc
  | x :: rest => bind (body x acc) (fun acc' => for_of_acc rest acc' body)
  end.

(** [when c m] : [if (c) { m }] *)
Definition when (c : bool) (m : M unit) : M unit :=
  if c then m else ret tt.

(** [wp m s Q] : run from [s], the computation [m] ends in a
    completion and a state that satisfy [Q]. *)
Definition wp {A} (m : M A) (s : St) (Q : Completion A -> St -> Prop)
    : Prop :=
  Q (fst (m s)) (snd (m s)).
End WithState.
End Monad.

Import Monad.

Declare Scope js_scope.
Delimit Scope js_scope with js.
Notation "'let*' x ':=' m 'in' k" := (bind m (fun x => k))
  (at level 10, x pattern, m at level 100, k at level 200) : js_scope.
Notation "m ';;' k" := (bind m (fun _ => k))
  (at level 100, k at level 200, right associativity) : js_scope.

(** ** Data model shared by the builder and the deployment script *)

(** The schema files are parsed JSON that the builder copies into the
    package without looking at it, so the deployment script can meet any
    value where it expects a schema or a field definition.  The types
    below keep the cases in which the script behaves differently; the
    leaves it only passes on to the remote request (option names, format,
    title) are kept as strings. *)

(** The [options] of a field definition, as [prop.options?.map(...)]
    sees it: absent or [null]; an array (of option names); or any other
    value, which has no method [map]. *)
Inductive OptionsValue :=
| OptionsNullish
| OptionsArray (l : list string)
| OptionsNotArray.

(** A field definition that is not [null].  [type] is [None] when the
    definition holds no string under [type]; [format] is [None] when it
    holds no truthy value under [format]. *)
Record PropertyDef := {
  type : option string;
  options : OptionsValue;
  format : option string
}.

(** A value of the [properties] object of a schema. *)
Inductive FieldValue :=
| NullField
| FieldOf (d : PropertyDef).

(** The content of a schema file that is not [null]: an optional display
    title and, when it has a truthy [properties], the entries of that
    object as [Object.entries] lists them. *)
Record Schema := {
  title : option string;
  properties : option (list (string * FieldValue))
}.

(** An entry of [buildPackage.schemas]; [schema] is [None] when the
    schema file holds [null]. *)
Record DbSchema := {
  name : string;
  schema : option Schema;
  tier : string
}.

Record ViewSort := {
  sort_property : string;
  direction : string
}.

Record ViewConfig := {
  filters : list string;
  sorts : list ViewSort;
  view_properties : list string;
  groupBy : option string
}.

Record View := {
  view_name : string;
  view_type : string;
  configuration : ViewConfig;
  view_databases : list string
}.

(** A value of a sample record. *)
Inductive SampleValue :=
| SVString (s : string)
| SVNumber (q : Q).

(** A sample record: its entries in insertion order. *)
Definition SampleRecord : Type := list (string * SampleValue).

Record Customizations := {
  companyName : string;
  logo : option string;
  colorScheme : string;
  timezone : string;
  dateFormat : string;
  currency : string;
  measurementUnit : string
}.

Record BuildConfig := {
  config_client : string;
  config_tier : string;
  includeSampleData : bool;
  customizations : Customizations;
  config_features : option (list string);
  config_databases : option (list string);
  config_views : option (list string)
}.

Record Documentation := {
  doc_setup : string;
  doc_features : string;
  doc_api : string;
  doc_troubleshooting : string
}.

Record Metadata := {
  buildDuration : Z;
  includedFeatures : nat;
  databaseCount : nat;
  viewCount : nat
}.

(** The build package.  [schemas] and [sampleData] are optional because the
    deployment script reads the package back from a file and guards both
    ([buildPackage.schemas || []], [!buildPackage.sampleData]). *)
Record BuildPackage := {
  buildId : string;
  timestamp : string;
  client : string;
  bp_tier : string;
  version : string;
  config : BuildConfig;
  schemas : option (list DbSchema);
  bp_views : list View;
  sampleData : option (gmap string (list SampleRecord));
  integrations : list string;
  documentation : Documentation;
  metadata : Metadata
}.

(** ** The platform: environment, clock and file system

    The file system and the clock are oracles.  [now n] is the value of the
    [n]-th reading of the clock ([Date.now()] or [new Date()]);
    [numberToString] is [String(x)] on numbers; [readSchema] and [readBuildPackage]
    stand for [fs.readFile] followed by [JSON.parse]; [mkdir] and
    [writeFile] return the error they throw, if any. *)
Record Host := {
  env : gmap string string;
  cwd : string;
  dirname : string;
  now : nat -> Z;
  toISOString : Z -> string;
  toLocaleDateString : Z -> string;
  numberToString : Q -> string;
  package_version : option string;
  mkdir : string -> option JsError;
  readdir : string -> Completion (list string);
  readSchema : string -> Completion (option Schema);
  readBuildPackage : string -> Completion BuildPackage;
  writeFile : string -> option JsError
}.

(** [path.join(a, b)] on the relative paths the scripts build. *)
Definition path_join (a b : string) : string := a +:+ "/" +:+ b.

(** [TypeError] raised by reading a property of [undefined]. *)
Definition TypeError_undefined (prop : string) : JsError :=
  Error ("Cannot read properties of undefined (reading '" +:+ prop +:+ "')").

(** [s.split(sep)[0]] for a one-character separator. *)
Fixpoint split_head (sep : ascii) (s : string) : string :=
  match s with
  | EmptyString => EmptyString
  | String c rest =>
      if Ascii.eqb c sep then EmptyString else String c (split_head sep rest)
  end.

(** ** The template builder *)

Module Builder.

Record TemplateConfig := {
  databases : list string;
  views : list string;
  features : list string
}.

Definition starter_config : TemplateConfig := {|
  databases := ["projects"; "tasks"; "clients"; "documents"; "team-members"];
  views := ["active-projects"; "pending-tasks"; "client-overview";
            "recent-documents"];
  features := ["basic-project-tracking"; "task-management";
               "client-contact-management"; "document-storage"]
|}.

Definition professional_config : TemplateConfig := {|
  databases := ["projects"; "tasks"; "clients"; "documents"; "team-members";
                "materials"; "vendors"; "budgets"; "expenses"; "schedules"];
  views := ["project-dashboard"; "task-kanban"; "client-portal";
            "material-inventory"; "vendor-directory"; "budget-tracking";
            "expense-reports"; "project-timeline"];
  features := ["all-starter-features"; "material-management";
               "vendor-management"; "budget-tracking"; "expense-management";
               "project-scheduling"; "reporting-dashboard"]
|}.

Definition enterprise_config : TemplateConfig := {|
  databases := ["projects"; "tasks"; "clients"; "documents"; "team-members";
                "materials"; "vendors"; "budgets"; "expenses"; "schedules";
                "portfolios"; "contracts"; "reports"; "integrations";
                "automations"];
  views := ["portfolio-overview"; "project-dashboard"; "task-kanban";
            "client-portal"; "material-inventory"; "vendor-directory";
            "budget-tracking"; "expense-reports"; "project-timeline";
            "contract-management"; "analytics-dashboard"; "integration-hub"];
  features := ["all-professional-features"; "portfolio-management";
               "contract-management"; "advanced-analytics";
               "custom-integrations"; "workflow-automation";
               "multi-project-tracking"; "enterprise-reporting"]
|}.

(** [templateConfigs] : the static tier catalog, keyed by tier name. *)
Definition templateConfigs : gmap string TemplateConfig :=
  <["starter" := starter_config]>
  (<["professional" := professional_config]>
  (<["enterprise" := enterprise_config]> ∅)).

(** Resource-type names of a tier ([templateConfigs[tier].databases]);
    no names for a tier outside the catalog. *)
Definition resourceTypes (tier : string) : list string :=
  match templateConfigs !! tier with
  | Some c => databases c
  | None => []
  end.

(** The options object handed to [buildTemplate]. *)
Record Options := {
  opt_tier : string;
  opt_client : string;
  opt_sampleData : bool
}.

(** What the builder changes: the number of clock readings made so far
    and the paths of the files written. *)
Record BuildState := {
  ticks : nat;
  written : list string
}.

Definition initial_state : BuildState := {| ticks := 0; written := [] |}.

Section WithHost.
Variable h : Host.

Local Abbreviation M := (@Monad.M BuildState).
Local Open Scope js_scope.

(** [Date.now()] *)
Definition Date_now : M Z :=
  fun s => (Normal (now h (ticks s)),
            {| ticks := S (ticks s); written := written s |}).

(** [fs.writeFile(path, ...)] *)
Definition fs_writeFile (path : string) : M unit :=
  fun s =>
    match writeFile h path with
    | Some e => (Throw e, s)
    | None => (Normal tt,
               {| ticks := ticks s; written := written s ++ [path] |})
    end.

(** [ensureDirectoryExists(dirPath)] *)
Definition ensureDirectoryExists (dirPath : string) : M unit :=
  match mkdir h dirPath with
  | None => ret tt
  | Some e =>
      if bool_decide (code e = Some "EEXIST") then ret tt else throw e
  end.

(** [generateTemplateConfig(options)].  It reads three fields of
    [templateConfigs[options.tier]]: that throws when the tier is no
    property of the catalog at all, and gives [undefined] three times when
    the tier is a name inherited from [Object.prototype]. *)
Definition generateTemplateConfig (options : Options) : M BuildConfig :=
  match JS.get templateConfigs (opt_tier options) with
  | JS.Undefined => throw (TypeError_undefined "features")
  | found =>
      ret {| config_client := opt_client options;
             config_tier := opt_tier options;
             includeSampleData := opt_sampleData options;
             customizations :=
               {| companyName := opt_client options;
                  logo := None;
                  colorScheme := "construction-blue";
                  timezone := "UTC";
                  dateFormat := "MM/DD/YYYY";
                  currency := "USD";
                  measurementUnit := "imperial" |};
             config_features := JS.field features found;
             config_databases := JS.field databases found;
             config_views := JS.field views found |}
  end.

(** [generateDefaultSchemas(tier)] *)
Definition generateDefaultSchemas (tier : string) : list DbSchema :=
  [ {| name := "projects";
       schema :=
         Some
           {| title := Some "Projects";
              properties := Some
                [ ("Name", FieldOf {| type := Some "title";
                                      options := OptionsNullish;
                                      format := None |});
                  ("Status", FieldOf {| type := Some "select";
                                        options :=
                                          OptionsArray ["Planning";
                                                        "In Progress";
                                                        "Completed"];
                                        format := None |});
                  ("Budget", FieldOf {| type := Some "number";
                                        options := OptionsNullish;
                                        format := Some "dollar" |}) ] |};
       tier := tier |} ].

Definition baseSchemasPath : string :=
  path_join (dirname h) "../src/schemas/databases".

(** [file.replace('.json', '')] : the name under which a schema file is
    selected. *)
Definition schemaNameOf (file : string) : string :=
  JS.replace file ".json" EmptyString.

(** The loop over the schema files inside the [try] block of
    [buildDatabaseSchemas].  It returns the array [schemas] as it is
    when the loop ends, and the error that ended it, if any: what was
    pushed before a throw stays in the array. *)
Fixpoint loadSchemaFiles (tier : string) (jsonFiles : list string)
    (schemas : list DbSchema) : list DbSchema * option JsError :=
  match jsonFiles with
  | [] => (schemas, None)
  | file :: rest =>
      match readSchema h (path_join baseSchemasPath file) with
      | Throw e => (schemas, Some e)
      | Normal sch =>
          let schemaName := schemaNameOf file in
          match JS.get templateConfigs tier with
          | JS.Undefined => (schemas, Some (TypeError_undefined "databases"))
          | JS.Inherited => (schemas, Some (TypeError_undefined "includes"))
          | JS.Own c =>
              if JS.arr_includes (databases c) schemaName
              then loadSchemaFiles tier rest
                     (schemas ++ [ {| name := schemaName; schema := sch;
                                      tier := tier |} ])
              else loadSchemaFiles tier rest schemas
          end
      end
  end.

(** [buildDatabaseSchemas(tier)] : it never throws. *)
Definition buildDatabaseSchemas (tier : string) : list DbSchema :=
  match readdir h baseSchemasPath with
  | Throw _ => generateDefaultSchemas tier
  | Normal files =>
      let jsonFiles := filter (fun f => JS.endsWith f ".json" = true) files in
      match loadSchemaFiles tier jsonFiles [] with
      | (schemas, None) => schemas
      | (schemas, Some _) => schemas ++ generateDefaultSchemas tier
      end
  end.

(** [getViewType(viewName)] *)
Definition getViewType (viewName : string) : string :=
  if JS.includes viewName "kanban" then "kanban"
  else if JS.includes viewName "timeline" || JS.includes viewName "schedule"
       then "timeline"
  else if JS.includes viewName "dashboard" || JS.includes viewName "overview"
       then "table"
  else if JS.includes viewName "calendar" then "calendar"
  else "table".

(** [generateViewConfig(viewName, tier)] *)
Definition generateViewConfig (viewName tier : string) : ViewConfig :=
  {| filters := [];
     sorts := [ {| sort_property := "created_time";
                   direction := "descending" |} ];
     view_properties := ["title"; "status"; "created_time"];
     groupBy := if JS.includes viewName "status" then Some "status"
                else None |}.

Definition databaseMappings : gmap string (list string) :=
  list_to_map
    [ ("active-projects", ["projects"]);
      ("pending-tasks", ["tasks"]);
      ("client-overview", ["clients"]);
      ("project-dashboard", ["projects"; "tasks"]);
      ("task-kanban", ["tasks"]);
      ("material-inventory", ["materials"]);
      ("vendor-directory", ["vendors"]);
      ("budget-tracking", ["budgets"]);
      ("portfolio-overview", ["portfolios"; "projects"]) ].

(** [getViewDatabases(viewName)], for the names it is called with: the
    view names of the catalog, none of which is a member of
    [Object.prototype]. *)
Definition getViewDatabases (viewName : string) : list string :=
  default ["projects"] (databaseMappings !! viewName).

(** [buildViewConfigurations(tier)] *)
Definition buildViewConfigurations (tier : string) : M (list View) :=
  match JS.get templateConfigs tier with
  | JS.Undefined => throw (TypeError_undefined "views")
  | JS.Inherited => throw (Error "tierViews is not iterable")
  | JS.Own c =>
      ret (map (fun viewName =>
                  {| view_name := viewName;
                     view_type := getViewType viewName;
                     configuration := generateViewConfig viewName tier;
                     view_databases := getViewDatabases viewName |})
               (views c))
  end.

(** [new Date(t).toISOString().split('T')[0]] *)
Definition isoDate (t : Z) : string := split_head "T"%char (toISOString h t).

Definition project_status (i : nat) : string :=
  if (i =? 1)%nat then "In Progress"
  else if (i =? 2)%nat then "Planning" else "Not Started".

Definition sampleProject (client : string) (i : nat) (t : Z) : SampleRecord :=
  [ ("title", SVString (client +:+ " Project " +:+ pretty i));
    ("status", SVString (project_status i));
    ("type", SVString "Commercial Construction");
    ("budget", SVNumber (inject_Z (100000 * Z.of_nat i)));
    ("startDate",
     SVString (isoDate (t + Z.of_nat i * 7 * 24 * 60 * 60 * 1000)));
    ("description",
     SVString ("Sample construction project " +:+ pretty i +:+ " for "
               +:+ client)) ].

(** The body of the counting loops [for (let i = 1; i <= n; i++)] that
    push one record per round, each reading the clock once. *)
Fixpoint generate_records (mk : nat -> Z -> SampleRecord)
    (indices : list nat) : M (list SampleRecord) :=
  match indices with
  | [] => ret []
  | i :: rest =>
      let* t := Date_now in
      let* others := generate_records mk rest in
      ret (mk i t :: others)
  end.

(** [generateSampleProjects(tier, client)] *)
Definition generateSampleProjects (tier client : string)
    : M (list SampleRecord) :=
  let projectCount :=
    if String.eqb tier "starter" then 2%nat
    else if String.eqb tier "professional" then 5%nat else 8%nat in
  generate_records (sampleProject client) (seq 1 projectCount).

Definition taskTypes : list string :=
  ["Foundation"; "Framing"; "Electrical"; "Plumbing"; "Roofing";
   "Finishing"].

Definition sampleTask (i : nat) (t : Z) : SampleRecord :=
  [ ("title",
     SVString (nth (i mod length taskTypes) taskTypes EmptyString
               +:+ " - Task " +:+ pretty i));
    ("status",
     SVString (if (i mod 3 =? 0)%nat then "Completed"
               else if (i mod 3 =? 1)%nat then "In Progress"
               else "Not Started"));
    ("priority", SVString (if (i mod 4 =? 0)%nat then "High" else "Normal"));
    ("dueDate",
     SVString (isoDate (t + Z.of_nat i * 24 * 60 * 60 * 1000))) ].

(** [generateSampleTasks(tier)] *)
Definition generateSampleTasks (tier : string) : M (list SampleRecord) :=
  let taskCount :=
    if String.eqb tier "starter" then 10%nat
    else if String.eqb tier "professional" then 25%nat else 40%nat in
  generate_records sampleTask (seq 1 taskCount).

(** [generateSampleClients(tier, client)] *)
Definition generateSampleClients (tier client : string)
    : list SampleRecord :=
  [ [ ("name", SVString client);
      ("type", SVString "Primary Client");
      ("contact", SVString "project@example.com");
      ("phone", SVString "(555) 123-4567");
      ("status", SVString "Active") ] ].

(** [generateSampleMaterials(tier)] *)
Definition generateSampleMaterials (tier : string) : list SampleRecord :=
  [ [ ("name", SVString "Concrete"); ("unit", SVString "cubic yards");
      ("cost", SVNumber (120 # 1)); ("supplier", SVString "ABC Concrete") ];
    [ ("name", SVString "Steel Rebar"); ("unit", SVString "tons");
      ("cost", SVNumber (800 # 1));
      ("supplier", SVString "Steel Supply Co") ];
    [ ("name", SVString "2x4 Lumber"); ("unit", SVString "board feet");
      ("cost", SVNumber (3 # 4)); ("supplier", SVString "Lumber Depot") ] ].

(** [generateSampleVendors(tier)] *)
Definition generateSampleVendors (tier : string) : list SampleRecord :=
  [ [ ("name", SVString "ABC Concrete");
      ("type", SVString "Material Supplier");
      ("contact", SVString "orders@abcconcrete.com") ];
    [ ("name", SVString "Steel Supply Co");
      ("type", SVString "Material Supplier");
      ("contact", SVString "sales@steelsupply.com") ];
    [ ("name", SVString "Elite Electrical");
      ("type", SVString "Subcontractor");
      ("contact", SVString "jobs@eliteelectric.com") ] ].

(** [generateSampleData(tier, client)] : the entries whose value is
    [null] are deleted from the object. *)
Definition generateSampleData (tier client : string)
    : M (gmap string (list SampleRecord)) :=
  let* projects := generateSampleProjects tier client in
  let* tasks := generateSampleTasks tier in
  let clients := generateSampleClients tier client in
  let materials :=
    if negb (String.eqb tier "starter")
    then Some (generateSampleMaterials tier) else None in
  let vendors :=
    if String.eqb tier "enterprise" || String.eqb tier "professional"
    then Some (generateSampleVendors tier) else None in
  let with_opt (k : string) (v : option (list SampleRecord))
               (m : gmap string (list SampleRecord)) :=
    match v with Some x => <[k := x]> m | None => m end in
  ret (with_opt "vendors" vendors
        (with_opt "materials" materials
          (<["clients" := clients]>
            (<["tasks" := tasks]> (<["projects" := projects]> ∅))))).

(** [buildIntegrationConfigs(tier)] *)
Definition buildIntegrationConfigs (tier : string) : list string := [].

(** [generateDocumentation(options)] *)
Definition generateDocumentation (options : Options) : Documentation :=
  {| doc_setup := "Setup guide for " +:+ opt_tier options
                  +:+ " tier construction template";
     doc_features := "Feature documentation for " +:+ opt_client options;
     doc_api := "API integration documentation";
     doc_troubleshooting := "Common issues and solutions" |}.

(** [getPackageVersion()] *)
Definition getPackageVersion : string :=
  default "1.0.0" (package_version h).

(** [saveBuildComponents(buildPackage)] *)
Definition saveBuildComponents (buildPackage : BuildPackage) : M unit :=
  ensureDirectoryExists "dist/schemas" ;;
  for_of (default [] (schemas buildPackage))
    (fun sch =>
       fs_writeFile (path_join "dist/schemas" (name sch +:+ ".json"))) ;;
  ensureDirectoryExists "dist/docs" ;;
  fs_writeFile (path_join "dist/docs" "README.md").

(** [buildTemplate(options)] : the [catch] block of the source rethrows
    the error it caught. *)
Definition buildTemplate (options : Options) : M BuildPackage :=
  let* startTime := Date_now in
  let* idTime := Date_now in
  let buildId := "build-" +:+ pretty idTime in
  try_catch
    (ensureDirectoryExists "dist" ;;
     let* templateConfig := generateTemplateConfig options in
     let schemas := buildDatabaseSchemas (opt_tier options) in
     let* views := buildViewConfigurations (opt_tier options) in
     let* sampleData :=
       if opt_sampleData options
       then (let* d := generateSampleData (opt_tier options)
                         (opt_client options) in ret (Some d))
       else ret None in
     let integrations := buildIntegrationConfigs (opt_tier options) in
     let documentation := generateDocumentation options in
     let* stampTime := Date_now in
     let* endTime := Date_now in
     match JS.get templateConfigs (opt_tier options) with
     | JS.Undefined => throw (TypeError_undefined "features")
     | JS.Inherited => throw (TypeError_undefined "length")
     | JS.Own c =>
         let buildPackage :=
           {| buildId := buildId;
              timestamp := toISOString h stampTime;
              client := opt_client options;
              bp_tier := opt_tier options;
              version := getPackageVersion;
              config := templateConfig;
              schemas := Some schemas;
              bp_views := views;
              sampleData := sampleData;
              integrations := integrations;
              documentation := documentation;
              metadata :=
                {| buildDuration := endTime - startTime;
                   includedFeatures := length (features c);
                   databaseCount := length schemas;
                   viewCount := length views |} |} in
         let buildPath :=
           path_join "dist"
             ("template-" +:+ opt_tier options +:+ "-" +:+ buildId
              +:+ ".json") in
         fs_writeFile buildPath ;;
         saveBuildComponents buildPackage ;;
         let* logTime := Date_now in
         ret buildPackage
     end)
    (fun error => throw error).
End WithHost.
End Builder.

(** ** The cost estimator *)

Module Estimator.

Record TierCost := {
  databases : Z;
  views : Z;
  pages : Z;
  properties : Z;
  integrations : Z;
  automations : Z;
  sampleData : list (string * Z)
}.

(** [tierCosts] *)
Definition tierCosts : gmap string TierCost :=
  <["starter" :=
      {| databases := 8; views := 15; pages := 50; properties := 40;
         integrations := 0; automations := 5;
         sampleData := [("projects", 3); ("tasks", 25); ("clients", 5);
                        ("materials", 20)] |}]>
  (<["professional" :=
      {| databases := 15; views := 35; pages := 150; properties := 100;
         integrations := 10; automations := 20;
         sampleData := [("projects", 8); ("tasks", 80); ("clients", 15);
                        ("materials", 100); ("vendors", 12);
                        ("budgets", 8)] |}]>
  (<["enterprise" :=
      {| databases := 25; views := 60; pages := 300; properties := 200;
         integrations := 25; automations := 40;
         sampleData := [("projects", 15); ("tasks", 200); ("clients", 30);
                        ("materials", 250); ("vendors", 25); ("budgets", 15);
                        ("reports", 20); ("portfolios", 5)] |}]> ∅)).

(** The number of seed records of a tier of the cost table. *)
Definition seedRecords (c : TierCost) : Z :=
  foldr Z.add 0 (map snd (sampleData c)).

Record ApiWeights := {
  createDatabase : Z;
  updateDatabase : Z;
  createPage : Z;
  updatePage : Z;
  addProperty : Z;
  createView : Z;
  setupIntegration : Z;
  createAutomation : Z;
  uploadFile : Z
}.

(** [apiWeights] *)
Definition apiWeights : ApiWeights := {|
  createDatabase := 2;
  updateDatabase := 1;
  createPage := 1;
  updatePage := 1;
  addProperty := 1;
  createView := 1;
  setupIntegration := 3;
  createAutomation := 2;
  uploadFile := 1
|}.

Record EstimatedTime := {
  seconds : Z;
  minutes : Z;
  formatted : string
}.

Record Cost := {
  cost_apiCalls : Z;
  compute_minutes : Z;
  compute_estimated : string;
  cost_total : string;
  cost_note : string
}.

Record Estimate := {
  tier : string;
  totalApiCalls : Z;
  estimatedTime : EstimatedTime;
  breakdown : gmap string Z;
  rateLimit : string;
  includeSampleData : bool;
  cost : Cost;
  recommendations : list string
}.

(** [calculateCost(apiCalls)] *)
Definition calculateCost (apiCalls : Z) : Cost :=
  let computeMinutes := JS.ceil_div apiCalls 60 in
  {| cost_apiCalls := 0;
     compute_minutes := computeMinutes;
     compute_estimated := "$0.00";
     cost_total := "$0.00";
     cost_note := "Notion API calls are free, compute costs are typically included in CI/CD platforms" |}.

(** [formatTime(seconds)] *)
Definition formatTime (seconds : Z) : string :=
  if seconds <? 60 then pretty seconds +:+ " seconds"
  else if seconds <? 3600 then
    let minutes := JS.floor_div seconds 60 in
    let remainingSeconds := seconds mod 60 in
    pretty minutes +:+ "m " +:+ pretty remainingSeconds +:+ "s"
  else
    let hours := JS.floor_div seconds 3600 in
    let minutes := JS.floor_div (seconds mod 3600) 60 in
    pretty hours +:+ "h " +:+ pretty minutes +:+ "m".

(** [generateRecommendations(tier, apiCalls)] *)
Definition generateRecommendations (tier : string) (apiCalls : Z)
    : list string :=
  (if 1000 <? apiCalls
   then ["Consider running deployment during off-peak hours to minimize impact";
         "Monitor API rate limits closely during deployment"]
   else [])
  ++ (if String.eqb tier "starter"
      then ["Starter tier deployment should complete quickly";
            "Consider upgrading to Professional for more features"]
      else if String.eqb tier "enterprise"
      then ["Enterprise deployment includes all features and integrations";
            "Allow extra time for complex automation setup"]
      else [])
  ++ (if apiCalls <? 100
      then ["This is a lightweight deployment that should complete very quickly"]
      else []).

(** What [estimateDeploymentCost] returns: an estimate, or the object
    without a number.  The latter is what the function builds when
    [tierCosts[tier]] is a value inherited from [Object.prototype]: every
    field it reads from that value is [undefined], so the total, the
    seconds, the minutes, the compute minutes and every entry of the
    breakdown but the base setup are [NaN]; the formatted time is the text
    NaNh NaNm, the seed data is not included and there is no
    recommendation. *)
Inductive Estimation :=
| Finite (e : Estimate)
| NotANumber (tier : string).

(** [estimateDeploymentCost(tier, options)].  [sampleDataOption] is
    [options.sampleData]: [None] when the option is not given.  The guard
    [!tierConfig] stops the tiers that are no property of the cost table
    at all; for an inherited name the function goes on, and throws only
    if it comes to [Object.values(tierConfig.sampleData)]. *)
Definition estimateDeploymentCost (tier : string)
    (sampleDataOption : option bool) : Completion Estimation :=
  match JS.get tierCosts tier with
  | JS.Undefined => Throw (Error ("Unknown tier: " +:+ tier))
  | JS.Inherited =>
      let includeSampleData :=
        negb (bool_decide (sampleDataOption = Some false)) in
      if includeSampleData
      then Throw (Error "Cannot convert undefined or null to object")
      else Normal (NotANumber tier)
  | JS.Own tierConfig =>
      let includeSampleData :=
        negb (bool_decide (sampleDataOption = Some false)) in
      let totalApiCalls := 0 in
      let breakdown : gmap string Z := ∅ in
      (* Database creation *)
      let databaseCalls := databases tierConfig * createDatabase apiWeights in
      let totalApiCalls := totalApiCalls + databaseCalls in
      let breakdown := <["databases" := databaseCalls]> breakdown in
      (* View creation *)
      let viewCalls := views tierConfig * createView apiWeights in
      let totalApiCalls := totalApiCalls + viewCalls in
      let breakdown := <["views" := viewCalls]> breakdown in
      (* Property setup *)
      let propertyCalls := properties tierConfig * addProperty apiWeights in
      let totalApiCalls := totalApiCalls + propertyCalls in
      let breakdown := <["properties" := propertyCalls]> breakdown in
      (* Integration setup *)
      let integrationCalls :=
        integrations tierConfig * setupIntegration apiWeights in
      let totalApiCalls := totalApiCalls + integrationCalls in
      let breakdown := <["integrations" := integrationCalls]> breakdown in
      (* Automation setup *)
      let automationCalls :=
        automations tierConfig * createAutomation apiWeights in
      let totalApiCalls := totalApiCalls + automationCalls in
      let breakdown := <["automations" := automationCalls]> breakdown in
      (* Sample data creation *)
      let sampleDataCalls :=
        fold_left (fun sum count => sum + count)
                  (map snd (sampleData tierConfig)) 0
        * createPage apiWeights in
      let totalApiCalls :=
        if includeSampleData then totalApiCalls + sampleDataCalls
        else totalApiCalls in
      let breakdown :=
        if includeSampleData
        then <["sampleData" := sampleDataCalls]> breakdown else breakdown in
      (* Base configuration calls *)
      let baseCalls := 20 in
      let totalApiCalls := totalApiCalls + baseCalls in
      let breakdown := <["baseSetup" := baseCalls]> breakdown in
      (* Estimated time based on API rate limits (3 requests per second) *)
      let estimatedSeconds := JS.ceil_div totalApiCalls 3 in
      let estimatedMinutes := JS.ceil_div estimatedSeconds 60 in
      Normal (Finite
        {| tier := tier;
           totalApiCalls := totalApiCalls;
           estimatedTime :=
             {| seconds := estimatedSeconds;
                minutes := estimatedMinutes;
                formatted := formatTime estimatedSeconds |};
           breakdown := breakdown;
           rateLimit := "3 requests/second (Notion API)";
           includeSampleData := includeSampleData;
           cost := calculateCost totalApiCalls;
           recommendations := generateRecommendations tier totalApiCalls |})
  end.

(** [compareTiers()] *)
Definition compareTiers : list (string * Completion Estimation) :=
  map (fun tier => (tier, estimateDeploymentCost tier (Some true)))
      ["starter"; "professional"; "enterprise"].

End Estimator.

(** ** The input validator *)

Module Validator.

Record TierConfiguration := {
  maxProjects : Z;
  maxUsers : Z;
  features : list string;
  integrations : list string
}.

(** [tierConfigurations] *)
Definition tierConfigurations : gmap string TierConfiguration :=
  <["starter" :=
      {| maxProjects := 5; maxUsers := 2;
         features := ["basic-project-management"; "task-tracking";
                      "client-management"];
         integrations := [] |}]>
  (<["professional" :=
      {| maxProjects := 25; maxUsers := 10;
         features := ["all-starter-features"; "material-management";
                      "financial-tracking"; "vendor-management"];
         integrations := ["slack"; "email"] |}]>
  (<["enterprise" :=
      {| maxProjects := -1; maxUsers := -1;
         features := ["all-professional-features"; "multi-project-portfolio";
                      "advanced-analytics"; "api-access"];
         integrations := ["slack"; "email"; "quickbooks";
                          "custom-api"] |}]> ∅)).

(** The double-quote character. *)
Definition dquote : ascii := ascii_of_nat 34.

(** [validateNotionToken(token)] *)
Definition validateNotionToken (token : string) : Completion unit :=
  if negb (JS.startsWith token "secret_")
  then Throw (Error ("Notion token must start with "
                     +:+ String dquote ("secret_" +:+ String dquote EmptyString)))
  else if negb (String.length token =? 50)%nat
  then Throw (Error "Notion token must be exactly 50 characters long")
  else Normal tt.

(** [validateTierConfiguration(tier)].  After the guard it logs
    [config.features.length]: for a tier name inherited from
    [Object.prototype] the guard does not fire and that reading throws. *)
Definition validateTierConfiguration (tier : string) : Completion unit :=
  match JS.get tierConfigurations tier with
  | JS.Undefined => Throw (Error ("Unknown tier: " +:+ tier))
  | JS.Inherited => Throw (TypeError_undefined "length")
  | JS.Own _ => Normal tt
  end.

(** The characters of the class of the regular expression: less-than,
    greater-than, colon, double quote (written by its code), slash,
    backslash, bar, question mark and star. *)
Definition problematicChars : list ascii :=
  [ "<"%char; ">"%char; ":"%char; dquote; "/"%char; "\"%char;
    "|"%char; "?"%char; "*"%char ].

(** [problematicChars.test(s)] : some character of [s] is in the class. *)
Fixpoint problematicChars_test (s : string) : bool :=
  match s with
  | EmptyString => false
  | String c rest =>
      existsb (Ascii.eqb c) problematicChars || problematicChars_test rest
  end.

Definition reservedWords : list string :=
  ["notion"; "template"; "system"; "admin"; "api"].

(** [validateClientName(client)] *)
Definition validateClientName (client : string) : Completion unit :=
  if problematicChars_test client
  then Throw (Error "Client name contains invalid characters")
  else if JS.arr_includes reservedWords (JS.toLowerCase client)
  then Throw (Error "Client name cannot be a reserved word")
  else Normal tt.

(** The test of the token pattern of [deploymentSchema]: the text secret_
    followed by exactly 43 letters or digits. *)
Definition is_alnum (c : ascii) : bool :=
  let n := nat_of_ascii c in
  ((48 <=? n) && (n <=? 57) || (65 <=? n) && (n <=? 90)
   || (97 <=? n) && (n <=? 122))%nat.

Fixpoint all_chars (p : ascii -> bool) (s : string) : bool :=
  match s with
  | EmptyString => true
  | String c rest => p c && all_chars p rest
  end.

Definition tokenPattern_test (token : string) : bool :=
  JS.startsWith token "secret_"
  && all_chars is_alnum (JS.drop_chars 7 token)
  && (String.length (JS.drop_chars 7 token) =? 43)%nat.

(** What [JSON.parse(configStr)] gives, as far as
    [validateIntegrationConfig] looks at it: a syntax error, the value
    [null], or any other value, seen through its [Object.keys]. *)
Inductive ParsedConfig :=
| ParseSyntaxError (msg : string)
| ParsedNull
| ParsedKeys (keys : list string).

(** The loop of [validateIntegrationConfig] over the keys of the
    configuration.  [tierConfig.integrations] is read in each round, so an
    unknown tier only fails when there is a key to check. *)
Fixpoint checkIntegrations (keys : list string) (tier : string)
    : Completion unit :=
  match keys with
  | [] => Normal tt
  | integration :: rest =>
      match JS.get tierConfigurations tier with
      | JS.Undefined => Throw (TypeError_undefined "integrations")
      | JS.Inherited => Throw (TypeError_undefined "includes")
      | JS.Own tierConfig =>
          if JS.arr_includes (integrations tierConfig) integration
          then checkIntegrations rest tier
          else Throw (Error ("Integration '" +:+ integration
                             +:+ "' not available in " +:+ tier +:+ " tier"))
      end
  end.

(** [validateIntegrationConfig(configStr, tier)], on the parse of
    [configStr]: a syntax error is replaced by the error of the script,
    every other error is thrown again. *)
Definition validateIntegrationConfig (parsed : ParsedConfig) (tier : string)
    : Completion unit :=
  match parsed with
  | ParseSyntaxError _ =>
      Throw (Error "Integration configuration must be valid JSON")
  | ParsedNull =>
      Throw (Error "Cannot convert undefined or null to object")
  | ParsedKeys keys => checkIntegrations keys tier
  end.

End Validator.

(** ** The deployment script *)

Module Deploy.

(** *** Translation of schemas to remote properties *)

Record SelectOption := {
  option_name : string;
  color : string
}.

(** The remote platform's property representations built by the script. *)
Inductive NotionProperty :=
| NP_title
| NP_select (opts : list SelectOption)
| NP_number (fmt : string)
| NP_date
| NP_checkbox
| NP_rich_text
| NP_url
| NP_email
| NP_phone_number
| NP_created_time.

(** [prop.type === kind] *)
Definition kindIs (d : PropertyDef) (kind : string) : bool :=
  match type d with
  | Some t => String.eqb t kind
  | None => false
  end.

(** [convertPropertyToNotion(prop)].  Reading [prop.type] throws when
    [prop] is [null]; in the case select, [prop.options?.map(...)] throws
    when the options are neither absent nor an array. *)
Definition convertPropertyToNotion (prop : FieldValue)
    : Completion NotionProperty :=
  match prop with
  | NullField =>
      Throw (Error "Cannot read properties of null (reading 'type')")
  | FieldOf d =>
      if kindIs d "title" then Normal NP_title
      else if kindIs d "select" then
        match options d with
        | OptionsNullish => Normal (NP_select [])
        | OptionsArray l =>
            Normal (NP_select
                      (map (fun opt => {| option_name := opt;
                                          color := "default" |}) l))
        | OptionsNotArray =>
            Throw (Error "prop.options?.map is not a function")
        end
      else if kindIs d "number" then
        Normal (NP_number (JS.or_else (format d) "number"))
      else if kindIs d "date" then Normal NP_date
      else if kindIs d "checkbox" then Normal NP_checkbox
      else if kindIs d "text" then Normal NP_rich_text
      else if kindIs d "url" then Normal NP_url
      else if kindIs d "email" then Normal NP_email
      else if kindIs d "phone" then Normal NP_phone_number
      else Normal NP_rich_text
  end.

(** The kinds that have a case of their own in [convertPropertyToNotion]. *)
Definition recognizedKinds : list string :=
  ["title"; "select"; "number"; "date"; "checkbox"; "text"; "url"; "email";
   "phone"].

Definition defaultProperties : gmap string NotionProperty :=
  <["Name" := NP_title]>
  (<["Status" :=
       NP_select [ {| option_name := "Planning"; color := "yellow" |};
                   {| option_name := "In Progress"; color := "blue" |};
                   {| option_name := "Completed"; color := "green" |};
                   {| option_name := "On Hold"; color := "red" |} ]]>
  (<["Created" := NP_created_time]> ∅)).

(** The loop [Object.entries(schema.properties).forEach(...)]: each
    entry is translated and assigned to [properties] under its name;
    the first translation that throws ends the loop. *)
Fixpoint translateEntries (entries : list (string * FieldValue))
    (properties : gmap string NotionProperty)
    : Completion (gmap string NotionProperty) :=
  match entries with
  | [] => Normal properties
  | (name, prop) :: rest =>
      match convertPropertyToNotion prop with
      | Throw e => Throw e
      | Normal p => translateEntries rest (JS.put properties name p)
      end
  end.

(** [convertSchemaToNotionProperties(schema)] : when the schema has a
    truthy [properties], its entries are translated; otherwise the
    defaults are copied.  Reading [schema.properties] throws when the
    schema is [null]. *)
Definition convertSchemaToNotionProperties (sch : option Schema)
    : Completion (gmap string NotionProperty) :=
  match sch with
  | None =>
      Throw (Error "Cannot read properties of null (reading 'properties')")
  | Some s =>
      match properties s with
      | Some entries => translateEntries entries ∅
      | None => Normal defaultProperties
      end
  end.

(** *** The remote API client *)

Record DatabaseRequest := {
  parent_page_id : string;
  request_title : string;
  request_properties : gmap string NotionProperty
}.

Inductive Block :=
| Heading1 (content : string)
| Paragraph (content : string).

Inductive RecordProperty :=
| RP_title (content : string)
| RP_select (selected : string)
| RP_number (value : Q)
| RP_rich_text (content : string).

Inductive PageRequest :=
| WorkspacePage (page_title : string) (children : list Block)
| DatabasePage (database_id : string) (props : gmap string RecordProperty).

(** The four operations of the client used by the script, over a state
    [World] of the remote workspace.  Each either returns its result or
    throws. *)
Record Notion := {
  World : Type;
  users_me : World -> Completion string * World;
  search : string -> World -> Completion (list string) * World;
  pages_create : PageRequest -> World -> Completion string * World;
  databases_create : DatabaseRequest -> World -> Completion string * World
}.

(** What the script does to the outside, in order. *)
Inductive Effect :=
| CallUsersMe
| CallSearch (query : string)
| CallPagesCreate (req : PageRequest)
| CallDatabasesCreate (req : DatabaseRequest)
| Sleep (ms : Z)
| WriteFile (path : string).

(** *** Deployment state *)

Record CreatedResource := {
  resource_type : string;
  resource_name : option string;
  id : string
}.

Record DeploymentError := {
  phase : string;
  resource : string;
  error : string
}.

Record DeploymentState := {
  ds_client : option string;
  ds_tier : option string;
  startTime : option Z;
  completedSteps : list string;
  createdResources : list CreatedResource;
  errors : list DeploymentError
}.

(** The module-level [deploymentState] as the script initialises it. *)
Definition deploymentState : DeploymentState := {|
  ds_client := None;
  ds_tier := None;
  startTime := None;
  completedSteps := [];
  createdResources := [];
  errors := []
|}.

Record DeploymentReport := {
  success : bool;
  report_client : string;
  report_tier : string;
  deploymentTime : Z;
  report_completedSteps : nat;
  report_createdResources : nat;
  report_errors : nat;
  summary_databases : nat;
  summary_pages : nat;
  summary_timestamp : string
}.

Section WithClient.
Variable h : Host.
Variable notion : Notion.

(** The state threaded through a run: the module-level state, the
    remote workspace, the effects so far and the number of clock
    readings. *)
Record Ctx := {
  state : DeploymentState;
  world : World notion;
  trace : list Effect;
  ticks : nat
}.

Local Abbreviation M := (@Monad.M Ctx).
Local Open Scope js_scope.

Definition with_state (f : DeploymentState -> DeploymentState) (c : Ctx)
    : Ctx :=
  {| state := f (state c); world := world c; trace := trace c;
     ticks := ticks c |}.

Definition emit (e : Effect) (w : World notion) (c : Ctx) : Ctx :=
  {| state := state c; world := w; trace := trace c ++ [e];
     ticks := ticks c |}.

Definition getState : M DeploymentState :=
  fun c => (Normal (state c), c).

Definition set_client (v : option string) : M unit :=
  modify (with_state (fun d =>
    {| ds_client := v; ds_tier := ds_tier d; startTime := startTime d;
       completedSteps := completedSteps d;
       createdResources := createdResources d; errors := errors d |})).

Definition set_tier (v : option string) : M unit :=
  modify (with_state (fun d =>
    {| ds_client := ds_client d; ds_tier := v; startTime := startTime d;
       completedSteps := completedSteps d;
       createdResources := createdResources d; errors := errors d |})).

Definition set_startTime (v : Z) : M unit :=
  modify (with_state (fun d =>
    {| ds_client := ds_client d; ds_tier := ds_tier d;
       startTime := Some v;
       completedSteps := completedSteps d;
       createdResources := createdResources d; errors := errors d |})).

(** [deploymentState.completedSteps.push(step)] *)
Definition push_step (step : string) : M unit :=
  modify (with_state (fun d =>
    {| ds_client := ds_client d; ds_tier := ds_tier d;
       startTime := startTime d;
       completedSteps := completedSteps d ++ [step];
       createdResources := createdResources d; errors := errors d |})).

(** [deploymentState.createdResources.push(r)] *)
Definition push_resource (r : CreatedResource) : M unit :=
  modify (with_state (fun d =>
    {| ds_client := ds_client d; ds_tier := ds_tier d;
       startTime := startTime d;
       completedSteps := completedSteps d;
       createdResources := createdResources d ++ [r];
       errors := errors d |})).

(** [deploymentState.errors.push(e)] *)
Definition push_error (e : DeploymentError) : M unit :=
  modify (with_state (fun d =>
    {| ds_client := ds_client d; ds_tier := ds_tier d;
       startTime := startTime d;
       completedSteps := completedSteps d;
       createdResources := createdResources d;
       errors := errors d ++ [e] |})).

(** [Date.now()] *)
Definition Date_now : M Z :=
  fun c => (Normal (now h (ticks c)),
            {| state := state c; world := world c; trace := trace c;
               ticks := S (ticks c) |}).

(** [sleep(ms)] *)
Definition sleep (ms : Z) : M unit :=
  fun c => (Normal tt, emit (Sleep ms) (world c) c).

(** [notion.users.me()] *)
Definition notion_users_me : M string :=
  fun c => let '(r, w) := users_me notion (world c) in
           (r, emit CallUsersMe w c).

(** [notion.search({ query, filter: pages })] *)
Definition notion_search (query : string) : M (list string) :=
  fun c => let '(r, w) := search notion query (world c) in
           (r, emit (CallSearch query) w c).

(** [notion.pages.create(req)] *)
Definition notion_pages_create (req : PageRequest) : M string :=
  fun c => let '(r, w) := pages_create notion req (world c) in
           (r, emit (CallPagesCreate req) w c).

(** [notion.databases.create(req)] *)
Definition notion_databases_create (req : DatabaseRequest) : M string :=
  fun c => let '(r, w) := databases_create notion req (world c) in
           (r, emit (CallDatabasesCreate req) w c).

(** [fs.writeFile(path, ...)] *)
Definition fs_writeFile (path : string) : M unit :=
  fun c =>
    match writeFile h path with
    | Some e => (Throw e, c)
    | None => (Normal tt, emit (WriteFile path) (world c) c)
    end.

(** Lifting of an evaluation that does not touch the context (a reading
    of the file system, a pure function that may throw). *)
Definition lift {A} (r : Completion A) : M A := fun c => (r, c).

(** [initializeEnvironment()] *)
Definition initializeEnvironment : M unit :=
  set_client (env h !! "CLIENT_NAME") ;;
  set_tier (Some (JS.or_else (env h !! "DEPLOYMENT_TIER") "professional")) ;;
  let* d := getState in
  if negb (JS.truthy (ds_client d))
  then throw (Error "CLIENT_NAME environment variable is required")
  else if negb (JS.truthy (env h !! "NOTION_TOKEN"))
  then throw (Error "NOTION_TOKEN environment variable is required")
  else push_step "environment_init".

(** The [try] block of [loadBuildArtifacts]: the name of the latest
    build file of the tier. *)
Definition latestBuildFile (distPath : string) : M string :=
  let* files := lift (readdir h distPath) in
  let* d := getState in
  let tierName := default "null" (ds_tier d) in
  let buildFiles :=
    filter (fun file =>
              JS.startsWith file ("template-" +:+ tierName)
              && JS.endsWith file ".json" = true) files in
  match last (JS.sort buildFiles) with
  | None => throw (Error ("No build artifacts found for tier: " +:+ tierName))
  | Some buildFile => ret buildFile
  end.

(** [loadBuildArtifacts()] *)
Definition loadBuildArtifacts : M BuildPackage :=
  let distPath := path_join (cwd h) "dist" in
  let* buildFile :=
    try_catch (latestBuildFile distPath)
      (fun _ => throw (Error
         "Build artifacts directory not found. Run build-template.js first.")) in
  let buildPath := path_join distPath buildFile in
  let* buildPackage := lift (readBuildPackage h buildPath) in
  push_step "artifacts_loaded" ;;
  ret buildPackage.

(** [initializeNotionClient()] : the identity probe. *)
Definition initializeNotionClient : M unit :=
  try_catch (let* user := notion_users_me in ret tt)
    (fun error =>
       throw (Error ("Failed to connect to Notion: " +:+ message error))) ;;
  push_step "notion_connected".

(** The query of the search for the parent page of a client, which is
    also the title of the page created when the search finds none. *)
Definition parentQuery (clientName : string) : string :=
  clientName +:+ " Construction Management".

(** [getOrCreateParentPage(notion, clientName)] *)
Definition getOrCreateParentPage (clientName : string) : M string :=
  let* results := notion_search (parentQuery clientName) in
  match results with
  | first :: _ => ret first
  | [] => notion_pages_create (WorkspacePage (parentQuery clientName) [])
  end.

(** The request for the database of a schema under the page [page_id]. *)
Definition databaseRequest (dbSchema : DbSchema) (clientName : string)
    (page_id : string) (notionProperties : gmap string NotionProperty)
    : DatabaseRequest :=
  {| parent_page_id := page_id;
     request_title :=
       clientName +:+ " - "
       +:+ JS.or_else (schema dbSchema ≫= title) (name dbSchema);
     request_properties := notionProperties |}.

(** [createDatabase(notion, dbSchema, clientName)] : the schema is
    translated first, before any call to the remote workspace. *)
Definition createDatabase (dbSchema : DbSchema) (clientName : string)
    : M string :=
  let* notionProperties :=
    lift (convertSchemaToNotionProperties (schema dbSchema)) in
  let* page_id := getOrCreateParentPage clientName in
  notion_databases_create
    (databaseRequest dbSchema clientName page_id notionProperties).

(** One round of the loop of [deployPhase1_Databases]. *)
Definition deployDatabase (clientName : string) (dbSchema : DbSchema)
    (createdDatabases : list string) : M (list string) :=
  try_catch
    (let* database := createDatabase dbSchema clientName in
     push_resource {| resource_type := "database";
                      resource_name := Some (name dbSchema);
                      id := database |} ;;
     sleep 1000 ;;
     ret (createdDatabases ++ [database])%list)
    (fun e =>
       push_error {| phase := "databases";
                     resource := name dbSchema;
                     error := message e |} ;;
       ret createdDatabases).

(** [deployPhase1_Databases(notion, buildPackage)] *)
Definition deployPhase1_Databases (buildPackage : BuildPackage)
    : M (list string) :=
  let databases := default [] (schemas buildPackage) in
  let* createdDatabases :=
    for_of_acc databases [] (deployDatabase (client buildPackage)) in
  push_step "databases_deployed" ;;
  ret createdDatabases.

(** [deployPhase2_Views(notion, buildPackage)] *)
Definition deployPhase2_Views (buildPackage : BuildPackage) : M unit :=
  push_step "views_deployed".

(** [String(value)] *)
Definition String_of (v : SampleValue) : string :=
  match v with
  | SVString s => s
  | SVNumber q => numberToString h q
  end.

(** [convertRecordToNotionProperties(record)] *)
Definition convertRecordToNotionProperties (record : SampleRecord)
    : gmap string RecordProperty :=
  fold_left
    (fun properties entry =>
       let '(key, value) := entry in
       if String.eqb key "title" || String.eqb key "name"
       then <["Name" := RP_title (String_of value)]> properties
       else match value with
            | SVString s =>
                if JS.arr_includes
                     ["Planning"; "In Progress"; "Completed"; "Active"] s
                then <["Status" := RP_select s]> properties
                else JS.put properties key (RP_rich_text s)
            | SVNumber q => JS.put properties key (RP_number q)
            end)
    record ∅.

(** [addSampleDataToDatabase(notion, database, sampleData)] *)
Definition addSampleDataToDatabase (database : CreatedResource)
    (sampleData : gmap string (list SampleRecord)) : M unit :=
  match resource_name database ≫= (fun dataKey => sampleData !! dataKey) with
  | None => ret tt
  | Some data =>
      for_of (take 5 data)
        (fun record =>
           try_catch
             (let* page :=
                notion_pages_create
                  (DatabasePage (id database)
                     (convertRecordToNotionProperties record)) in
              ret tt)
             (fun _ => ret tt))
  end.

(** [deployPhase3_SampleData(notion, buildPackage)] *)
Definition deployPhase3_SampleData (buildPackage : BuildPackage) : M unit :=
  match sampleData buildPackage with
  | None => ret tt
  | Some data =>
      if bool_decide (env h !! "INCLUDE_SAMPLE_DATA" = Some "false")
      then ret tt
      else
        let* d := getState in
        for_of (createdResources d)
          (fun resource =>
             when (String.eqb (resource_type resource) "database")
               (addSampleDataToDatabase resource data ;;
                sleep 500)) ;;
        push_step "sample_data_deployed"
  end.

(** [deployPhase4_Integrations(notion, buildPackage)] *)
Definition deployPhase4_Integrations (buildPackage : BuildPackage)
    : M unit :=
  push_step "integrations_deployed".

(** [createDeploymentSummaryPage(notion, buildPackage)] *)
Definition createDeploymentSummaryPage (buildPackage : BuildPackage)
    : M unit :=
  let* today := Date_now in
  let summaryContent :=
    [ Heading1 (client buildPackage +:+ " Construction Template");
      Paragraph ("Deployed: " +:+ toLocaleDateString h today);
      Paragraph ("Tier: " +:+ bp_tier buildPackage) ] in
  let* page :=
    notion_pages_create
      (WorkspacePage (client buildPackage +:+ " - Deployment Summary")
                     summaryContent) in
  push_resource {| resource_type := "summary_page";
                   resource_name := None;
                   id := page |}.

(** [saveDeploymentMetadata(buildPackage)] *)
Definition saveDeploymentMetadata (buildPackage : BuildPackage) : M unit :=
  let* metadataTime := Date_now in
  let* fileTime := Date_now in
  fs_writeFile
    (path_join "dist" ("deployment-" +:+ pretty fileTime +:+ ".json")).

(** [deployPhase5_Finalization(notion, buildPackage)] *)
Definition deployPhase5_Finalization (buildPackage : BuildPackage)
    : M unit :=
  createDeploymentSummaryPage buildPackage ;;
  saveDeploymentMetadata buildPackage ;;
  push_step "deployment_finalized".

Definition count_type (kind : string) (l : list CreatedResource) : nat :=
  length (filter (fun r => String.eqb (resource_type r) kind = true) l).

(** [generateDeploymentReport(buildPackage)] *)
Definition generateDeploymentReport (buildPackage : BuildPackage)
    : M DeploymentReport :=
  let* endTime := Date_now in
  let* d := getState in
  let* stampTime := Date_now in
  ret {| success := true;
         report_client := client buildPackage;
         report_tier := bp_tier buildPackage;
         deploymentTime := endTime - default 0 (startTime d);
         report_completedSteps := length (completedSteps d);
         report_createdResources := length (createdResources d);
         report_errors := length (errors d);
         summary_databases := count_type "database" (createdResources d);
         summary_pages := count_type "page" (createdResources d);
         summary_timestamp := toISOString h stampTime |}.

(** [cleanupFailedDeployment()] : it only lists the created resources
    on the console; nothing is deleted. *)
Definition cleanupFailedDeployment : M unit := ret tt.

(** [deployConstructionTemplate()] *)
Definition deployConstructionTemplate : M DeploymentReport :=
  let* t0 := Date_now in
  set_startTime t0 ;;
  try_catch
    (initializeEnvironment ;;
     let* buildPackage := loadBuildArtifacts in
     initializeNotionClient ;;
     let* createdDatabases := deployPhase1_Databases buildPackage in
     deployPhase2_Views buildPackage ;;
     deployPhase3_SampleData buildPackage ;;
     deployPhase4_Integrations buildPackage ;;
     deployPhase5_Finalization buildPackage ;;
     let* report := generateDeploymentReport buildPackage in
     let* logTime := Date_now in
     ret report)
    (fun error =>
       cleanupFailedDeployment ;;
       throw error).

(** The context in which the script starts, on a remote workspace in
    state [w]. *)
Definition initial_ctx (w : World notion) : Ctx :=
  {| state := deploymentState; world := w; trace := []; ticks := 0 |}.

(** *** The exchange with the remote workspace in the databases phase

    The definitions of this part do not run the script: they follow the
    answers of the remote client, from a state [w] of the workspace.

    [attemptCreate d c w] is the exchange that the creation of the
    database of schema [d] amounts to: the calls received by the remote
    client, in order, the outcome, and the state the workspace is left
    in.  A schema that cannot be translated ends the attempt before any
    call.  Otherwise the parent page is searched; when the search finds
    none a page is asked for; the outcome is the answer to the request
    for the database, or the error of the call that failed before it. *)
Definition attemptCreate (dbSchema : DbSchema) (clientName : string)
    (w : World notion) : list Effect * (Completion string * World notion) :=
  match convertSchemaToNotionProperties (schema dbSchema) with
  | Throw e => ([], (Throw e, w))
  | Normal notionProperties =>
      let query := parentQuery clientName in
      match search notion query w with
      | (Throw e, w1) => ([CallSearch query], (Throw e, w1))
      | (Normal (first :: _), w1) =>
          let req :=
            databaseRequest dbSchema clientName first notionProperties in
          ([CallSearch query; CallDatabasesCreate req],
           databases_create notion req w1)
      | (Normal [], w1) =>
          let pageReq := WorkspacePage query [] in
          match pages_create notion pageReq w1 with
          | (Throw e, w2) =>
              ([CallSearch query; CallPagesCreate pageReq], (Throw e, w2))
          | (Normal page, w2) =>
              let req :=
                databaseRequest dbSchema clientName page notionProperties in
              ([CallSearch query; CallPagesCreate pageReq;
                CallDatabasesCreate req],
               databases_create notion req w2)
          end
      end
  end.

(** [attempts] gives the outcome for each schema of a list, each attempt
    starting where the previous one left the workspace. *)
Fixpoint attempts (clientName : string) (dbs : list DbSchema)
    (w : World notion) : list (DbSchema * Completion string) :=
  match dbs with
  | [] => []
  | d :: rest =>
      let '(_, (r, w')) := attemptCreate d clientName w in
      (d, r) :: attempts clientName rest w'
  end.

(** The calls of these attempts, in order, with the pause of 1000 ms
    that follows each database created. *)
Fixpoint phaseEffects (clientName : string) (dbs : list DbSchema)
    (w : World notion) : list Effect :=
  match dbs with
  | [] => []
  | d :: rest =>
      let '(calls, (r, w')) := attemptCreate d clientName w in
      calls ++ (if is_normal r then [Sleep 1000] else [])
      ++ phaseEffects clientName rest w'
  end.

(** The state the attempts leave the workspace in. *)
Fixpoint worldAfter (clientName : string) (dbs : list DbSchema)
    (w : World notion) : World notion :=
  match dbs with
  | [] => w
  | d :: rest =>
      let '(_, (_, w')) := attemptCreate d clientName w in
      worldAfter clientName rest w'
  end.

(** The error record of a failed attempt. *)
Definition errorRecords (l : list (DbSchema * Completion string))
    : list DeploymentError :=
  omap (fun '(d, r) =>
          match r with
          | Throw e => Some {| phase := "databases"; resource := name d;
                               error := message e |}
          | Normal _ => None
          end) l.

(** The resource record of a successful attempt. *)
Definition resourceRecords (l : list (DbSchema * Completion string))
    : list CreatedResource :=
  omap (fun '(d, r) =>
          match r with
          | Normal i => Some {| resource_type := "database";
                                resource_name := Some (name d); id := i |}
          | Throw _ => None
          end) l.

Definition createdIds (l : list (DbSchema * Completion string))
    : list string :=
  omap (fun '(_, r) => match r with Normal i => Some i | Throw _ => None end) l.
End WithClient.

Arguments state {notion} c.
Arguments world {notion} c.
Arguments trace {notion} c.
Arguments ticks {notion} c.
Arguments initial_ctx {notion} w.

(** [unchanged_but_steps c c' added] : from [c] to [c'] nothing was done
    to the outside and no resource or error was recorded; the steps
    [added] were appended to the completed steps. *)
Definition unchanged_but_steps {notion} (c c' : Ctx notion)
    (added : list string) : Prop :=
  world c' = world c /\
  trace c' = trace c /\
  createdResources (state c') = createdResources (state c) /\
  errors (state c') = errors (state c) /\
  completedSteps (state c') = (completedSteps (state c) ++ added)%list.

(** The parent-page lookups of a trace: each creation attempt starts
    with one. *)
Definition lookups (t : list Effect) : list string :=
  omap (fun e => match e with CallSearch q => Some q | _ => None end) t.

(** The remote calls of a trace that create something. *)
Definition is_creation (e : Effect) : bool :=
  match e with
  | CallPagesCreate _ | CallDatabasesCreate _ => true
  | _ => false
  end.

Definition creations (t : list Effect) : list Effect :=
  filter (fun e => is_creation e = true) t.
(** The pauses of a trace, in order. *)
Definition sleeps (t : list Effect) : list Z :=
  omap (fun e => match e with Sleep ms => Some ms | _ => None end) t.

(** The page requests of a trace, in order. *)
Definition pageRequests (t : list Effect) : list PageRequest :=
  omap (fun e => match e with CallPagesCreate r => Some r | _ => None end) t.

(** The database requests of a trace, in order. *)
Definition databaseRequests (t : list Effect) : list DatabaseRequest :=
  omap (fun e => match e with CallDatabasesCreate r => Some r | _ => None end)
       t.

(** The files written in a trace, in order. *)
Definition filesWritten (t : list Effect) : list string :=
  omap (fun e => match e with WriteFile path => Some path | _ => None end) t.

(** [recorded_kept c c'] : what the deployment state of [c] has recorded
    (completed steps, created resources, errors) is still there in [c'],
    in the same order, possibly followed by more. *)
Definition recorded_kept {notion} (c c' : Ctx notion) : Prop :=
  completedSteps (state c) `prefix_of` completedSteps (state c') /\
  createdResources (state c) `prefix_of` createdResources (state c') /\
  errors (state c) `prefix_of` errors (state c').

(** The steps a run records when it completes, with the sample-data
    step or without it. *)
Definition allSteps (withSampleData : bool) : list string :=
  ["environment_init"; "artifacts_loaded"; "notion_connected";
   "databases_deployed"; "views_deployed"]
  ++ (if withSampleData then ["sample_data_deployed"] else [])
  ++ ["integrations_deployed"; "deployment_finalized"].

(** Whether [deployPhase3_SampleData] returns at once. *)
Definition skipsSampleData (h : Host) (buildPackage : BuildPackage) : bool :=
  match sampleData buildPackage with
  | None => true
  | Some _ => bool_decide (env h !! "INCLUDE_SAMPLE_DATA" = Some "false")
  end.

End Deploy.

(** ** Utilities *)

Module Utils.

(** [formatDateForNotion(date)], on the time value of the date. *)
Definition formatDateForNotion (h : Host) (date : Z) : string :=
  split_head "T"%char (toISOString h date).

(** [validateEnvironment()] *)
Definition validateEnvironment (h : Host) : bool :=
  let required := ["NOTION_API_TOKEN"; "NOTION_DATABASE_ID"] in
  let missing := filter (fun key => JS.truthy (env h !! key) = false) required in
  if (0 <? length missing)%nat then false else true.

Section Retry.
Context {W A : Type}.

(** The function retried: it runs on a state [W] of the outside. *)
Variable fn : W -> Completion A * W.

(** What a retry does: the state of the outside, the number of calls made
    and the delays waited, in order. *)
Record RetryLog := {
  outside : W;
  calls : nat;
  delays : list Z
}.

(** The loop [for (let i = 0; i < maxRetries; i++)] of [retryWithBackoff],
    with [rounds] rounds left from index [i].  When the rounds are used up
    the function falls off the loop and returns [undefined] ([None]). *)
Fixpoint retry_loop (rounds i maxRetries : nat) (delay : Z) (l : RetryLog)
    : Completion (option A) * RetryLog :=
  match rounds with
  | O => (Normal None, l)
  | S rounds' =>
      let '(r, w) := fn (outside l) in
      match r with
      | Normal a =>
          (Normal (Some a),
           {| outside := w; calls := S (calls l); delays := delays l |})
      | Throw error =>
          if (i =? maxRetries - 1)%nat
          then (Throw error,
                {| outside := w; calls := S (calls l); delays := delays l |})
          else retry_loop rounds' (S i) maxRetries delay
                 {| outside := w; calls := S (calls l);
                    delays := delays l ++ [delay * 2 ^ Z.of_nat i] |}
      end
  end.

(** [retryWithBackoff(fn, maxRetries, delay)] *)
Definition retryWithBackoff (maxRetries : nat) (delay : Z) (w : W)
    : Completion (option A) * RetryLog :=
  retry_loop maxRetries 0 maxRetries delay
    {| outside := w; calls := 0; delays := [] |}.

(** The outcomes of [n] successive calls of [fn] from [w]. *)
Fixpoint outcomes (n : nat) (w : W) : list (Completion A) :=
  match n with
  | O => []
  | S n' => let '(r, w') := fn w in r :: outcomes n' w'
  end.

(** The first success of a list of outcomes: its index and its value. *)
Fixpoint firstSuccess (l : list (Completion A)) : option (nat * A) :=
  match l with
  | [] => None
  | Normal a :: _ => Some (O, a)
  | Throw _ :: rest =>
      match firstSuccess rest with
      | Some (k, a) => Some (S k, a)
      | None => None
      end
  end.

(** The waits of a retry that made [n] calls: the delay, doubled each
    time, after each call but the last. *)
Definition backoff (delay : Z) (n : nat) : list Z :=
  map (fun i => delay * 2 ^ Z.of_nat i) (seq 0 (n - 1)).
End Retry.

End Utils.

(** ** Test doubles: a small file system and remote workspaces *)

Module Mock.

(** A schema file without a [properties] object. *)
Definition bare_schema (t : string) : Schema :=
  {| title := Some t; properties := None |}.

(** A schema file whose [properties] object is empty. *)
Definition empty_fields_schema : Schema :=
  {| title := Some "Documents"; properties := Some [] |}.

Definition tasks_schema : Schema :=
  {| title := Some "Tasks";
     properties := Some
       [ ("Task", FieldOf {| type := Some "title"; options := OptionsNullish;
                             format := None |});
         ("Priority", FieldOf {| type := Some "select";
                                 options := OptionsArray ["High"; "Normal"];
                                 format := None |});
         ("Owner", FieldOf {| type := Some "person";
                              options := OptionsNullish;
                              format := None |}) ] |}.

(** A schema file with a field whose definition is [null]. *)
Definition null_field_schema : Schema :=
  {| title := Some "Clients";
     properties := Some
       [ ("Name", FieldOf {| type := Some "title"; options := OptionsNullish;
                             format := None |});
         ("Phone", NullField) ] |}.

(** A schema file with a select field whose options are a text. *)
Definition text_options_schema : Schema :=
  {| title := Some "Projects";
     properties := Some
       [ ("Status", FieldOf {| type := Some "select";
                               options := OptionsNotArray;
                               format := None |}) ] |}.

(** A schema file with a field named __proto__. *)
Definition proto_field_schema : Schema :=
  {| title := Some "Team";
     properties := Some
       [ ("Name", FieldOf {| type := Some "title"; options := OptionsNullish;
                             format := None |});
         ("__proto__", FieldOf {| type := Some "text";
                                  options := OptionsNullish;
                                  format := None |}) ] |}.

Definition ENOENT : JsError :=
  {| message := "ENOENT: no such file or directory"; code := Some "ENOENT" |}.

(** A host whose environment is [e] and whose schema directory lists
    [schema_files]; the clock advances by one millisecond per reading;
    every write succeeds; no build package is stored yet. *)
Definition host0 (e : gmap string string)
    (schema_files : Completion (list string)) : Host :=
  {| env := e;
     cwd := "/work";
     dirname := "/work/scripts";
     now := fun n => 1700000000000 + Z.of_nat n;
     toISOString := fun t => "2023-11-14T22:13:20.000Z";
     toLocaleDateString := fun t => "11/14/2023";
     numberToString := fun q => pretty (Qfloor q);
     package_version := Some "1.2.0";
     mkdir := fun _ => None;
     readdir := fun path =>
       if String.eqb path "/work/scripts/../src/schemas/databases"
       then schema_files
       else Throw ENOENT;
     readSchema := fun path =>
       if JS.endsWith path "/tasks.json" then Normal (Some tasks_schema)
       else if JS.endsWith path "/documents.json"
       then Normal (Some empty_fields_schema)
       else Normal (Some (bare_schema "Untitled"));
     readBuildPackage := fun _ => Throw ENOENT;
     writeFile := fun _ => None |}.

(** [host0] with a tasks file that cannot be parsed. *)
Definition truncated_tasks_host (schema_files : Completion (list string))
    : Host :=
  let h0 := host0 ∅ schema_files in
  {| env := env h0;
     cwd := cwd h0;
     dirname := dirname h0;
     now := now h0;
     toISOString := toISOString h0;
     toLocaleDateString := toLocaleDateString h0;
     numberToString := numberToString h0;
     package_version := package_version h0;
     mkdir := mkdir h0;
     readdir := readdir h0;
     readSchema := fun path =>
       if JS.endsWith path "/tasks.json"
       then Throw (Error "Unexpected end of JSON input")
       else readSchema h0 path;
     readBuildPackage := readBuildPackage h0;
     writeFile := writeFile h0 |}.

Definition all_starter_files : list string :=
  ["clients.json"; "documents.json"; "projects.json"; "README.md";
   "tasks.json"; "team-members.json"; "vendors.json"].

Definition acme_options : Builder.Options :=
  {| Builder.opt_tier := "starter";
     Builder.opt_client := "Acme Co";
     Builder.opt_sampleData := true |}.

(** The build of the starter template for Acme Co on [host0]. *)
Definition acme_build : Completion BuildPackage :=
  fst (Builder.buildTemplate (host0 ∅ (Normal all_starter_files))
         acme_options Builder.initial_state).

(** The build of the professional template for Acme Co on [host0]. *)
Definition acme_professional_build : Completion BuildPackage :=
  fst (Builder.buildTemplate (host0 ∅ (Normal all_starter_files))
         {| Builder.opt_tier := "professional";
            Builder.opt_client := "Acme Co";
            Builder.opt_sampleData := false |} Builder.initial_state).

(** The host of a deployment: environment [e], and a [dist] directory
    that holds two builds of the starter template, the later one being
    [acme_build], and one build of the professional template. *)
Definition host (e : gmap string string) : Host :=
  let h0 := host0 e (Normal all_starter_files) in
  {| env := e;
     cwd := cwd h0;
     dirname := dirname h0;
     now := now h0;
     toISOString := toISOString h0;
     toLocaleDateString := toLocaleDateString h0;
     numberToString := numberToString h0;
     package_version := package_version h0;
     mkdir := mkdir h0;
     readdir := fun path =>
       if String.eqb path "/work/dist"
       then Normal ["template-starter-build-1700000000001.json";
                    "notes.txt";
                    "template-starter-build-1600000000000.json";
                    "template-professional-build-1700000000002.json"]
       else readdir h0 path;
     readSchema := readSchema h0;
     readBuildPackage := fun path =>
       if String.eqb path
            "/work/dist/template-starter-build-1700000000001.json"
       then acme_build
       else if String.eqb path
            "/work/dist/template-professional-build-1700000000002.json"
       then acme_professional_build
       else Throw ENOENT;
     writeFile := writeFile h0 |}.

Definition full_env : gmap string string :=
  <["CLIENT_NAME" := "Acme Co"]>
  (<["DEPLOYMENT_TIER" := "starter"]>
  (<["NOTION_TOKEN" := "secret_token"]> ∅)).

(** A remote workspace that counts the objects created in it.  The
    identity probe succeeds when [probe_ok]; a database creation fails
    when the title of the request is in [failing]; a search finds
    nothing. *)
Definition workspace (probe_ok : bool) (failing : list string)
    : Deploy.Notion :=
  {| Deploy.World := nat;
     Deploy.users_me := fun w =>
       (if probe_ok then Normal "deploy-bot"
        else Throw (Error "API token is invalid."), w);
     Deploy.search := fun _ w => (Normal [], w);
     Deploy.pages_create := fun _ w =>
       (Normal ("page-" +:+ pretty w), S w);
     Deploy.databases_create := fun req w =>
       if JS.arr_includes failing (Deploy.request_title req)
       then (Throw (Error "validation_error"), w)
       else (Normal ("db-" +:+ pretty w), S w) |}.

(** A workspace where the search lists the page [parent] first. *)
Definition workspace_with_parent (parent : string) : Deploy.Notion :=
  {| Deploy.World := nat;
     Deploy.users_me := fun w => (Normal "deploy-bot", w);
     Deploy.search := fun _ w => (Normal [parent; "page-old"], w);
     Deploy.pages_create := fun _ w =>
       (Normal ("page-" +:+ pretty w), S w);
     Deploy.databases_create := fun req w =>
       (Normal ("db-" +:+ pretty w), S w) |}.

(** A host whose schema store was filled carelessly: the clients file
    has a field whose definition is [null], the projects file holds
    [null] and the team-members file has a field named __proto__. *)
Definition careless_host : Host :=
  let h0 := host0 ∅ (Normal all_starter_files) in
  {| env := env h0;
     cwd := cwd h0;
     dirname := dirname h0;
     now := now h0;
     toISOString := toISOString h0;
     toLocaleDateString := toLocaleDateString h0;
     numberToString := numberToString h0;
     package_version := package_version h0;
     mkdir := mkdir h0;
     readdir := readdir h0;
     readSchema := fun path =>
       if JS.endsWith path "/clients.json" then Normal (Some null_field_schema)
       else if JS.endsWith path "/projects.json" then Normal None
       else if JS.endsWith path "/team-members.json"
       then Normal (Some proto_field_schema)
       else readSchema h0 path;
     readBuildPackage := readBuildPackage h0;
     writeFile := writeFile h0 |}.

(** The build of the starter template for Acme Co on [careless_host]. *)
Definition careless_build : Completion BuildPackage :=
  fst (Builder.buildTemplate careless_host acme_options
         Builder.initial_state).

(** The deployment host on a file system that refuses every write. *)
Definition read_only_host (e : gmap string string) : Host :=
  let h0 := host e in
  {| env := e;
     cwd := cwd h0;
     dirname := dirname h0;
     now := now h0;
     toISOString := toISOString h0;
     toLocaleDateString := toLocaleDateString h0;
     numberToString := numberToString h0;
     package_version := package_version h0;
     mkdir := mkdir h0;
     readdir := readdir h0;
     readSchema := readSchema h0;
     readBuildPackage := readBuildPackage h0;
     writeFile := fun _ =>
       Some {| message := "EROFS: read-only file system";
               code := Some "EROFS" |} |}.

End Mock.

(** * Properties *)

(** ** Reading and assigning object properties *)

Module JsFacts.

Lemma get_own {A} (table : gmap string A) (key : string) (a : A) :
  table !! key = Some a -> JS.get table key = JS.Own a.
Proof. unfold JS.get. by intros ->. Qed.

Lemma get_own_inv {A} (table : gmap string A) (key : string) (a : A) :
  JS.get table key = JS.Own a -> table !! key = Some a.
Proof.
  unfold JS.get. destruct (table !! key); [congruence|].
  by destruct (JS.arr_includes _ _).
Qed.

Lemma get_missing {A} (table : gmap string A) (key : string) :
  table !! key = None ->
  JS.get table key = JS.Inherited \/ JS.get table key = JS.Undefined.
Proof.
  unfold JS.get. intros ->. destruct (JS.arr_includes _ _); auto.
Qed.

Lemma get_inherited {A} (table : gmap string A) (key : string) :
  JS.get table key = JS.Inherited <->
  table !! key = None /\ JS.arr_includes JS.objectPrototypeKeys key = true.
Proof.
  unfold JS.get. destruct (table !! key).
  - split; [discriminate|]. by intros [? _].
  - destruct (JS.arr_includes _ _); split; try done. by intros [_ ?].
Qed.

Lemma get_undefined {A} (table : gmap string A) (key : string) :
  JS.get table key = JS.Undefined <->
  table !! key = None /\ JS.arr_includes JS.objectPrototypeKeys key = false.
Proof.
  unfold JS.get. destruct (table !! key).
  - split; [discriminate|]. by intros [? _].
  - destruct (JS.arr_includes _ _); split; try done. by intros [_ ?].
Qed.

(** What a property assignment leaves in the own properties. *)
Lemma lookup_put {A} (obj : gmap string A) (key : string) (v : A)
    (k : string) :
  JS.put obj key v !! k
  = if bool_decide (k = key /\ key <> "__proto__") then Some v else obj !! k.
Proof.
  unfold JS.put. destruct (String.eqb_spec key "__proto__") as [->|Hne].
  - rewrite bool_decide_eq_false_2; [done|]. by intros [_ ?].
  - destruct (decide (k = key)) as [->|Hk].
    + rewrite bool_decide_eq_true_2 by done. apply lookup_insert_eq.
    + rewrite bool_decide_eq_false_2 by (by intros [? _]).
      by apply lookup_insert_ne.
Qed.

End JsFacts.

(** ** Rules for running the monad *)

Module MonadFacts.
Section Rules.
Context {St : Type}.
Local Abbreviation M := (@Monad.M St).

Lemma wp_ret {A} (a : A) (s : St) Q : Q (Normal a) s -> wp (ret a) s Q.
Proof. exact (fun H => H). Qed.

Lemma wp_throw {A} (e : JsError) (s : St) (Q : Completion A -> St -> Prop) :
  Q (Throw e) s -> wp (throw e) s Q.
Proof. exact (fun H => H). Qed.

Lemma wp_modify (f : St -> St) (s : St) Q :
  Q (Normal tt) (f s) -> wp (modify f) s Q.
Proof. exact (fun H => H). Qed.

Lemma wp_bind {A B} (m : M A) (k : A -> M B) (s : St) Q :
  wp m s (fun r s' =>
            match r with
            | Normal a => wp (k a) s' Q
            | Throw e => Q (Throw e) s'
            end) ->
  wp (bind m k) s Q.
Proof.
  unfold wp, bind. destruct (m s) as [[a|e] s']; simpl; auto.
Qed.

Lemma wp_try_catch {A} (m : M A) (handler : JsError -> M A) (s : St) Q :
  wp m s (fun r s' =>
            match r with
            | Normal a => Q (Normal a) s'
            | Throw e => wp (handler e) s' Q
            end) ->
  wp (try_catch m handler) s Q.
Proof.
  unfold wp, try_catch. destruct (m s) as [[a|e] s']; simpl; auto.
Qed.

Lemma wp_mono {A} (m : M A) (s : St) (Q Q' : Completion A -> St -> Prop) :
  wp m s Q -> (forall r s', Q r s' -> Q' r s') -> wp m s Q'.
Proof. unfold wp. auto. Qed.

Lemma wp_run {A} (m : M A) (s : St) Q :
  wp m s Q -> exists r s', m s = (r, s') /\ Q r s'.
Proof.
  unfold wp. destruct (m s) as [r s']. simpl. eauto.
Qed.

Lemma wp_of_run {A} (m : M A) (s : St) r s' (Q : Completion A -> St -> Prop) :
  m s = (r, s') -> Q r s' -> wp m s Q.
Proof. unfold wp. intros ->. auto. Qed.

(** A loop whose rounds all end normally and keep [Inv] ends normally
    and keeps [Inv]. *)
Lemma wp_for_of {A} (l : list A) (body : A -> M unit) (Inv : St -> Prop) :
  (forall x s, x ∈ l -> Inv s ->
     wp (body x) s (fun r s' => r = Normal tt /\ Inv s')) ->
  forall s, Inv s ->
    wp (for_of l body) s (fun r s' => r = Normal tt /\ Inv s').
Proof.
  induction l as [|x l IH]; intros Hbody s Hs; simpl.
  - apply wp_ret. auto.
  - apply wp_bind. eapply wp_mono.
    + apply Hbody; [left | exact Hs].
    + intros r s' [-> Hs']. apply IH; [|exact Hs'].
      intros y s0 Hy. apply Hbody. by right.
Qed.
End Rules.
End MonadFacts.

Import MonadFacts.


(** ** The tier catalog and the view kinds *)

Module BuilderFacts.
Import Builder.

Example getViewType_task_kanban : getViewType "task-kanban" = "kanban".
Proof. reflexivity. Qed.

Example getViewType_project_timeline :
  getViewType "project-timeline" = "timeline".
Proof. reflexivity. Qed.

Example getViewType_recent_documents :
  getViewType "recent-documents" = "table".
Proof. reflexivity. Qed.

Example getViewType_kanban_wins :
  getViewType "kanban-timeline-dashboard" = "kanban".
Proof. reflexivity. Qed.

(** C5, as stated, fails: the name team-calendar contains none of
    kanban, timeline, schedule, dashboard and overview, so the stated
    rules send it to table, but [getViewType] answers calendar. *)
Lemma getViewType_calendar_is_not_table :
  JS.includes "team-calendar" "kanban" = false /\
  JS.includes "team-calendar" "timeline" = false /\
  JS.includes "team-calendar" "schedule" = false /\
  JS.includes "team-calendar" "dashboard" = false /\
  JS.includes "team-calendar" "overview" = false /\
  getViewType "team-calendar" = "calendar" /\
  getViewType "team-calendar" <> "table".
Proof. repeat split; try reflexivity. discriminate. Qed.

(** C5 (amended): [getViewType] is a total function into
    {kanban (the board kind), timeline, table, calendar}, decided by the
    first rule that matches, in this order: a name containing kanban is a
    board; otherwise one containing timeline or schedule is a timeline;
    otherwise one containing dashboard or overview is a table; otherwise
    one containing calendar is a calendar; every other name is a table. *)
Theorem getViewType_first_match (viewName : string) :
  In (getViewType viewName) ["kanban"; "timeline"; "table"; "calendar"] /\
  (JS.includes viewName "kanban" = true ->
   getViewType viewName = "kanban") /\
  (JS.includes viewName "kanban" = false ->
   JS.includes viewName "timeline" || JS.includes viewName "schedule" = true ->
   getViewType viewName = "timeline") /\
  (JS.includes viewName "kanban" = false ->
   JS.includes viewName "timeline" || JS.includes viewName "schedule" = false ->
   JS.includes viewName "dashboard" || JS.includes viewName "overview" = true ->
   getViewType viewName = "table") /\
  (JS.includes viewName "kanban" = false ->
   JS.includes viewName "timeline" || JS.includes viewName "schedule" = false ->
   JS.includes viewName "dashboard" || JS.includes viewName "overview" = false ->
   JS.includes viewName "calendar" = true ->
   getViewType viewName = "calendar") /\
  (JS.includes viewName "kanban" = false ->
   JS.includes viewName "timeline" || JS.includes viewName "schedule" = false ->
   JS.includes viewName "dashboard" || JS.includes viewName "overview" = false ->
   JS.includes viewName "calendar" = false ->
   getViewType viewName = "table").
Proof.
  unfold getViewType.
  destruct (JS.includes viewName "kanban");
    destruct (JS.includes viewName "timeline" || JS.includes viewName "schedule");
    destruct (JS.includes viewName "dashboard" || JS.includes viewName "overview");
    destruct (JS.includes viewName "calendar");
    cbn [In]; intuition congruence.
Qed.

Lemma getViewType_first_match_witness :
  getViewType "team-calendar" = "calendar" /\
  getViewType "site-schedule-overview" = "timeline".
Proof.
  split.
  - apply (getViewType_first_match "team-calendar"); reflexivity.
  - apply (getViewType_first_match "site-schedule-overview"); reflexivity.
Defined.

(** C8: in the static catalog the resource types of a tier are all
    included in every higher tier, for the order starter, professional,
    enterprise. *)
Theorem resourceTypes_monotone :
  resourceTypes "starter" ⊆ resourceTypes "professional" /\
  resourceTypes "professional" ⊆ resourceTypes "enterprise" /\
  resourceTypes "starter" ⊆ resourceTypes "enterprise".
Proof.
  repeat split; apply (bool_decide_unpack _); vm_compute; exact I.
Qed.

Lemma resourceTypes_monotone_witness :
  "team-members" ∈ resourceTypes "enterprise".
Proof.
  apply (proj2 (proj2 resourceTypes_monotone)).
  apply (bool_decide_unpack _). vm_compute. exact I.
Defined.

Example resourceTypes_starter :
  resourceTypes "starter" =
  ["projects"; "tasks"; "clients"; "documents"; "team-members"].
Proof. reflexivity. Qed.

End BuilderFacts.

(** ** The estimator *)

Module EstimatorFacts.
Import Estimator.

Lemma fold_left_add (l : list Z) (a : Z) :
  fold_left (fun sum count => sum + count) l a = a + foldr Z.add 0 l.
Proof.
  revert a. induction l as [|x l IH]; intros a; simpl.
  - lia.
  - rewrite IH. lia.
Qed.

(** [Math.ceil(a / 3)] is the least integer whose triple reaches [a]. *)
Lemma ceil_div_3 (a : Z) :
  3 * (JS.ceil_div a 3 - 1) < a <= 3 * JS.ceil_div a 3.
Proof.
  unfold JS.ceil_div, Qceiling, Qfloor. cbn [Qopp Qnum Qden].
  pose proof (Z.div_mod (- a) 3 ltac:(lia)).
  pose proof (Z.mod_pos_bound (- a) 3 ltac:(lia)).
  change (Z.pos 3) with 3. lia.
Qed.

(** C6: for each of the three tiers and each value of the seed-data
    option, the estimate is 2 units per database, 1 per view, 1 per
    property, 3 per integration, 2 per automation, 1 per seed record when
    seed data is included, and 20 units of base overhead; the estimated
    seconds are the total divided by 3, rounded up. *)
Theorem estimate_formula (tier : string) (sampleDataOption : option bool) :
  tier ∈ ["starter"; "professional"; "enterprise"] ->
  exists c r,
    tierCosts !! tier = Some c /\
    estimateDeploymentCost tier sampleDataOption = Normal (Finite r) /\
    includeSampleData r = negb (bool_decide (sampleDataOption = Some false)) /\
    totalApiCalls r =
      2 * databases c + 1 * views c + 1 * properties c
      + 3 * integrations c + 2 * automations c
      + (if includeSampleData r then 1 * seedRecords c else 0) + 20 /\
    3 * (seconds (estimatedTime r) - 1) < totalApiCalls r
      <= 3 * seconds (estimatedTime r).
Proof.
  intros Htier.
  assert (exists c, tierCosts !! tier = Some c) as [c Hc].
  { rewrite !elem_of_cons in Htier.
    destruct Htier as [->|[->|[->|H]]]; [eexists; reflexivity ..|].
    by apply elem_of_nil in H. }
  exists c. unfold estimateDeploymentCost, JS.get. rewrite Hc.
  eexists. split; [reflexivity|]. split; [reflexivity|]. cbn [includeSampleData totalApiCalls estimatedTime seconds].
  split; [reflexivity|].
  split.
  - unfold seedRecords. rewrite fold_left_add. cbn [apiWeights createDatabase createView addProperty setupIntegration createAutomation createPage].
    destruct (negb _); lia.
  - apply ceil_div_3.
Qed.

Lemma estimate_formula_witness :
  exists r,
    estimateDeploymentCost "starter" (Some true) = Normal (Finite r) /\
    totalApiCalls r = 154 /\ seconds (estimatedTime r) = 52.
Proof.
  destruct (estimate_formula "starter" (Some true))
    as (c & r & Hc & Hr & Hi & Ht & Hs).
  - apply (bool_decide_unpack _). vm_compute. exact I.
  - exists r. split; [exact Hr|].
    assert (c = {| databases := 8; views := 15; pages := 50; properties := 40;
                   integrations := 0; automations := 5;
                   sampleData := [("projects", 3); ("tasks", 25);
                                  ("clients", 5); ("materials", 20)] |}) as ->.
    { vm_compute in Hc. congruence. }
    rewrite Hi in Ht.
    remember (totalApiCalls r) as total eqn:Etotal.
    remember (seconds (estimatedTime r)) as secs eqn:Esecs.
    vm_compute in Ht. split; [exact Ht | lia].
Defined.

(** The totals of the three tiers, with and without seed data. *)
Example estimate_totals :
  map (fun '(t, o) =>
         match estimateDeploymentCost t o with
         | Normal (Finite r) =>
             Some (totalApiCalls r, seconds (estimatedTime r))
         | _ => None
         end)
      [ ("starter", Some true); ("professional", Some true);
        ("enterprise", Some true); ("starter", Some false);
        ("professional", Some false); ("enterprise", Some false);
        ("starter", None); ("basic", Some true) ]
  = [ Some (154, 52); Some (478, 160); Some (1045, 349); Some (101, 34);
      Some (255, 85); Some (485, 162); Some (154, 52); None ].
Proof. vm_compute. reflexivity. Qed.

(** C7: with seed data included the total strictly increases with the
    tier: enterprise above professional above starter. *)
Theorem estimate_strictly_monotone :
  exists s p e,
    estimateDeploymentCost "starter" (Some true) = Normal (Finite s) /\
    estimateDeploymentCost "professional" (Some true) = Normal (Finite p) /\
    estimateDeploymentCost "enterprise" (Some true) = Normal (Finite e) /\
    totalApiCalls e > totalApiCalls p /\
    totalApiCalls p > totalApiCalls s.
Proof.
  unfold estimateDeploymentCost.
  do 3 eexists. split; [reflexivity|]. split; [reflexivity|].
  split; [reflexivity|]. vm_compute. split; reflexivity.
Qed.

End EstimatorFacts.

(** ** The compiler: schemas and client identity *)

Module CompilerFacts.
Import Builder.

Lemma arr_includes_elem_of (l : list string) (x : string) :
  JS.arr_includes l x = true <-> x ∈ l.
Proof.
  unfold JS.arr_includes. rewrite existsb_exists. split.
  - intros (y & Hy & Heq). apply String.eqb_eq in Heq. subst.
    by apply list_elem_of_In.
  - intros Hx. exists x. split; [by apply list_elem_of_In|].
    apply String.eqb_refl.
Qed.

Section WithHost.
Variable h : Host.
Local Abbreviation M := (@Monad.M BuildState).

(** The loop over the schema files, as long as they can be read and
    parsed: it pushes an entry for the files named after a resource type
    of the tier. *)
Lemma loadSchemaFiles_loaded (tier : string) (c : TemplateConfig)
    (loaded later : list string) :
  templateConfigs !! tier = Some c ->
  (forall f, f ∈ loaded ->
     is_normal (readSchema h (path_join (baseSchemasPath h) f)) = true) ->
  forall acc, exists selected,
    loadSchemaFiles h tier (loaded ++ later) acc
    = loadSchemaFiles h tier later (acc ++ selected) /\
    map name selected =
      filter (fun n => n ∈ databases c) (map schemaNameOf loaded).
Proof.
  intros Hc. induction loaded as [|f l IH]; intros Hread acc.
  - exists []. split; [|reflexivity]. simpl. by rewrite app_nil_r.
  - cbn [loadSchemaFiles app].
    pose proof (Hread f ltac:(left)) as Hf.
    destruct (readSchema h (path_join (baseSchemasPath h) f)) as [sch|e];
      [|discriminate].
    rewrite (JsFacts.get_own _ _ _ Hc).
    assert (forall g, g ∈ l ->
              is_normal (readSchema h (path_join (baseSchemasPath h) g)) = true)
      as Hl by (intros g Hg; apply Hread; by right).
    destruct (JS.arr_includes (databases c) (schemaNameOf f)) eqn:Hin.
    + apply arr_includes_elem_of in Hin.
      destruct (IH Hl (acc ++ [{| name := schemaNameOf f; schema := sch;
                                  tier := tier |}])%list)
        as (sel & -> & Hsel).
      exists ({| name := schemaNameOf f; schema := sch; tier := tier |} :: sel).
      split; [by rewrite <- app_assoc|].
      cbn [map]. rewrite filter_cons_True by done. simpl. by rewrite Hsel.
    + assert (schemaNameOf f ∉ databases c) as Hnin.
      { intros Hx. apply arr_includes_elem_of in Hx. congruence. }
      destruct (IH Hl acc) as (sel & -> & Hsel).
      exists sel. split; [done|].
      cbn [map]. by rewrite filter_cons_False.
Qed.

Lemma loadSchemaFiles_all_readable (tier : string) (c : TemplateConfig)
    (jsonFiles : list string) :
  templateConfigs !! tier = Some c ->
  (forall f, f ∈ jsonFiles ->
     is_normal (readSchema h (path_join (baseSchemasPath h) f)) = true) ->
  forall acc, exists selected,
    loadSchemaFiles h tier jsonFiles acc = ((acc ++ selected)%list, None) /\
    map name selected =
      filter (fun n => n ∈ databases c) (map schemaNameOf jsonFiles).
Proof.
  intros Hc Hread acc.
  destruct (loadSchemaFiles_loaded tier c jsonFiles [] Hc Hread acc)
    as (sel & Hrun & Hsel).
  rewrite app_nil_r in Hrun. exists sel. by rewrite Hrun.
Qed.

(** Outside the catalog the loop stops at the first file. *)
Lemma loadSchemaFiles_no_tier (tier : string) (f : string)
    (later : list string) :
  templateConfigs !! tier = None ->
  exists e, loadSchemaFiles h tier (f :: later) [] = ([], Some e).
Proof.
  intros Hc. cbn [loadSchemaFiles].
  destruct (readSchema h (path_join (baseSchemasPath h) f)) as [sch|e];
    [|eauto].
  destruct (JsFacts.get_missing _ _ Hc) as [-> | ->]; eauto.
Qed.

Lemma wp_Date_now (s : BuildState) (Q : Completion Z -> BuildState -> Prop) :
  (forall t s', Q (Normal t) s') -> wp (Date_now h) s Q.
Proof. intros HQ. apply HQ. Qed.

Lemma generate_records_ok mk indices (s : BuildState) :
  wp (generate_records h mk indices) s (fun r _ => is_normal r = true).
Proof.
  revert s. induction indices as [|i l IH]; intros s; simpl.
  - by apply wp_ret.
  - apply wp_bind, wp_Date_now. intros t s'.
    apply wp_bind. eapply wp_mono; [apply IH|].
    intros [others|e] s''; [|discriminate]. intros _. by apply wp_ret.
Qed.

Lemma generateSampleData_ok tier client (s : BuildState) :
  wp (generateSampleData h tier client) s (fun r _ => is_normal r = true).
Proof.
  unfold generateSampleData, generateSampleProjects, generateSampleTasks.
  apply wp_bind. eapply wp_mono; [apply generate_records_ok|].
  intros [projects|e] s'; [|discriminate]. intros _.
  apply wp_bind. eapply wp_mono; [apply generate_records_ok|].
  intros [tasks|e] s''; [|discriminate]. intros _.
  by apply wp_ret.
Qed.

Section Writable.
Hypothesis mkdir_ok :
  forall p e, mkdir h p = Some e -> code e = Some "EEXIST".
Hypothesis writeFile_ok : forall p, writeFile h p = None.

Lemma wp_ensureDirectoryExists dirPath (s : BuildState)
    (Q : Completion unit -> BuildState -> Prop) :
  Q (Normal tt) s -> wp (ensureDirectoryExists h dirPath) s Q.
Proof.
  intros HQ. unfold ensureDirectoryExists.
  destruct (mkdir h dirPath) as [e|] eqn:Hm; [|exact HQ].
  rewrite (mkdir_ok _ _ Hm). rewrite bool_decide_eq_true_2 by done.
  exact HQ.
Qed.

Lemma wp_fs_writeFile path (s : BuildState)
    (Q : Completion unit -> BuildState -> Prop) :
  (forall s', Q (Normal tt) s') -> wp (fs_writeFile h path) s Q.
Proof.
  intros HQ. unfold wp, fs_writeFile. rewrite writeFile_ok. apply HQ.
Qed.

Lemma saveBuildComponents_ok bp (s : BuildState) :
  wp (saveBuildComponents h bp) s (fun r _ => r = Normal tt).
Proof.
  unfold saveBuildComponents.
  apply wp_bind, wp_ensureDirectoryExists.
  apply wp_bind.
  eapply wp_mono.
  { apply (wp_for_of _ _ (fun _ => True)); [|exact I].
    intros x s0 _ _. apply wp_fs_writeFile. auto. }
  intros r s' [-> _].
  apply wp_bind, wp_ensureDirectoryExists.
  apply wp_fs_writeFile. auto.
Qed.

(** On a host whose directory creations and file writes succeed, the
    build of a tier of the catalog succeeds for every client string
    and whatever the schema store holds; the package carries the
    client string unchanged and the schemas selected by
    [buildDatabaseSchemas]. *)
Lemma buildTemplate_ok (options : Options) (c : TemplateConfig)
    (s : BuildState) :
  templateConfigs !! opt_tier options = Some c ->
  exists bp s',
    buildTemplate h options s = (Normal bp, s') /\
    client bp = opt_client options /\
    bp_tier bp = opt_tier options /\
    schemas bp = Some (buildDatabaseSchemas h (opt_tier options)) /\
    databaseCount (metadata bp)
      = length (buildDatabaseSchemas h (opt_tier options)).
Proof.
  intros Hc.
  set (Q := fun (r : Completion BuildPackage) (_ : BuildState) =>
              exists bp, r = Normal bp /\
                client bp = opt_client options /\
                bp_tier bp = opt_tier options /\
                schemas bp = Some (buildDatabaseSchemas h (opt_tier options)) /\
                databaseCount (metadata bp)
                  = length (buildDatabaseSchemas h (opt_tier options))).
  assert (wp (buildTemplate h options) s Q) as Hwp.
  { unfold buildTemplate.
    apply wp_bind, wp_Date_now. intros startTime s1.
    apply wp_bind, wp_Date_now. intros idTime s2.
    apply wp_try_catch.
    apply wp_bind, wp_ensureDirectoryExists.
    unfold generateTemplateConfig, buildViewConfigurations.
    rewrite (JsFacts.get_own _ _ _ Hc).
    apply wp_bind, wp_ret. apply wp_bind, wp_ret.
    apply wp_bind.
    eapply (wp_mono _ _ (fun r _ => is_normal r = true)).
    { destruct (opt_sampleData options); [|by apply wp_ret].
      apply wp_bind. eapply wp_mono; [apply generateSampleData_ok|].
      intros [d|e] s'; [|discriminate]. intros _. by apply wp_ret. }
    intros [sd|e] s3; [|discriminate]. intros _.
    apply wp_bind, wp_Date_now. intros stampTime s4.
    apply wp_bind, wp_Date_now. intros endTime s5.
    apply wp_bind, wp_fs_writeFile. intros s6.
    apply wp_bind. eapply wp_mono; [apply saveBuildComponents_ok|].
    intros r s7 ->.
    apply wp_bind, wp_Date_now. intros logTime s8.
    apply wp_ret. unfold Q. eexists. split; [reflexivity|].
    cbn. auto. }
  destruct (wp_run _ _ _ Hwp) as (r & s' & Hrun & bp & -> & Hbp).
  exists bp, s'. auto.
Qed.
End Writable.
End WithHost.

Example schemaNameOf_first_occurrence :
  schemaNameOf "tasks.json" = "tasks" /\
  schemaNameOf "a.json.json" = "a.json".
Proof. split; reflexivity. Qed.

(** C3, as stated, fails: with a schema store that holds only the
    projects and tasks files, the starter tier asks for clients,
    documents and team-members too, and the builder neither fails nor
    substitutes anything for them: the package has two schema entries. *)
Lemma missing_schema_is_left_out :
  let h := Mock.host0 ∅ (Normal ["projects.json"; "tasks.json"]) in
  resourceTypes "starter"
    = ["projects"; "tasks"; "clients"; "documents"; "team-members"] /\
  map name (buildDatabaseSchemas h "starter") = ["projects"; "tasks"] /\
  ~ (forall n, n ∈ resourceTypes "starter" ->
       exists d, d ∈ buildDatabaseSchemas h "starter" /\ name d = n).
Proof.
  cbv zeta. split; [reflexivity|]. split; [vm_compute; reflexivity|].
  intros Hall.
  destruct (Hall "clients") as (d & Hd & Hn).
  { apply (bool_decide_unpack _). vm_compute. exact I. }
  assert (name d ∈ map name
            (buildDatabaseSchemas
               (Mock.host0 ∅ (Normal ["projects.json"; "tasks.json"]))
               "starter")) as Hin
    by (apply list_elem_of_fmap; eauto).
  rewrite Hn in Hin.
  revert Hin. apply (bool_decide_unpack _). vm_compute. exact I.
Qed.

(** C3 (amended): building the schemas never fails, but nothing is
    substituted for a resource type without a file.  When the schema
    directory can be read and its schema files can all be read and
    parsed, the result has one entry per schema file whose base name is a
    resource type of the tier, in directory order, and nothing for the
    resource types of the tier that have no file.  The built-in schema is
    used in two cases: when the directory cannot be read, where it is the
    whole result; and when a schema file cannot be read or parsed, where
    it comes after the entries of the files loaded before that file, the
    later files being left unread.  It is one schema, named projects,
    with the fields Name (title), Status (select) and Budget (number),
    whatever the tier.  For a tier outside the catalog the result is
    empty when the directory has no schema file and the built-in schema
    otherwise.  On a host where directories and files can be written,
    the build of a tier of the catalog succeeds whatever the schema
    store holds. *)
Theorem buildDatabaseSchemas_from_store (h : Host) (tier : string) :
  let jsonFilesOf files := filter (fun f => JS.endsWith f ".json" = true) files in
  let readable f :=
    is_normal (readSchema h (path_join (baseSchemasPath h) f)) = true in
  let kindOf (v : FieldValue) :=
    match v with FieldOf d => type d | NullField => None end in
  (forall e, readdir h (baseSchemasPath h) = Throw e ->
     buildDatabaseSchemas h tier = generateDefaultSchemas tier) /\
  (map name (generateDefaultSchemas tier) = ["projects"] /\
   map (fun d => map (fun '(n, v) => (n, kindOf v))
                   <$> (schema d ≫= properties))
       (generateDefaultSchemas tier)
     = [ Some [("Name", Some "title"); ("Status", Some "select");
               ("Budget", Some "number")] ]) /\
  (forall files c,
     readdir h (baseSchemasPath h) = Normal files ->
     templateConfigs !! tier = Some c ->
     (forall f, f ∈ jsonFilesOf files -> readable f) ->
     map name (buildDatabaseSchemas h tier)
       = filter (fun n => n ∈ databases c)
           (map schemaNameOf (jsonFilesOf files))) /\
  (forall files c loaded f later,
     readdir h (baseSchemasPath h) = Normal files ->
     templateConfigs !! tier = Some c ->
     jsonFilesOf files = (loaded ++ f :: later)%list ->
     (forall g, g ∈ loaded -> readable g) ->
     ~ readable f ->
     exists selected,
       buildDatabaseSchemas h tier
         = (selected ++ generateDefaultSchemas tier)%list /\
       map name selected
         = filter (fun n => n ∈ databases c) (map schemaNameOf loaded)) /\
  (forall files,
     readdir h (baseSchemasPath h) = Normal files ->
     templateConfigs !! tier = None ->
     buildDatabaseSchemas h tier
       = match jsonFilesOf files with
         | [] => []
         | _ :: _ => generateDefaultSchemas tier
         end) /\
  (forall options c s,
     opt_tier options = tier ->
     templateConfigs !! tier = Some c ->
     (forall p e, mkdir h p = Some e -> code e = Some "EEXIST") ->
     (forall p, writeFile h p = None) ->
     exists bp s',
       buildTemplate h options s = (Normal bp, s') /\
       schemas bp = Some (buildDatabaseSchemas h tier) /\
       databaseCount (metadata bp) = length (buildDatabaseSchemas h tier)).
Proof.
  cbv zeta. split; [|split; [|split; [|split; [|split]]]].
  - intros e He. unfold buildDatabaseSchemas. by rewrite He.
  - split; reflexivity.
  - intros files c Hdir Hc Hread. unfold buildDatabaseSchemas. rewrite Hdir.
    destruct (loadSchemaFiles_all_readable h tier c
                (filter (fun f => JS.endsWith f ".json" = true) files) Hc
                Hread [])
      as (sel & -> & Hsel).
    exact Hsel.
  - intros files c loaded f later Hdir Hc Hsplit Hloaded Hf.
    unfold buildDatabaseSchemas. rewrite Hdir, Hsplit.
    destruct (loadSchemaFiles_loaded h tier c loaded (f :: later) Hc
                Hloaded [])
      as (sel & -> & Hsel).
    exists sel. split; [|exact Hsel].
    cbn [loadSchemaFiles app].
    destruct (readSchema h (path_join (baseSchemasPath h) f)) as [sch|e];
      [by destruct Hf|reflexivity].
  - intros files Hdir Hc. unfold buildDatabaseSchemas. rewrite Hdir.
    destruct (filter _ files) as [|f later]; [reflexivity|].
    by destruct (loadSchemaFiles_no_tier h tier f later Hc) as [e ->].
  - intros options c s <- Hc Hmk Hwr.
    destruct (buildTemplate_ok h Hmk Hwr options c s Hc)
      as (bp & s' & Hrun & _ & _ & Hs & Hn).
    eauto.
Qed.

Lemma buildDatabaseSchemas_from_store_witness :
  let h := Mock.host0 ∅ (Normal Mock.all_starter_files) in
  map name (buildDatabaseSchemas h "starter")
    = ["clients"; "documents"; "projects"; "tasks"; "team-members"] /\
  map name (buildDatabaseSchemas (Mock.host0 ∅ (Throw Mock.ENOENT)) "starter")
    = ["projects"] /\
  map name
    (buildDatabaseSchemas
       (Mock.truncated_tasks_host (Normal Mock.all_starter_files)) "starter")
    = ["clients"; "documents"; "projects"; "projects"] /\
  exists bp s',
    buildTemplate h Mock.acme_options initial_state = (Normal bp, s') /\
    schemas bp = Some (buildDatabaseSchemas h "starter") /\
    databaseCount (metadata bp) = length (buildDatabaseSchemas h "starter").
Proof.
  cbv zeta. split; [|split; [|split]].
  - rewrite (proj1 (proj2 (proj2 (buildDatabaseSchemas_from_store
               (Mock.host0 ∅ (Normal Mock.all_starter_files)) "starter")))
               Mock.all_starter_files starter_config);
      try reflexivity.
    intros f _. cbn [Mock.host0 readSchema].
    do 2 (destruct (JS.endsWith _ _); [reflexivity|]). reflexivity.
  - rewrite (proj1 (buildDatabaseSchemas_from_store
               (Mock.host0 ∅ (Throw Mock.ENOENT)) "starter") Mock.ENOENT)
      by reflexivity.
    reflexivity.
  - destruct (proj1 (proj2 (proj2 (proj2 (buildDatabaseSchemas_from_store
               (Mock.truncated_tasks_host (Normal Mock.all_starter_files))
               "starter"))))
               Mock.all_starter_files starter_config
               ["clients.json"; "documents.json"; "projects.json"]
               "tasks.json" ["team-members.json"; "vendors.json"])
      as (sel & -> & Hsel); try reflexivity.
    + intros g Hg. rewrite !elem_of_cons, elem_of_nil in Hg.
      destruct Hg as [->|[->|[->|[]]]]; vm_compute; reflexivity.
    + intros Habs. vm_compute in Habs. discriminate.
    + rewrite map_app, Hsel. reflexivity.
  - apply (proj2 (proj2 (proj2 (proj2 (proj2 (buildDatabaseSchemas_from_store
               (Mock.host0 ∅ (Normal Mock.all_starter_files)) "starter")))))
             Mock.acme_options starter_config);
      try reflexivity.
    intros p e He. discriminate.
Defined.

(** C9, as stated, fails: the build accepts the empty client string, a
    client string with a slash and a reserved word, and puts each in the
    package, while the validator rejects the last two. *)
Lemma buildTemplate_accepts_any_client :
  let build c :=
    fst (buildTemplate (Mock.host0 ∅ (Normal Mock.all_starter_files))
           {| opt_tier := "starter"; opt_client := c;
              opt_sampleData := false |} initial_state) in
  let client_of r :=
    match r with Normal bp => Some (client bp) | Throw _ => None end in
  client_of (build EmptyString) = Some EmptyString /\
  client_of (build "Acme/Co") = Some "Acme/Co" /\
  client_of (build "Admin") = Some "Admin" /\
  is_normal (Validator.validateClientName "Acme/Co") = false /\
  is_normal (Validator.validateClientName "Admin") = false.
Proof. vm_compute. repeat split. Qed.

Lemma problematicChars_test_spec (client : string) :
  Validator.problematicChars_test client = true <->
  exists ch, In ch Validator.problematicChars /\
             In ch (list_ascii_of_string client).
Proof.
  induction client as [|a rest IH].
  - simpl. split; [discriminate|]. intros (ch & _ & []).
  - cbn [Validator.problematicChars_test list_ascii_of_string].
    rewrite orb_true_iff, IH, existsb_exists. split.
    + intros [(ch & Hch & Heq)|(ch & Hch & Hin)].
      * apply Ascii.eqb_eq in Heq. subst ch. exists a. split; [done|by left].
      * exists ch. split; [done|by right].
    + intros (ch & Hch & [->|Hin]).
      * left. exists ch. split; [done|]. apply Ascii.eqb_refl.
      * right. eauto.
Qed.

(** C9 (amended): the client identity is checked by the separate input
    validator, not by the build.  [validateClientName] rejects a client
    string exactly when it contains one of the characters
    less-than, greater-than, colon, double quote, slash, backslash, bar,
    question mark, star, or when it equals notion, template, system,
    admin or api once lowered; it accepts every other string, the empty
    one included.  [buildTemplate] applies no check: on a host where
    directories and files can be written it builds a package for any
    client string and any tier of the catalog. *)
Theorem client_identity_validation (clientName : string) :
  (Validator.validateClientName clientName = Normal tt <->
     (forall ch, In ch Validator.problematicChars ->
                 ~ In ch (list_ascii_of_string clientName)) /\
     ~ In (JS.toLowerCase clientName) Validator.reservedWords) /\
  ((exists ch, In ch Validator.problematicChars /\
               In ch (list_ascii_of_string clientName)) ->
   Validator.validateClientName clientName
     = Throw (Error "Client name contains invalid characters")) /\
  Validator.validateClientName EmptyString = Normal tt /\
  (forall h tier sample c s,
     templateConfigs !! tier = Some c ->
     (forall p e, mkdir h p = Some e -> code e = Some "EEXIST") ->
     (forall p, writeFile h p = None) ->
     exists bp s',
       buildTemplate h {| opt_tier := tier; opt_client := clientName;
                          opt_sampleData := sample |} s = (Normal bp, s') /\
       client bp = clientName).
Proof.
  assert (JS.arr_includes Validator.reservedWords (JS.toLowerCase clientName) = true
          <-> In (JS.toLowerCase clientName) Validator.reservedWords) as Hres.
  { rewrite arr_includes_elem_of. apply list_elem_of_In. }
  split; [|split; [|split]].
  - unfold Validator.validateClientName.
    destruct (Validator.problematicChars_test clientName) eqn:Hbad.
    + apply problematicChars_test_spec in Hbad as (ch & Hch & Hin).
      split; [discriminate|]. intros [Hno _]. destruct (Hno ch Hch Hin).
    + destruct (JS.arr_includes Validator.reservedWords (JS.toLowerCase clientName))
        eqn:Hr.
      * split; [discriminate|]. intros [_ Hno]. destruct Hno. by apply Hres.
      * split; [|done]. intros _. split.
        -- intros ch Hch Hin.
           assert (Validator.problematicChars_test clientName = true) as Ht
             by (apply problematicChars_test_spec; eauto).
           congruence.
        -- intros Hin. apply Hres in Hin. congruence.
  - intros Hbad. apply problematicChars_test_spec in Hbad.
    unfold Validator.validateClientName. by rewrite Hbad.
  - reflexivity.
  - intros h tier sample c s Hc Hmk Hwr.
    destruct (buildTemplate_ok h Hmk Hwr
                {| opt_tier := tier; opt_client := clientName;
                   opt_sampleData := sample |} c s Hc)
      as (bp & s' & Hrun & Hcl & _).
    eauto.
Qed.

Lemma client_identity_validation_witness :
  Validator.validateClientName "Acme/Co"
    = Throw (Error "Client name contains invalid characters") /\
  Validator.validateClientName "Acme Co" = Normal tt /\
  exists bp s',
    buildTemplate (Mock.host0 ∅ (Normal Mock.all_starter_files))
      {| opt_tier := "starter"; opt_client := "Admin";
         opt_sampleData := true |} initial_state = (Normal bp, s') /\
    client bp = "Admin".
Proof.
  split; [|split].
  - apply (proj1 (proj2 (client_identity_validation "Acme/Co"))).
    exists "/"%char. split; vm_compute; tauto.
  - apply (proj1 (client_identity_validation "Acme Co")). split.
    + intros ch Hch Hin. vm_compute in Hch, Hin.
      intuition (subst; discriminate).
    + vm_compute. intuition discriminate.
  - apply (proj2 (proj2 (proj2 (client_identity_validation "Admin")))
             (Mock.host0 ∅ (Normal Mock.all_starter_files))
             "starter" true starter_config).
    + reflexivity.
    + intros p e He. discriminate.
    + reflexivity.
Defined.

End CompilerFacts.

(** ** Translation of field definitions *)

Module TranslationFacts.
Import Deploy.

(** The nine kinds are told apart by [kindIs]. *)
Lemma kindIs_spec (d : PropertyDef) (kind : string) :
  kindIs d kind = true <-> type d = Some kind.
Proof.
  unfold kindIs. destruct (type d) as [t|]; [|split; discriminate].
  rewrite String.eqb_eq. split; congruence.
Qed.

Lemma kindIs_other (d : PropertyDef) (kind t : string) :
  type d = Some t -> t <> kind -> kindIs d kind = false.
Proof.
  intros Ht Hne. unfold kindIs. rewrite Ht. by apply String.eqb_neq.
Qed.

(** When the translation of a field definition throws. *)
Lemma convertPropertyToNotion_throws (prop : FieldValue) :
  is_normal (convertPropertyToNotion prop) = false <->
  prop = NullField \/
  exists d, prop = FieldOf d /\ type d = Some "select" /\
            options d = OptionsNotArray.
Proof.
  destruct prop as [|d]; cbn [convertPropertyToNotion].
  - split; [by left|reflexivity].
  - destruct (kindIs d "title") eqn:Ht.
    { apply kindIs_spec in Ht. split; [discriminate|].
      intros [?|(d' & [= <-] & Hs & _)]; congruence. }
    destruct (kindIs d "select") eqn:Hs.
    { apply kindIs_spec in Hs.
      destruct (options d) eqn:Ho; cbn [is_normal]; split; try discriminate;
        try (intros [?|(d' & [= <-] & _ & Ho')]; congruence).
      intros _. right. by exists d. }
    assert (type d <> Some "select") as Hne.
    { intros Hx. apply kindIs_spec in Hx. congruence. }
    repeat match goal with
      | |- context [if ?b then _ else _] => destruct b
      end;
      (split; [discriminate|]);
      intros [?|(d' & [= <-] & Hx & _)]; congruence.
Qed.

(** The loop over the entries of a schema that all translate: the
    properties assigned are those of the accumulator and those of the
    entries, an entry named __proto__ leaving none. *)
Lemma translateEntries_ok (entries : list (string * FieldValue)) :
  Forall (fun entry => is_normal (convertPropertyToNotion entry.2) = true)
         entries ->
  NoDup (map fst entries) ->
  forall acc, exists m,
    translateEntries entries acc = Normal m /\
    forall fieldName p,
      m !! fieldName = Some p <->
      (fieldName <> "__proto__" /\
       exists v, (fieldName, v) ∈ entries /\
                 convertPropertyToNotion v = Normal p) \/
      ((fieldName = "__proto__" \/ fieldName ∉ map fst entries) /\
       acc !! fieldName = Some p).
Proof.
  induction entries as [|[n v] rest IH]; intros Hok Hnd acc.
  - exists acc. split; [reflexivity|]. intros k p. split.
    + intros Hk. right. split; [right; apply not_elem_of_nil|exact Hk].
    + intros [(_ & v & Hv & _)|[_ Hk]]; [by apply elem_of_nil in Hv|exact Hk].
  - apply Forall_cons in Hok as [Hv Hrest].
    apply NoDup_cons in Hnd as [Hn Hnd]. cbn [fst snd map] in *.
    cbn [translateEntries].
    destruct (convertPropertyToNotion v) as [q|e] eqn:Hq; [|discriminate].
    destruct (IH Hrest Hnd (JS.put acc n q)) as (m & -> & Hm).
    exists m. split; [reflexivity|]. intros k p.
    rewrite Hm, JsFacts.lookup_put. clear Hm IH.
    split.
    + intros [(Hk & v' & Hv' & Hp)|[Hk Hacc]].
      * left. split; [exact Hk|]. exists v'. split; [by right|exact Hp].
      * destruct (bool_decide_reflect (k = n /\ n <> "__proto__"))
          as [[-> Hnp]|Hno].
        -- injection Hacc as <-. left. split; [exact Hnp|].
           exists v. split; [by left|exact Hq].
        -- right. split; [|exact Hacc].
           destruct Hk as [Hk|Hk]; [by left|].
           destruct (decide (k = "__proto__")) as [Hp|Hp]; [by left|].
           right. rewrite not_elem_of_cons. split; [|exact Hk].
           intros ->. apply Hno. by split.
    + intros [(Hk & v' & Hv' & Hp)|[Hk Hacc]].
      * apply elem_of_cons in Hv' as [[= -> ->]|Hv'].
        -- right. split.
           ++ right. exact Hn.
           ++ rewrite bool_decide_eq_true_2 by done. congruence.
        -- left. split; [exact Hk|]. by exists v'.
      * right. split.
        -- destruct Hk as [Hk|Hk]; [by left|].
           right. by apply not_elem_of_cons in Hk as [_ ?].
        -- rewrite bool_decide_eq_false_2; [exact Hacc|].
           intros [-> Hnp]. destruct Hk as [Hk|Hk]; [done|].
           apply Hk. by left.
Qed.

(** The loop stops at the first entry whose translation throws. *)
Lemma translateEntries_throw (before after : list (string * FieldValue))
    (n : string) (v : FieldValue) (e : JsError) :
  Forall (fun entry => is_normal (convertPropertyToNotion entry.2) = true)
         before ->
  convertPropertyToNotion v = Throw e ->
  forall acc, translateEntries (before ++ (n, v) :: after) acc = Throw e.
Proof.
  intros Hok Hv. induction before as [|[n' v'] rest IH]; intros acc.
  - cbn [app translateEntries]. by rewrite Hv.
  - apply Forall_cons in Hok as [Hv' Hrest]. cbn [snd] in Hv'.
    cbn [app translateEntries].
    destruct (convertPropertyToNotion v'); [|discriminate].
    by apply IH.
Qed.

(** C10, as stated, fails twice.  The translation throws for a field
    whose definition is [null] and for a select field whose options are
    not a list, and so does the translation of a schema that holds such a
    field.  And a schema whose [properties] object is present and empty
    declares no field, and the translation gives it no property at all,
    not the default set. *)
Lemma translation_is_partial :
  convertPropertyToNotion NullField
    = Throw (Error "Cannot read properties of null (reading 'type')") /\
  convertPropertyToNotion
    (FieldOf {| type := Some "select"; options := OptionsNotArray;
                format := None |})
    = Throw (Error "prop.options?.map is not a function") /\
  is_normal (convertSchemaToNotionProperties (Some Mock.null_field_schema))
    = false /\
  is_normal (convertSchemaToNotionProperties (Some Mock.text_options_schema))
    = false /\
  properties Mock.empty_fields_schema = Some [] /\
  convertSchemaToNotionProperties (Some Mock.empty_fields_schema)
    = Normal ∅ /\
  defaultProperties !! "Name" = Some NP_title /\
  convertSchemaToNotionProperties (Some Mock.empty_fields_schema)
    <> Normal defaultProperties.
Proof.
  do 7 (split; [reflexivity|]).
  intros Heq.
  assert (forall a b : gmap string NotionProperty,
            Normal a = Normal b -> a !! "Name" = b !! "Name") as Hinj
    by (intros a b H; congruence).
  apply Hinj in Heq. rewrite lookup_empty in Heq.
  assert (defaultProperties !! "Name" = Some NP_title) as E by reflexivity.
  rewrite E in Heq. discriminate Heq.
Qed.

(** C10 (amended): the translation of a field definition is total on the
    definitions that are not [null] and whose options, when present, are
    a list: it throws exactly for a [null] definition and for a select
    whose options are not a list.  The nine recognised kinds have their
    own remote representation (a select carries its options, each with
    the default colour, and none when the field has no options; a number
    carries its format, or the format number when it has none), and any
    other kind, or no kind, is a rich text.  The translation of a schema
    throws for a schema that is [null].  A schema without a [properties]
    object receives the default set Name (title), Status (select with four
    options), Created (creation time).  A schema with a [properties]
    object whose entries all translate receives exactly the translation
    of each of its entries, so none when the object is empty, except
    that an entry named __proto__ leaves no property; when an entry does
    not translate the translation of the schema throws the error of the
    first such entry. *)
Theorem translation_total (prop : FieldValue) (sch : option Schema) :
  let translates (entry : string * FieldValue) :=
    is_normal (convertPropertyToNotion entry.2) = true in
  (is_normal (convertPropertyToNotion prop) = false <->
   prop = NullField \/
   exists d, prop = FieldOf d /\ type d = Some "select" /\
             options d = OptionsNotArray) /\
  (forall d, prop = FieldOf d ->
   (type d = Some "title" -> convertPropertyToNotion prop = Normal NP_title) /\
   (type d = Some "select" ->
    convertPropertyToNotion prop =
      match options d with
      | OptionsNullish => Normal (NP_select [])
      | OptionsArray l =>
          Normal (NP_select
                    (map (fun opt => {| option_name := opt;
                                        color := "default" |}) l))
      | OptionsNotArray =>
          Throw (Error "prop.options?.map is not a function")
      end) /\
   (type d = Some "number" ->
    convertPropertyToNotion prop =
      Normal (NP_number
                (match format d with
                 | Some f => if String.eqb f EmptyString then "number" else f
                 | None => "number"
                 end))) /\
   (type d = Some "date" -> convertPropertyToNotion prop = Normal NP_date) /\
   (type d = Some "checkbox" ->
    convertPropertyToNotion prop = Normal NP_checkbox) /\
   (type d = Some "text" ->
    convertPropertyToNotion prop = Normal NP_rich_text) /\
   (type d = Some "url" -> convertPropertyToNotion prop = Normal NP_url) /\
   (type d = Some "email" -> convertPropertyToNotion prop = Normal NP_email) /\
   (type d = Some "phone" ->
    convertPropertyToNotion prop = Normal NP_phone_number) /\
   ((forall kind, type d = Some kind -> kind ∉ recognizedKinds) ->
    convertPropertyToNotion prop = Normal NP_rich_text)) /\
  (sch = None ->
   convertSchemaToNotionProperties sch
   = Throw (Error "Cannot read properties of null (reading 'properties')")) /\
  (forall s, sch = Some s -> properties s = None ->
   convertSchemaToNotionProperties sch = Normal defaultProperties /\
   dom defaultProperties = {["Name"; "Status"; "Created"]} /\
   defaultProperties !! "Name" = Some NP_title /\
   defaultProperties !! "Status" =
     Some (NP_select
             [ {| option_name := "Planning"; color := "yellow" |};
               {| option_name := "In Progress"; color := "blue" |};
               {| option_name := "Completed"; color := "green" |};
               {| option_name := "On Hold"; color := "red" |} ]) /\
   defaultProperties !! "Created" = Some NP_created_time) /\
  (forall s entries, sch = Some s -> properties s = Some entries ->
   Forall translates entries ->
   NoDup (map fst entries) ->
   exists m,
     convertSchemaToNotionProperties sch = Normal m /\
     forall fieldName p,
       m !! fieldName = Some p <->
       fieldName <> "__proto__" /\
       exists v, (fieldName, v) ∈ entries /\
                 convertPropertyToNotion v = Normal p) /\
  (forall s before fieldName v after e,
   sch = Some s ->
   properties s = Some (before ++ (fieldName, v) :: after)%list ->
   Forall translates before ->
   convertPropertyToNotion v = Throw e ->
   convertSchemaToNotionProperties sch = Throw e).
Proof.
  cbv zeta.
  split; [apply convertPropertyToNotion_throws|].
  split; [|split; [|split; [|split]]].
  - intros d ->. cbn [convertPropertyToNotion].
    repeat split.
    1-9: intros Hk;
      repeat match goal with
        | |- context [kindIs ?x ?k] =>
            first [ rewrite (proj2 (kindIs_spec x k) Hk)
                  | rewrite (kindIs_other x k _ Hk) by discriminate ]
        end.
    1,2,4-9: reflexivity.
    + by destruct (format d) as [[|a f]|].
    + intros Hk.
      repeat match goal with
        | |- context [kindIs ?x ?k] =>
            let E := fresh "E" in
            destruct (kindIs x k) eqn:E;
            [apply kindIs_spec in E; exfalso; apply (Hk _ E);
             apply (bool_decide_unpack _); vm_compute; exact I|]
        end.
      reflexivity.
  - by intros ->.
  - intros s -> Hp. cbn [convertSchemaToNotionProperties]. rewrite Hp.
    repeat split.
  - intros s entries -> Hp Hok Hnd.
    cbn [convertSchemaToNotionProperties]. rewrite Hp.
    destruct (translateEntries_ok entries Hok Hnd ∅) as (m & -> & Hm).
    exists m. split; [reflexivity|]. intros k p. rewrite Hm.
    split; [|by left].
    intros [H|[_ H]]; [exact H|]. by rewrite lookup_empty in H.
  - intros s before n v after e -> Hp Hok Hv.
    cbn [convertSchemaToNotionProperties]. rewrite Hp.
    by apply translateEntries_throw.
Qed.

Lemma translation_total_witness :
  convertPropertyToNotion
    (FieldOf {| type := Some "person"; options := OptionsNullish;
                format := None |}) = Normal NP_rich_text /\
  convertPropertyToNotion
    (FieldOf {| type := Some "number"; options := OptionsNullish;
                format := Some "dollar" |})
    = Normal (NP_number "dollar") /\
  convertSchemaToNotionProperties (Some (Mock.bare_schema "Projects"))
    = Normal defaultProperties /\
  (exists m,
     convertSchemaToNotionProperties (Some Mock.tasks_schema) = Normal m /\
     m !! "Priority"
     = Some (NP_select [ {| option_name := "High"; color := "default" |};
                         {| option_name := "Normal"; color := "default" |} ]))
  /\
  (exists m,
     convertSchemaToNotionProperties (Some Mock.proto_field_schema)
     = Normal m /\
     m !! "__proto__" = None /\ m !! "Name" = Some NP_title) /\
  convertSchemaToNotionProperties (Some Mock.null_field_schema)
    = Throw (Error "Cannot read properties of null (reading 'type')").
Proof.
  split; [|split; [|split; [|split; [|split]]]].
  - refine (proj2 (proj2 (proj2 (proj2 (proj2 (proj2 (proj2 (proj2 (proj2
              (proj1 (proj2 (translation_total
                 (FieldOf {| type := Some "person"; options := OptionsNullish;
                             format := None |}) None)) _ eq_refl)))))))))
              _).
    intros kind [= <-]. apply (bool_decide_unpack _). vm_compute. exact I.
  - exact (proj1 (proj2 (proj2 (proj1 (proj2 (translation_total
             (FieldOf {| type := Some "number"; options := OptionsNullish;
                         format := Some "dollar" |}) None)) _ eq_refl)))
             eq_refl).
  - exact (proj1 (proj1 (proj2 (proj2 (proj2 (translation_total NullField
             (Some (Mock.bare_schema "Projects"))))))
             _ eq_refl eq_refl)).
  - destruct (proj1 (proj2 (proj2 (proj2 (proj2 (translation_total NullField
                (Some Mock.tasks_schema))))))
                Mock.tasks_schema _ eq_refl eq_refl)
      as (m & Hm & Hlook).
    + repeat constructor.
    + apply (bool_decide_unpack _). vm_compute. exact I.
    + exists m. split; [exact Hm|]. apply Hlook.
      split; [discriminate|].
      exists (FieldOf {| type := Some "select";
                         options := OptionsArray ["High"; "Normal"];
                         format := None |}).
      split; [|reflexivity].
      cbn [Mock.tasks_schema properties]. rewrite !elem_of_cons. auto.
  - destruct (proj1 (proj2 (proj2 (proj2 (proj2 (translation_total NullField
                (Some Mock.proto_field_schema))))))
                Mock.proto_field_schema _ eq_refl eq_refl)
      as (m & Hm & Hlook).
    + repeat constructor.
    + apply (bool_decide_unpack _). vm_compute. exact I.
    + exists m. split; [exact Hm|]. split.
      * destruct (m !! "__proto__") as [p|] eqn:Hp; [|reflexivity].
        apply Hlook in Hp as [Hne _]. by destruct Hne.
      * apply Hlook. split; [discriminate|].
        exists (FieldOf {| type := Some "title"; options := OptionsNullish;
                           format := None |}).
        split; [|reflexivity].
        cbn [Mock.proto_field_schema properties]. rewrite !elem_of_cons. auto.
  - exact (proj2 (proj2 (proj2 (proj2 (proj2 (translation_total NullField
             (Some Mock.null_field_schema))))))
             Mock.null_field_schema
             [("Name", FieldOf {| type := Some "title";
                                  options := OptionsNullish;
                                  format := None |})]
             "Phone" NullField [] _ eq_refl eq_refl
             ltac:(repeat constructor) eq_refl).
Defined.

End TranslationFacts.

(** ** The deployment orchestrator *)

Module DeployFacts.
Import Deploy.

Lemma lookups_app (t1 t2 : list Effect) :
  lookups (t1 ++ t2) = (lookups t1 ++ lookups t2)%list.
Proof. apply omap_app. Qed.

Lemma creations_app (t1 t2 : list Effect) :
  creations (t1 ++ t2) = (creations t1 ++ creations t2)%list.
Proof. apply filter_app. Qed.

Section WithClient.
Variable h : Host.
Variable notion : Notion.

Local Abbreviation Ctx := (Deploy.Ctx notion).

(** The script's [createDatabase] carries out the exchange
    [attemptCreate] on the workspace it starts from: it makes these
    calls, returns this outcome and leaves the workspace in this state;
    it touches nothing else. *)
Lemma createDatabase_frame (d : DbSchema) (clientName : string) (c : Ctx) :
  exists r c' tr,
    createDatabase notion d clientName c = (r, c') /\
    attemptCreate notion d clientName (world c) = (tr, (r, world c')) /\
    state c' = state c /\
    ticks c' = ticks c /\
    trace c' = (trace c ++ tr)%list.
Proof.
  unfold attemptCreate, createDatabase, getOrCreateParentPage, bind, lift,
    notion_search, notion_pages_create, notion_databases_create, ret, emit.
  destruct (convertSchemaToNotionProperties (schema d)) as [props|e0].
  2: { do 2 eexists. exists []. rewrite app_nil_r. repeat split. }
  cbn [world state trace ticks].
  destruct (search notion _ (world c)) as [[[|p ps]|e] w1];
    cbn [world state trace ticks].
  - destruct (pages_create notion _ w1) as [[p|e] w2];
      cbn [world state trace ticks].
    + destruct (databases_create notion _ w2) as [r w3];
        cbn [world state trace ticks].
      do 3 eexists. split; [reflexivity|]. split; [reflexivity|].
      cbn [state ticks trace]. by rewrite <- !app_assoc.
    + do 3 eexists. split; [reflexivity|]. split; [reflexivity|].
      cbn [state ticks trace]. by rewrite <- !app_assoc.
  - destruct (databases_create notion _ w1) as [r w3];
      cbn [world state trace ticks].
    do 3 eexists. split; [reflexivity|]. split; [reflexivity|].
    cbn [state ticks trace]. by rewrite <- !app_assoc.
  - do 3 eexists. split; [reflexivity|]. split; [reflexivity|].
    repeat split.
Qed.

(** One round of the loop: whatever the outcome of the attempt, the
    round ends normally, with one record appended to the errors or to
    the created resources, and with a pause after a creation. *)
Lemma deployDatabase_round (clientName : string) (d : DbSchema)
    (acc : list string) (c : Ctx) :
  exists r c' tr,
    attemptCreate notion d clientName (world c) = (tr, (r, world c')) /\
    deployDatabase notion clientName d acc c
      = (Normal (acc ++ createdIds [(d, r)])%list, c') /\
    errors (state c') = (errors (state c) ++ errorRecords [(d, r)])%list /\
    createdResources (state c')
      = (createdResources (state c) ++ resourceRecords [(d, r)])%list /\
    completedSteps (state c') = completedSteps (state c) /\
    trace c'
      = (trace c ++ tr ++ if is_normal r then [Sleep 1000] else [])%list.
Proof.
  destruct (createDatabase_frame d clientName c)
    as (r & c1 & tr & Hrun & Hatt & Hst & Htk & Htr).
  unfold deployDatabase, try_catch, bind. rewrite Hrun.
  destruct r as [i|e].
  - exists (Normal i). eexists. exists tr.
    split; [|split; [reflexivity|]].
    + exact Hatt.
    + cbn. rewrite Hst, Htr, <- app_assoc, app_nil_r. repeat split.
  - exists (Throw e). eexists. exists tr.
    split; [|split; [cbn; by rewrite app_nil_r|]].
    + exact Hatt.
    + cbn. rewrite Hst, Htr, !app_nil_r. repeat split.
Qed.

Lemma phase1_loop (clientName : string) (dbs : list DbSchema) :
  forall (acc : list string) (c : Ctx),
  exists c',
    for_of_acc dbs acc (deployDatabase notion clientName) c
      = (Normal (acc ++ createdIds (attempts notion clientName dbs (world c)))%list,
         c') /\
    errors (state c')
      = (errors (state c)
         ++ errorRecords (attempts notion clientName dbs (world c)))%list /\
    createdResources (state c')
      = (createdResources (state c)
         ++ resourceRecords (attempts notion clientName dbs (world c)))%list /\
    completedSteps (state c') = completedSteps (state c) /\
    trace c' = (trace c ++ phaseEffects notion clientName dbs (world c))%list /\
    world c' = worldAfter notion clientName dbs (world c).
Proof.
  induction dbs as [|d rest IH]; intros acc c.
  - exists c. cbn. rewrite !app_nil_r. repeat split.
  - destruct (deployDatabase_round clientName d acc c)
      as (r & c1 & tr1 & Hatt & Hrun & He & Hr & Hs & Htr).
    destruct (IH (acc ++ createdIds [(d, r)])%list c1)
      as (c2 & Hrun2 & He2 & Hr2 & Hs2 & Htr2 & Hw2).
    exists c2.
    cbn [for_of_acc attempts phaseEffects worldAfter]. unfold bind at 1.
    rewrite Hrun. rewrite Hrun2. rewrite Hatt.
    rewrite He2, Hr2, Hs2, Htr2, Hw2, He, Hr, Hs, Htr.
    unfold errorRecords, resourceRecords, createdIds.
    rewrite <- !app_assoc, <- !omap_app.
    repeat split.
Qed.

Lemma attempts_schemas (clientName : string) (dbs : list DbSchema) :
  forall w, map fst (attempts notion clientName dbs w) = dbs.
Proof.
  induction dbs as [|d rest IH]; intros w; [reflexivity|].
  cbn [attempts].
  destruct (attemptCreate notion d clientName w) as [tr [r w']].
  cbn. by rewrite IH.
Qed.

Lemma records_partition (l : list (DbSchema * Completion string)) :
  (length (errorRecords l) + length (resourceRecords l))%nat = length l.
Proof.
  induction l as [|[d r] l IH]; [reflexivity|].
  change ((d, r) :: l) with ([(d, r)] ++ l)%list.
  unfold errorRecords, resourceRecords in *.
  rewrite !omap_app, !length_app, length_cons.
  destruct r; cbn; lia.
Qed.

End WithClient.

Section Decided.
Variable notion : Notion.
Variable clientName : string.

(** [decided effects d r] : the outcome [r] of the attempt for the schema
    [d] is the remote client's.  An identifier is the answer to a request
    for the database of [d] that is among the [effects]; an error is the
    one thrown by the translation of [d], or the answer to a search for
    the parent page, to a request for the parent page or to a request for
    the database of [d]. *)
Local Abbreviation decided effects d r :=
  (match r with
   | Normal i =>
       exists props page w w',
         convertSchemaToNotionProperties (schema d) = Normal props /\
         CallDatabasesCreate (databaseRequest d clientName page props)
           ∈ (effects : list Effect) /\
         databases_create notion (databaseRequest d clientName page props) w
         = (Normal i, w')
   | Throw e =>
       convertSchemaToNotionProperties (schema d) = Throw e \/
       exists w w',
         search notion (parentQuery clientName) w = (Throw e, w') \/
         pages_create notion (WorkspacePage (parentQuery clientName) []) w
         = (Throw e, w') \/
         exists props page,
           databases_create notion (databaseRequest d clientName page props) w
           = (Throw e, w')
   end).

Lemma attemptCreate_decided (d : DbSchema) (w : World notion) :
  decided (attemptCreate notion d clientName w).1 d
          (attemptCreate notion d clientName w).2.1.
Proof.
  unfold attemptCreate.
  destruct (convertSchemaToNotionProperties (schema d)) as [props|e0];
    [|by left].
  cbv zeta.
  destruct (search notion _ w) as [[[|p ps]|e] w1] eqn:Hsearch.
  - destruct (pages_create notion _ w1) as [[p|e] w2] eqn:Hpage.
    + destruct (databases_create notion _ w2) as [[i|e] w3] eqn:Hdb;
        cbn [fst snd].
      * exists props, p, w2, w3. split; [reflexivity|].
        split; [|exact Hdb]. rewrite !elem_of_cons. auto.
      * right. exists w2, w3. right. right. eauto.
    + right. exists w1, w2. right. left. exact Hpage.
  - destruct (databases_create notion _ w1) as [[i|e] w3] eqn:Hdb;
      cbn [fst snd].
    + exists props, p, w1, w3. split; [reflexivity|].
      split; [|exact Hdb]. rewrite !elem_of_cons. auto.
    + right. exists w1, w3. right. right. eauto.
  - right. exists w, w1. left. exact Hsearch.
Qed.

Lemma attempts_decided (dbs : list DbSchema) :
  forall w,
    Forall (fun outcome =>
              decided (phaseEffects notion clientName dbs w)
                      outcome.1 outcome.2)
           (attempts notion clientName dbs w).
Proof.
  induction dbs as [|d rest IH]; intros w; [constructor|].
  cbn [attempts phaseEffects].
  pose proof (attemptCreate_decided d w) as Hd.
  destruct (attemptCreate notion d clientName w) as [calls [r w']].
  cbn [fst snd] in Hd. constructor.
  - cbn [fst snd]. destruct r as [i|e]; [|exact Hd].
    destruct Hd as (props & page & w1 & w2 & Hp & Hin & Hdb).
    exists props, page, w1, w2. split; [exact Hp|]. split; [|exact Hdb].
    apply elem_of_app. by left.
  - eapply Forall_impl; [apply IH|].
    intros [d' [i|e]]; cbn [fst snd]; [|auto].
    intros (props & page & w1 & w2 & Hp & Hin & Hdb).
    exists props, page, w1, w2. split; [exact Hp|]. split; [|exact Hdb].
    apply elem_of_app. right. apply elem_of_app. by right.
Qed.
End Decided.

(** C1: the databases phase always completes, whatever creations fail.
    Every schema of the build package has its attempt, in order, each
    starting on the workspace as the attempt before left it, whatever
    the outcome of that one; the calls received by the remote client
    are those of these attempts.  The outcome of an attempt is the
    remote client's: a database counts as created when the request for
    it was answered with an identifier, and an attempt fails with the
    error of the remote call that failed (or of the translation of the
    schema, which comes before any call).  The phase appends to the
    errors exactly one record, with phase, resource name and message,
    per failed attempt, and to the created resources exactly one record
    per database created; it returns the identifiers of the created
    databases and records the step databases_deployed. *)
Theorem soft_failure_isolation (notion : Notion) (buildPackage : BuildPackage)
    (c : Ctx notion) :
  let dbs := default [] (schemas buildPackage) in
  let clientName := client buildPackage in
  let outcomes := attempts notion clientName dbs (world c) in
  let effects := phaseEffects notion clientName dbs (world c) in
  exists c',
    deployPhase1_Databases notion buildPackage c
      = (Normal (createdIds outcomes), c') /\
    map fst outcomes = dbs /\
    trace c' = (trace c ++ effects)%list /\
    world c' = worldAfter notion clientName dbs (world c) /\
    Forall
      (fun outcome =>
         match outcome.2 with
         | Normal i =>
             exists props page w w',
               convertSchemaToNotionProperties (schema outcome.1)
               = Normal props /\
               CallDatabasesCreate
                 (databaseRequest outcome.1 clientName page props)
                 ∈ effects /\
               databases_create notion
                 (databaseRequest outcome.1 clientName page props) w
               = (Normal i, w')
         | Throw e =>
             convertSchemaToNotionProperties (schema outcome.1) = Throw e \/
             exists w w',
               search notion (parentQuery clientName) w = (Throw e, w') \/
               pages_create notion
                 (WorkspacePage (parentQuery clientName) []) w
               = (Throw e, w') \/
               exists props page,
                 databases_create notion
                   (databaseRequest outcome.1 clientName page props) w
                 = (Throw e, w')
         end)
      outcomes /\
    errors (state c') = (errors (state c) ++ errorRecords outcomes)%list /\
    createdResources (state c')
      = (createdResources (state c) ++ resourceRecords outcomes)%list /\
    (length (errorRecords outcomes) + length (resourceRecords outcomes))%nat
      = length dbs /\
    completedSteps (state c')
      = (completedSteps (state c) ++ ["databases_deployed"])%list.
Proof.
  cbv zeta.
  destruct (phase1_loop notion (client buildPackage)
              (default [] (schemas buildPackage)) [] c)
    as (c1 & Hrun & He & Hr & Hs & Htr & Hw).
  unfold deployPhase1_Databases, bind. rewrite Hrun.
  eexists. split; [reflexivity|].
  cbn. rewrite He, Hr, Hs, Htr, Hw.
  pose proof (records_partition
                (attempts notion (client buildPackage)
                   (default [] (schemas buildPackage)) (world c))) as Hn.
  pose proof (f_equal length
                (attempts_schemas notion (client buildPackage)
                   (default [] (schemas buildPackage)) (world c))) as Hlen.
  rewrite length_map in Hlen.
  split; [apply attempts_schemas|]. split; [reflexivity|].
  split; [reflexivity|].
  split; [apply attempts_decided|].
  split; [reflexivity|]. split; [reflexivity|]. split; [lia|reflexivity].
Qed.

(** The failure scenario of the specification: the remote client fails
    on the creation of the tasks database only. *)
Example soft_failure_on_tasks :
  match Mock.acme_build with
  | Throw _ => False
  | Normal bp =>
      let '(r, c) :=
        deployPhase1_Databases (Mock.workspace true ["Acme Co - Tasks"]) bp
          (@initial_ctx (Mock.workspace true ["Acme Co - Tasks"]) 0%nat) in
      r = Normal ["db-1"; "db-3"; "db-5"; "db-8"] /\
      errors (state c)
        = [ {| phase := "databases"; resource := "tasks";
               error := "validation_error" |} ] /\
      map resource_name (createdResources (state c))
        = [Some "clients"; Some "documents"; Some "projects";
           Some "team-members"] /\
      length (lookups (trace c)) = 5%nat /\
      length (creations (trace c)) = 10%nat /\
      completedSteps (state c) = ["databases_deployed"]
  end.
Proof. vm_compute. repeat split. Qed.

(** A package built from a careless schema store, on a workspace that
    refuses nothing: the schemas that cannot be translated fail before
    any call, each with its own error, and the others are created. *)
Example soft_failure_on_malformed_schemas :
  match Mock.careless_build with
  | Throw _ => False
  | Normal bp =>
      let '(r, c) :=
        deployPhase1_Databases (Mock.workspace true []) bp
          (@initial_ctx (Mock.workspace true []) 0%nat) in
      map name (default [] (schemas bp))
        = ["clients"; "documents"; "projects"; "tasks"; "team-members"] /\
      r = Normal ["db-1"; "db-3"; "db-5"] /\
      errors (state c)
        = [ {| phase := "databases"; resource := "clients";
               error := "Cannot read properties of null (reading 'type')" |};
            {| phase := "databases"; resource := "projects";
               error :=
                 "Cannot read properties of null (reading 'properties')" |} ]
      /\
      map resource_name (createdResources (state c))
        = [Some "documents"; Some "tasks"; Some "team-members"] /\
      length (lookups (trace c)) = 3%nat /\
      sleeps (trace c) = [1000; 1000; 1000]
  end.
Proof. vm_compute. repeat split. Qed.

Section Run.
Variable h : Host.
Variable notion : Notion.

Local Abbreviation Ctx := (Deploy.Ctx notion).

Lemma initializeEnvironment_spec (c : Ctx) :
  exists r c',
    initializeEnvironment h notion c = (r, c') /\
    unchanged_but_steps c c'
      (if is_normal r then ["environment_init"] else []) /\
    ds_tier (state c')
      = Some (JS.or_else (env h !! "DEPLOYMENT_TIER") "professional") /\
    r = if negb (JS.truthy (env h !! "CLIENT_NAME"))
        then Throw (Error "CLIENT_NAME environment variable is required")
        else if negb (JS.truthy (env h !! "NOTION_TOKEN"))
        then Throw (Error "NOTION_TOKEN environment variable is required")
        else Normal tt.
Proof.
  unfold initializeEnvironment, bind, set_client, set_tier, modify,
    getState, with_state, push_step, throw, unchanged_but_steps.
  cbn [state world trace ticks ds_client ds_tier].
  destruct (negb (JS.truthy (env h !! "CLIENT_NAME")));
    [|destruct (negb (JS.truthy (env h !! "NOTION_TOKEN")))];
    do 2 eexists; (split; [reflexivity|]); cbn;
    rewrite ?app_nil_r; repeat split.
Qed.

Lemma loadBuildArtifacts_spec (c : Ctx) :
  exists r c',
    loadBuildArtifacts h notion c = (r, c') /\
    unchanged_but_steps c c'
      (if is_normal r then ["artifacts_loaded"] else []).
Proof.
  unfold loadBuildArtifacts, latestBuildFile, bind, try_catch, lift,
    getState, push_step, modify, with_state, throw, ret,
    unchanged_but_steps.
  destruct (readdir h (path_join (cwd h) "dist")) as [files|e];
    [destruct (last _) as [buildFile|];
     [destruct (readBuildPackage h _) as [bp|e]|]|];
    do 2 eexists; (split; [reflexivity|]); cbn;
    rewrite ?app_nil_r; repeat split.
Qed.

Lemma initializeNotionClient_probe_fails (c : Ctx) e w :
  users_me notion (world c) = (Throw e, w) ->
  initializeNotionClient notion c
    = (Throw (Error ("Failed to connect to Notion: " +:+ message e)),
       emit notion CallUsersMe w c).
Proof.
  intros Hprobe.
  unfold initializeNotionClient, bind, try_catch, notion_users_me, throw.
  by rewrite Hprobe.
Qed.

Lemma unchanged_trans (c1 c2 c3 : Ctx) (a1 a2 : list string) :
  unchanged_but_steps c1 c2 a1 -> unchanged_but_steps c2 c3 a2 ->
  unchanged_but_steps c1 c3 (a1 ++ a2).
Proof.
  unfold unchanged_but_steps.
  intros (Hw1 & Ht1 & Hr1 & He1 & Hs1) (Hw2 & Ht2 & Hr2 & He2 & Hs2).
  rewrite Hw2, Ht2, Hr2, He2, Hs2, Hs1, app_assoc. auto.
Qed.

(** A run up to the identity probe: either the environment or the
    artifacts stop it, with nothing done to the outside, or the probe
    is reached in a context that differs from the starting one by the
    two completed steps. *)
Lemma run_until_probe {A} (rest : BuildPackage -> M A) (c : Ctx)
    (Q : Completion A -> Ctx -> Prop) :
  (forall e c',
     (unchanged_but_steps c c' [] /\
      ((e = Error "CLIENT_NAME environment variable is required" /\
        JS.truthy (env h !! "CLIENT_NAME") = false) \/
       (e = Error "NOTION_TOKEN environment variable is required" /\
        JS.truthy (env h !! "CLIENT_NAME") = true /\
        JS.truthy (env h !! "NOTION_TOKEN") = false))) \/
     (unchanged_but_steps c c' ["environment_init"] /\
      JS.truthy (env h !! "CLIENT_NAME") = true /\
      JS.truthy (env h !! "NOTION_TOKEN") = true) ->
     Q (Throw e) c') ->
  (forall bp c',
     unchanged_but_steps c c' ["environment_init"; "artifacts_loaded"] ->
     JS.truthy (env h !! "CLIENT_NAME") = true ->
     JS.truthy (env h !! "NOTION_TOKEN") = true ->
     wp (rest bp) c' Q) ->
  wp (bind (initializeEnvironment h notion)
           (fun _ => bind (loadBuildArtifacts h notion) rest)) c Q.
Proof.
  intros Hthrow Hrest.
  apply wp_bind.
  destruct (initializeEnvironment_spec c) as (r1 & c1 & Hrun1 & Hfr1 & _ & Hr1).
  eapply wp_of_run; [exact Hrun1|].
  destruct (JS.truthy (env h !! "CLIENT_NAME")) eqn:Hclient;
    [destruct (JS.truthy (env h !! "NOTION_TOKEN")) eqn:Htoken|];
    cbn [negb] in Hr1; subst r1; cbn [is_normal] in Hfr1.
  - apply wp_bind.
    destruct (loadBuildArtifacts_spec c1) as (r2 & c2 & Hrun2 & Hfr2).
    eapply wp_of_run; [exact Hrun2|].
    pose proof (unchanged_trans _ _ _ _ _ Hfr1 Hfr2) as Hfr.
    destruct r2 as [bp|e]; cbn [is_normal app] in Hfr.
    + by apply Hrest.
    + apply Hthrow; auto.
  - apply Hthrow; auto 6.
  - apply Hthrow; auto 6.
Qed.
End Run.

(** C2: when the identity probe fails, the run ends with a thrown
    error; the only remote call it may have issued is the probe itself,
    so no database, page or lookup call is issued; no resource is
    recorded; the steps it appends to the completed steps do not contain
    databases_deployed, so the completed steps do not contain it unless
    they did before the run. *)
Theorem probe_failure_short_circuit (h : Host) (notion : Notion)
    (c : Ctx notion) (e : JsError) (w : World notion) :
  users_me notion (world c) = (Throw e, w) ->
  exists err c' added tr,
    deployConstructionTemplate h notion c = (Throw err, c') /\
    trace c' = (trace c ++ tr)%list /\
    (tr = [] \/ tr = [CallUsersMe]) /\
    creations tr = [] /\
    lookups tr = [] /\
    createdResources (state c') = createdResources (state c) /\
    errors (state c') = errors (state c) /\
    completedSteps (state c') = (completedSteps (state c) ++ added)%list /\
    ("databases_deployed" ∉ added) /\
    ("databases_deployed" ∉ completedSteps (state c) ->
     "databases_deployed" ∉ completedSteps (state c')).
Proof.
  intros Hprobe.
  set (Q := fun (r : Completion DeploymentReport) (c' : Ctx notion) =>
         exists err added tr,
           r = Throw err /\
           trace c' = (trace c ++ tr)%list /\
           (tr = [] \/ tr = [CallUsersMe]) /\
           createdResources (state c') = createdResources (state c) /\
           errors (state c') = errors (state c) /\
           completedSteps (state c') = (completedSteps (state c) ++ added)%list /\
           "databases_deployed" ∉ added).
  assert (wp (deployConstructionTemplate h notion) c Q) as Hwp.
  { unfold deployConstructionTemplate.
    apply wp_bind. unfold wp at 1. cbn [Date_now fst snd].
    apply wp_bind, wp_modify.
    match goal with |- wp _ ?c1 _ =>
      assert (unchanged_but_steps c c1 []) as Hstart
        by (unfold unchanged_but_steps; cbn; rewrite app_nil_r; repeat split);
      revert Hstart; generalize c1
    end.
    intros c1 Hstart.
    apply wp_try_catch.
    apply run_until_probe.
    - intros err c' Hfr.
      apply wp_bind, wp_ret, wp_throw.
      assert (exists added, unchanged_but_steps c c' added /\
                            "databases_deployed" ∉ added)
        as (added & (Hw & Ht & Hr & He & Hs) & Hnot).
      { destruct Hfr as [[Hfr _]|[Hfr _]];
          pose proof (unchanged_trans _ _ _ _ _ _ Hstart Hfr) as H;
          eexists; (split; [exact H|]);
          apply (bool_decide_unpack _); vm_compute; exact I. }
      exists err, added, []. rewrite app_nil_r. auto 10.
    - intros bp c2 Hfr _ _.
      pose proof (unchanged_trans _ _ _ _ _ _ Hstart Hfr)
        as (Hw & Ht & Hr & He & Hs).
      apply wp_bind.
      eapply wp_of_run.
      { apply initializeNotionClient_probe_fails. rewrite Hw. exact Hprobe. }
      apply wp_bind, wp_ret, wp_throw.
      eexists. exists ["environment_init"; "artifacts_loaded"], [CallUsersMe].
      cbn. rewrite Ht. repeat split; auto.
      apply (bool_decide_unpack _). vm_compute. exact I. }
  destruct (wp_run _ _ _ Hwp)
    as (r & c' & Hrun & err & added & tr & -> & Ht & Htr & Hr & He & Hs & Hnot).
  exists err, c', added, tr.
  repeat split; auto.
  - destruct Htr as [->| ->]; reflexivity.
  - destruct Htr as [->| ->]; reflexivity.
  - intros Hold. rewrite Hs. intros Hin.
    apply elem_of_app in Hin as [Hin|Hin]; auto.
Qed.

Lemma probe_failure_short_circuit_witness :
  exists err c',
    deployConstructionTemplate (Mock.host Mock.full_env)
      (Mock.workspace false []) (@initial_ctx (Mock.workspace false []) 0%nat)
      = (Throw err, c') /\
    trace c' = [CallUsersMe] /\
    createdResources (state c') = [] /\
    "databases_deployed" ∉ completedSteps (state c').
Proof.
  destruct (probe_failure_short_circuit (Mock.host Mock.full_env)
              (Mock.workspace false [])
              (@initial_ctx (Mock.workspace false []) 0%nat)
              (Error "API token is invalid.") 0%nat eq_refl)
    as (err & c' & added & tr & Hrun & Ht & Htr & _ & _ & Hr & _ & Hs & _ & Hnot).
  exists err, c'. split; [exact Hrun|].
  vm_compute in Hrun. injection Hrun as _ <-.
  repeat split.
  apply Hnot. apply not_elem_of_nil.
Defined.

(** C4, as stated, fails for the tier identifier: with the client name
    and the token set and no tier in the environment, the run does not
    abort; it takes the professional tier, creates databases and
    completes. *)
Lemma missing_tier_is_defaulted :
  let e : gmap string string :=
    <["CLIENT_NAME" := "Acme Co"]> (<["NOTION_TOKEN" := "secret_token"]> ∅) in
  e !! "DEPLOYMENT_TIER" = None /\
  let '(r, c) :=
    deployConstructionTemplate (Mock.host e) (Mock.workspace true [])
      (@initial_ctx (Mock.workspace true []) 0%nat) in
  is_normal r = true /\
  ds_tier (state c) = Some "professional" /\
  length (creations (trace c)) = 13%nat /\
  length (createdResources (state c)) = 7%nat /\
  last (completedSteps (state c)) = Some "deployment_finalized".
Proof. vm_compute. repeat split. Qed.

(** C4 (amended): a run whose environment has no client name, or no
    token, (or an empty one) ends at once with the error naming the
    missing variable: nothing is done to the remote workspace, no call is
    issued, nothing is recorded and nothing is tried again.  A missing
    tier identifier is no failure: the tier is then professional. *)
Theorem missing_input_aborts (h : Host) (notion : Notion) (c : Ctx notion) :
  (JS.truthy (env h !! "CLIENT_NAME") = false \/
   JS.truthy (env h !! "NOTION_TOKEN") = false ->
   exists err c',
     deployConstructionTemplate h notion c = (Throw err, c') /\
     (JS.truthy (env h !! "CLIENT_NAME") = false ->
      err = Error "CLIENT_NAME environment variable is required") /\
     (JS.truthy (env h !! "CLIENT_NAME") = true ->
      err = Error "NOTION_TOKEN environment variable is required") /\
     world c' = world c /\
     trace c' = trace c /\
     createdResources (state c') = createdResources (state c) /\
     errors (state c') = errors (state c) /\
     completedSteps (state c') = completedSteps (state c)) /\
  (JS.truthy (env h !! "CLIENT_NAME") = true ->
   JS.truthy (env h !! "NOTION_TOKEN") = true ->
   JS.truthy (env h !! "DEPLOYMENT_TIER") = false ->
   exists c',
     initializeEnvironment h notion c = (Normal tt, c') /\
     ds_tier (state c') = Some "professional" /\
     unchanged_but_steps c c' ["environment_init"]).
Proof.
  split.
  - intros Hmissing.
    set (Q := fun (r : Completion DeploymentReport) (c' : Ctx notion) =>
           exists err,
             r = Throw err /\
             (JS.truthy (env h !! "CLIENT_NAME") = false ->
              err = Error "CLIENT_NAME environment variable is required") /\
             (JS.truthy (env h !! "CLIENT_NAME") = true ->
              err = Error "NOTION_TOKEN environment variable is required") /\
             unchanged_but_steps c c' []).
    assert (wp (deployConstructionTemplate h notion) c Q) as Hwp.
    { unfold deployConstructionTemplate.
      apply wp_bind. unfold wp at 1. cbn [Date_now fst snd].
      apply wp_bind, wp_modify.
      match goal with |- wp _ ?c1 _ =>
        assert (unchanged_but_steps c c1 []) as Hstart
          by (unfold unchanged_but_steps; cbn; rewrite app_nil_r; repeat split);
        revert Hstart; generalize c1
      end.
      intros c1 Hstart.
      apply wp_try_catch.
      apply run_until_probe.
      - intros err c' Hfr.
        apply wp_bind, wp_ret, wp_throw.
        exists err. split; [reflexivity|].
        destruct Hfr as [[Hfr [[-> Hc]|(-> & Hc & Ht)]]|(_ & Hc & Ht)].
        + pose proof (unchanged_trans _ _ _ _ _ _ Hstart Hfr) as Hu.
          split; [|split; [|exact Hu]]; intros; congruence.
        + pose proof (unchanged_trans _ _ _ _ _ _ Hstart Hfr) as Hu.
          split; [|split; [|exact Hu]]; intros; congruence.
        + destruct Hmissing; congruence.
      - intros bp c' _ Hc Ht. destruct Hmissing; congruence. }
    destruct (wp_run _ _ _ Hwp)
      as (r & c' & Hrun & err & -> & Hcl & Htk & Hw & Ht & Hr & He & Hs).
    rewrite app_nil_r in Hs.
    exists err, c'. auto 10.
  - intros Hc Ht Htier.
    destruct (initializeEnvironment_spec h notion c)
      as (r & c' & Hrun & Hfr & Htr & Hr).
    rewrite Hc, Ht in Hr. cbn in Hr. subst r. cbn [is_normal] in Hfr.
    exists c'. split; [exact Hrun|]. split; [|exact Hfr].
    rewrite Htr. f_equal.
    destruct (env h !! "DEPLOYMENT_TIER") as [[|a s]|]; [reflexivity|discriminate|reflexivity].
Qed.

Lemma missing_input_aborts_witness :
  (exists c',
     deployConstructionTemplate
       (Mock.host (<["NOTION_TOKEN" := "secret_token"]> ∅))
       (Mock.workspace true []) (@initial_ctx (Mock.workspace true []) 0%nat)
     = (Throw (Error "CLIENT_NAME environment variable is required"), c') /\
     trace c' = []) /\
  (exists c',
     initializeEnvironment
       (Mock.host (<["CLIENT_NAME" := "Acme Co"]>
                   (<["NOTION_TOKEN" := "secret_token"]> ∅)))
       (Mock.workspace true []) (@initial_ctx (Mock.workspace true []) 0%nat)
     = (Normal tt, c') /\
     ds_tier (state c') = Some "professional").
Proof.
  split.
  - destruct (proj1 (missing_input_aborts
                (Mock.host (<["NOTION_TOKEN" := "secret_token"]> ∅))
                (Mock.workspace true [])
                (@initial_ctx (Mock.workspace true []) 0%nat)))
      as (err & c' & Hrun & Herr & _ & _ & Ht & _).
    + left. reflexivity.
    + exists c'. rewrite <- (Herr eq_refl). auto.
  - destruct (proj2 (missing_input_aborts
                (Mock.host (<["CLIENT_NAME" := "Acme Co"]>
                            (<["NOTION_TOKEN" := "secret_token"]> ∅)))
                (Mock.workspace true [])
                (@initial_ctx (Mock.workspace true []) 0%nat)))
      as (c' & Hrun & Htier & _); try reflexivity.
    exists c'. auto.
Defined.

End DeployFacts.

(** * Further properties of the scripts *)

(** ** Strings *)

Module StringFacts.

Lemma append_cons (x : ascii) (a b : string) :
  String x a +:+ b = String x (a +:+ b).
Proof. reflexivity. Qed.

Lemma append_nil_l (b : string) : EmptyString +:+ b = b.
Proof. reflexivity. Qed.

Lemma append_assoc (a b c : string) : (a +:+ b) +:+ c = a +:+ (b +:+ c).
Proof.
  induction a as [|x a IH]; [reflexivity|].
  rewrite !append_cons. f_equal. exact IH.
Qed.

Lemma append_nil_r (a : string) : a +:+ EmptyString = a.
Proof.
  induction a as [|x a IH]; [reflexivity|].
  rewrite append_cons. f_equal. exact IH.
Qed.

Lemma length_append (a b : string) :
  String.length (a +:+ b) = (String.length a + String.length b)%nat.
Proof.
  induction a as [|x a IH]; [reflexivity|].
  rewrite append_cons. cbn [String.length]. by rewrite IH.
Qed.

Lemma prefix_append (a b : string) : String.prefix a (a +:+ b) = true.
Proof.
  induction a as [|x a IH].
  - rewrite append_nil_l. by destruct b.
  - rewrite append_cons. cbn [String.prefix].
    destruct (ascii_dec x x); [exact IH|done].
Qed.

Lemma prefix_split (a s : string) :
  String.prefix a s = true -> exists b, s = a +:+ b.
Proof.
  revert s. induction a as [|x a IH]; intros s H.
  - exists s. reflexivity.
  - destruct s as [|y s]; [discriminate|]. cbn [String.prefix] in H.
    destruct (ascii_dec x y) as [->|]; [|discriminate].
    destruct (IH s H) as [b ->]. by exists b.
Qed.

Lemma drop_chars_append (a b : string) :
  JS.drop_chars (String.length a) (a +:+ b) = b.
Proof.
  induction a as [|x a IH]; [by destruct b|].
  rewrite append_cons. exact IH.
Qed.

Lemma rev_app_append (a b acc : string) :
  String.rev_app (a +:+ b) acc = String.rev_app b (String.rev_app a acc).
Proof.
  revert acc. induction a as [|x a IH]; intros acc; [reflexivity|].
  rewrite append_cons. cbn [String.rev_app]. apply IH.
Qed.

Lemma rev_app_acc (s acc : string) :
  String.rev_app s acc = String.rev_app s EmptyString +:+ acc.
Proof.
  revert acc. induction s as [|x s IH]; intros acc; [reflexivity|].
  cbn [String.rev_app].
  rewrite (IH (String x acc)), (IH (String x EmptyString)), append_assoc.
  reflexivity.
Qed.

Lemma rev_append (a b : string) :
  String.rev (a +:+ b) = String.rev b +:+ String.rev a.
Proof.
  unfold String.rev. rewrite rev_app_append. apply rev_app_acc.
Qed.

(** [(a + b).startsWith(a)] and [(a + b).endsWith(b)] *)
Lemma startsWith_append (a b : string) : JS.startsWith (a +:+ b) a = true.
Proof. apply prefix_append. Qed.

Lemma endsWith_append (a b : string) : JS.endsWith (a +:+ b) b = true.
Proof. unfold JS.endsWith. rewrite rev_append. apply prefix_append. Qed.

End StringFacts.

(** ** The builder *)

Module BuilderExtras.
Import Builder.

Lemma wp_any {St A} (m : @Monad.M St A) (s : St)
    (Q : Completion A -> St -> Prop) :
  (forall r s', Q r s') -> wp m s Q.
Proof. intros H. apply H. Qed.

(** The tiers of the catalog. *)
Lemma catalog_cases (tier : string) (c : TemplateConfig) :
  templateConfigs !! tier = Some c ->
  (tier = "starter" /\ c = starter_config) \/
  (tier = "professional" /\ c = professional_config) \/
  (tier = "enterprise" /\ c = enterprise_config).
Proof.
  unfold templateConfigs. intros H.
  apply lookup_insert_Some in H as [[<- <-]|[_ H]]; [auto|].
  apply lookup_insert_Some in H as [[<- <-]|[_ H]]; [auto|].
  apply lookup_insert_Some in H as [[<- <-]|[_ H]]; [auto|].
  by rewrite lookup_empty in H.
Qed.

Section WithHost.
Variable h : Host.
Local Abbreviation M := (@Monad.M BuildState).

Lemma Date_now_run (s : BuildState) (Q : Completion Z -> BuildState -> Prop) :
  (forall t s', written s' = written s -> ticks s' = S (ticks s) ->
                Q (Normal t) s') ->
  wp (Date_now h) s Q.
Proof. intros HQ. apply HQ; reflexivity. Qed.

Lemma ensureDirectoryExists_run dirPath (s : BuildState)
    (Q : Completion unit -> BuildState -> Prop) :
  Q (Normal tt) s -> (forall e, Q (Throw e) s) ->
  wp (ensureDirectoryExists h dirPath) s Q.
Proof.
  intros Hn Ht. unfold ensureDirectoryExists.
  destruct (mkdir h dirPath) as [e|]; [|exact Hn].
  destruct (bool_decide _); [exact Hn|apply Ht].
Qed.

Lemma fs_writeFile_run path (s : BuildState)
    (Q : Completion unit -> BuildState -> Prop) :
  (forall s', written s' = (written s ++ [path])%list -> ticks s' = ticks s ->
              Q (Normal tt) s') ->
  (forall e, Q (Throw e) s) ->
  wp (fs_writeFile h path) s Q.
Proof.
  intros Hn Ht. unfold wp, fs_writeFile.
  destruct (writeFile h path) as [e|]; [apply Ht|apply Hn; reflexivity].
Qed.

(** The counting loops: one record and one clock reading per index, no
    file written. *)
Lemma generate_records_run mk indices (s : BuildState) :
  exists l s',
    generate_records h mk indices s = (Normal l, s') /\
    length l = length indices /\
    ticks s' = (ticks s + length indices)%nat /\
    written s' = written s.
Proof.
  revert s. induction indices as [|i rest IH]; intros s.
  - exists [], s. cbn. repeat split. lia.
  - cbn [generate_records]. unfold bind at 1. cbn [Date_now].
    destruct (IH {| ticks := S (ticks s); written := written s |})
      as (l & s' & Hrun & Hlen & Htk & Hw).
    unfold bind at 1. rewrite Hrun. cbn [ret].
    exists (mk i (now h (ticks s)) :: l), s'.
    cbn in *. repeat split; auto; lia.
Qed.

(** X1: the seed data of a build.  [generateSampleData] always succeeds; it
    makes 2, 5 or 8 projects and 10, 25 or 40 tasks for the starter, the
    professional and any other tier, one client, materials for every tier
    but starter, vendors for the enterprise and professional tiers only,
    and nothing else; it reads the clock once per project and per task and
    writes no file. *)
Theorem generateSampleData_shape (tier clientName : string) (s : BuildState) :
  exists d s',
    generateSampleData h tier clientName s = (Normal d, s') /\
    length <$> d !! "projects"
      = Some (if decide (tier = "starter") then 2%nat
              else if decide (tier = "professional") then 5%nat else 8%nat) /\
    length <$> d !! "tasks"
      = Some (if decide (tier = "starter") then 10%nat
              else if decide (tier = "professional") then 25%nat else 40%nat) /\
    length <$> d !! "clients" = Some 1%nat /\
    (is_Some (d !! "materials") <-> tier <> "starter") /\
    (is_Some (d !! "vendors") <->
       tier = "enterprise" \/ tier = "professional") /\
    dom d ⊆ ({["projects"; "tasks"; "clients"; "materials"; "vendors"]}
             : gset string) /\
    ticks s' = (ticks s + length (default [] (d !! "projects"))
                + length (default [] (d !! "tasks")))%nat /\
    written s' = written s.
Proof.
  unfold generateSampleData, generateSampleProjects, generateSampleTasks.
  destruct (generate_records_run (sampleProject h clientName)
              (seq 1 (if String.eqb tier "starter" then 2%nat
                      else if String.eqb tier "professional" then 5%nat
                      else 8%nat)) s)
    as (projects & s1 & Hrun1 & Hlen1 & Htk1 & Hw1).
  destruct (generate_records_run (sampleTask h)
              (seq 1 (if String.eqb tier "starter" then 10%nat
                      else if String.eqb tier "professional" then 25%nat
                      else 40%nat)) s1)
    as (tasks & s2 & Hrun2 & Hlen2 & Htk2 & Hw2).
  unfold bind at 1. rewrite Hrun1. unfold bind at 1. rewrite Hrun2.
  rewrite length_seq in Hlen1, Hlen2, Htk1, Htk2.
  do 2 eexists. split; [reflexivity|].
  clear Hrun1 Hrun2.
  set (bm := negb (String.eqb tier "starter")).
  set (bv := String.eqb tier "enterprise" || String.eqb tier "professional").
  assert (bm = true <-> tier <> "starter") as Hbm.
  { unfold bm. destruct (String.eqb_spec tier "starter"); cbn; split;
      congruence. }
  assert (bv = true <-> tier = "enterprise" \/ tier = "professional") as Hbv.
  { unfold bv. rewrite orb_true_iff, !String.eqb_eq. reflexivity. }
  match goal with |- context [ ?m !! "projects" ] => set (d := m) end.
  assert (d !! "projects" = Some projects /\ d !! "tasks" = Some tasks /\
          d !! "clients" = Some (generateSampleClients tier clientName) /\
          (is_Some (d !! "materials") <-> bm = true) /\
          (is_Some (d !! "vendors") <-> bv = true) /\
          dom d ⊆ ({["projects"; "tasks"; "clients"; "materials"; "vendors"]}
                   : gset string))
    as (Hp & Ht & Hc & Hm & Hv & Hd).
  { unfold d. destruct bm, bv;
      rewrite ?dom_insert_L, ?dom_empty_L;
      rewrite ?lookup_insert_eq;
      repeat (rewrite lookup_insert_ne by done; rewrite ?lookup_insert_eq);
      rewrite ?lookup_empty;
      (split; [reflexivity|]); (split; [reflexivity|]);
      (split; [reflexivity|]);
      (split; [split; [intros [? ?]|intros ?]; (done || by eexists)|]);
      (split; [split; [intros [? ?]|intros ?]; (done || by eexists)|]);
      apply (bool_decide_unpack _); vm_compute; exact I. }
  assert (length projects
          = (if decide (tier = "starter") then 2%nat
             else if decide (tier = "professional") then 5%nat else 8%nat)
          /\ length tasks
          = (if decide (tier = "starter") then 10%nat
             else if decide (tier = "professional") then 25%nat else 40%nat))
    as [Hn1 Hn2].
  { rewrite Hlen1, Hlen2.
    destruct (String.eqb_spec tier "starter") as [->|Hs];
      [by rewrite !decide_True by done|rewrite !decide_False by done].
    destruct (String.eqb_spec tier "professional") as [->|Hp'];
      [by rewrite !decide_True by done|by rewrite !decide_False by done]. }
  rewrite Hp, Ht, Hc, Hm, Hv, Hbm, Hbv.
  cbn [fmap option_fmap option_map default].
  split; [by rewrite Hn1|]. split; [by rewrite Hn2|].
  split; [reflexivity|]. split; [reflexivity|]. split; [reflexivity|].
  split; [exact Hd|].
  split; [unfold id; by rewrite Htk2, Htk1, Hlen1, Hlen2|congruence].
Qed.

(** The seed data are generated without writing a file. *)
Lemma generateSampleData_written (tier clientName : string) (s : BuildState) :
  exists d s',
    generateSampleData h tier clientName s = (Normal d, s') /\
    written s' = written s.
Proof.
  unfold generateSampleData, generateSampleProjects, generateSampleTasks.
  destruct (generate_records_run (sampleProject h clientName)
              (seq 1 (if String.eqb tier "starter" then 2%nat
                      else if String.eqb tier "professional" then 5%nat
                      else 8%nat)) s)
    as (projects & s1 & Hrun1 & _ & _ & Hw1).
  destruct (generate_records_run (sampleTask h)
              (seq 1 (if String.eqb tier "starter" then 10%nat
                      else if String.eqb tier "professional" then 25%nat
                      else 40%nat)) s1)
    as (tasks & s2 & Hrun2 & _ & _ & Hw2).
  unfold bind at 1. rewrite Hrun1. unfold bind at 1. rewrite Hrun2.
  do 2 eexists. split; [reflexivity|]. cbn [snd]. congruence.
Qed.

(** The files a round of writes leaves. *)
Lemma write_all_run {A} (f : A -> string) (l : list A) (s : BuildState) :
  wp (for_of l (fun x => fs_writeFile h (f x))) s
     (fun r s' => r = Normal tt ->
                  written s' = (written s ++ map f l)%list).
Proof.
  revert s. induction l as [|x l IH]; intros s; cbn [for_of map].
  - apply wp_ret. intros _. by rewrite app_nil_r.
  - apply wp_bind, fs_writeFile_run.
    + intros s' Hw _. eapply wp_mono; [apply IH|].
      intros r s'' H Hr. rewrite (H Hr), Hw, <- app_assoc. reflexivity.
    + intros e. discriminate.
Qed.

Lemma saveBuildComponents_run (bp : BuildPackage) (s : BuildState) :
  wp (saveBuildComponents h bp) s
     (fun r s' =>
        r = Normal tt ->
        written s'
        = (written s
           ++ map (fun d => path_join "dist/schemas" (name d +:+ ".json"))
                  (default [] (schemas bp))
           ++ [path_join "dist/docs" "README.md"])%list).
Proof.
  unfold saveBuildComponents.
  apply wp_bind, ensureDirectoryExists_run; [|intros e; discriminate].
  apply wp_bind. eapply wp_mono; [apply write_all_run|].
  intros [[]|e] s1 Hw; [|discriminate]. specialize (Hw eq_refl).
  apply wp_bind, ensureDirectoryExists_run; [|intros e; discriminate].
  apply fs_writeFile_run; [|intros e; discriminate].
  intros s2 Hw2 _ _. rewrite Hw2, Hw, <- app_assoc. reflexivity.
Qed.

(** What a build that succeeds returns and writes. *)
Lemma buildTemplate_result (options : Options) (s s' : BuildState)
    (bp : BuildPackage) :
  buildTemplate h options s = (Normal bp, s') ->
  exists c,
    templateConfigs !! opt_tier options = Some c /\
    schemas bp = Some (buildDatabaseSchemas h (opt_tier options)) /\
    client bp = opt_client options /\
    bp_tier bp = opt_tier options /\
    map view_name (bp_views bp) = views c /\
    databaseCount (metadata bp) = length (default [] (schemas bp)) /\
    viewCount (metadata bp) = length (bp_views bp) /\
    includedFeatures (metadata bp) = length (features c) /\
    (sampleData bp = None <-> opt_sampleData options = false) /\
    written s'
    = (written s
       ++ [path_join "dist"
             ("template-" +:+ opt_tier options +:+ "-" +:+ buildId bp
              +:+ ".json")]
       ++ map (fun d => path_join "dist/schemas" (name d +:+ ".json"))
              (default [] (schemas bp))
       ++ [path_join "dist/docs" "README.md"])%list.
Proof.
  intros Hrun.
  set (Q := fun (r : Completion BuildPackage) (s' : BuildState) =>
         forall bp, r = Normal bp ->
         exists c,
           templateConfigs !! opt_tier options = Some c /\
           schemas bp = Some (buildDatabaseSchemas h (opt_tier options)) /\
           client bp = opt_client options /\
           bp_tier bp = opt_tier options /\
           map view_name (bp_views bp) = views c /\
           databaseCount (metadata bp) = length (default [] (schemas bp)) /\
           viewCount (metadata bp) = length (bp_views bp) /\
           includedFeatures (metadata bp) = length (features c) /\
           (sampleData bp = None <-> opt_sampleData options = false) /\
           written s'
           = (written s
              ++ [path_join "dist"
                    ("template-" +:+ opt_tier options +:+ "-" +:+ buildId bp
                     +:+ ".json")]
              ++ map (fun d => path_join "dist/schemas" (name d +:+ ".json"))
                     (default [] (schemas bp))
              ++ [path_join "dist/docs" "README.md"])%list).
  assert (forall e s0, wp (throw (A := BuildPackage) e) s0 Q) as Hthrown
    by (intros e s0 bp0 H0; discriminate).
  assert (wp (buildTemplate h options) s Q) as Hwp.
  { unfold buildTemplate.
    apply wp_bind, Date_now_run. intros startTime s1 Hw1 _.
    apply wp_bind, Date_now_run. intros idTime s2 Hw2 _.
    apply wp_try_catch.
    apply wp_bind, ensureDirectoryExists_run; [|intros e; apply Hthrown].
    unfold generateTemplateConfig, buildViewConfigurations.
    destruct (JS.get templateConfigs (opt_tier options)) as [c| |] eqn:Hget;
      [|apply wp_bind, wp_ret, wp_bind, wp_throw, Hthrown
       |apply wp_bind, wp_throw, Hthrown].
    apply JsFacts.get_own_inv in Hget as Hc.
    apply wp_bind, wp_ret. apply wp_bind, wp_ret.
    apply wp_bind.
    eapply (wp_mono _ _ (fun r s3 =>
              written s3 = written s2 /\
              exists sd, r = Normal sd /\
                (sd = None <-> opt_sampleData options = false))).
    { destruct (opt_sampleData options).
      - destruct (generateSampleData_written (opt_tier options)
                    (opt_client options) s2)
          as (d & s3 & Hgen & Hw3).
        unfold wp, bind. rewrite Hgen. cbn. split; [exact Hw3|].
        eexists. split; [reflexivity|]. split; discriminate.
      - apply wp_ret. split; [reflexivity|]. eexists. split; [reflexivity|].
        split; reflexivity. }
    intros r s3 (Hw3 & sd & -> & Hsd).
    apply wp_bind, Date_now_run. intros stampTime s4 Hw4 _.
    apply wp_bind, Date_now_run. intros endTime s5 Hw5 _.
    apply wp_bind, fs_writeFile_run; [|intros e; apply Hthrown].
    intros s6 Hw6 _.
    apply wp_bind. eapply wp_mono; [apply saveBuildComponents_run|].
    intros [[]|e] s7 Hw7; [|apply Hthrown]. specialize (Hw7 eq_refl).
    apply wp_bind, Date_now_run. intros logTime s8 Hw8 _.
    apply wp_ret. intros bp0 Hbp0. injection Hbp0 as <-.
    exists c. cbn. rewrite length_map.
    repeat split; try reflexivity; try apply Hsd; try exact Hc.
    - by rewrite map_map, map_id.
    - rewrite Hw8, Hw7, Hw6, Hw5, Hw4, Hw3, Hw2, Hw1, <- !app_assoc.
      reflexivity. }
  unfold wp in Hwp. rewrite Hrun in Hwp. apply (Hwp bp eq_refl).
Qed.

Lemma loadSchemaFiles_within (t : string) (c : TemplateConfig)
    (jsonFiles : list string) :
  templateConfigs !! t = Some c ->
  forall acc,
    Forall (fun d => name d ∈ databases c /\ tier d = t) acc ->
    Forall (fun d => name d ∈ databases c /\ tier d = t)
           (fst (loadSchemaFiles h t jsonFiles acc)).
Proof.
  intros Hc. induction jsonFiles as [|f rest IH]; intros acc Hacc; [exact Hacc|].
  cbn [loadSchemaFiles].
  destruct (readSchema h _) as [sch|e]; [|exact Hacc].
  rewrite (JsFacts.get_own _ _ _ Hc).
  destruct (JS.arr_includes (databases c) (schemaNameOf f)) eqn:Hin.
  - apply IH. apply Forall_app. split; [exact Hacc|].
    apply Forall_singleton. split; [|reflexivity].
    by apply CompilerFacts.arr_includes_elem_of.
  - by apply IH.
Qed.
End WithHost.

(** X2: whatever the schema store holds or fails to give, the schemas
    built for a tier of the catalog are all resource types of that tier
    and carry that tier. *)
Theorem buildDatabaseSchemas_within_tier (h : Host) (t : string)
    (c : TemplateConfig) :
  templateConfigs !! t = Some c ->
  Forall (fun d => name d ∈ databases c /\ tier d = t)
         (buildDatabaseSchemas h t).
Proof.
  intros Hc.
  assert (Forall (fun d => name d ∈ databases c /\ tier d = t)
                 (generateDefaultSchemas t)) as Hdefault.
  { apply Forall_singleton. split; [|reflexivity].
    destruct (catalog_cases _ _ Hc) as [[_ ->]|[[_ ->]|[_ ->]]];
      apply (bool_decide_unpack _); vm_compute; exact I. }
  unfold buildDatabaseSchemas.
  destruct (readdir h (baseSchemasPath h)) as [files|e]; [|exact Hdefault].
  pose proof (loadSchemaFiles_within h t c
                (filter (fun f => JS.endsWith f ".json" = true) files) Hc []
                (Forall_nil_2 _)) as Hload.
  destruct (loadSchemaFiles h t _ []) as [l [e|]]; cbn [fst] in Hload;
    [|exact Hload].
  apply Forall_app. auto.
Qed.

Lemma buildDatabaseSchemas_within_tier_witness :
  Forall (fun d => name d ∈ databases starter_config /\ tier d = "starter")
         (buildDatabaseSchemas
            (Mock.host0 ∅ (Normal ["projects.json"; "vendors.json"]))
            "starter").
Proof.
  apply buildDatabaseSchemas_within_tier. reflexivity.
Defined.

(** A parse failure after a schema was loaded leaves it in the result and
    adds the built-in schema: projects is then there twice. *)
Example buildDatabaseSchemas_parse_failure :
  let h := Mock.host0 ∅ (Normal ["projects.json"; "tasks.json"]) in
  let broken :=
    {| env := env h; cwd := cwd h; dirname := dirname h; now := now h;
       toISOString := toISOString h;
       toLocaleDateString := toLocaleDateString h;
       numberToString := numberToString h;
       package_version := package_version h; mkdir := mkdir h;
       readdir := readdir h;
       readSchema := fun path =>
         if JS.endsWith path "/tasks.json"
         then Throw (Error "Unexpected end of JSON input")
         else readSchema h path;
       readBuildPackage := readBuildPackage h; writeFile := writeFile h |} in
  map name (buildDatabaseSchemas broken "starter") = ["projects"; "projects"].
Proof. vm_compute. reflexivity. Qed.

(** No view name of the catalog is a member of [Object.prototype]: the
    table of [getViewDatabases] is only read at its own keys or at names
    it does not know. *)
Lemma catalog_views_plain (t : string) (c : TemplateConfig) :
  templateConfigs !! t = Some c ->
  Forall (fun v => v ∉ JS.objectPrototypeKeys) (views c).
Proof.
  intros Hc.
  destruct (catalog_cases _ _ Hc) as [[_ ->]|[[_ ->]|[_ ->]]];
    apply (bool_decide_unpack _); vm_compute; exact I.
Qed.

(** X3: for a tier of the catalog the view specifications are built
    without failure, one per view name of the tier and in the order of the
    catalog; each has one of the four view types and refers to at least
    one database, and only to databases of the same tier. *)
Theorem buildViewConfigurations_within_tier (t : string) (c : TemplateConfig)
    (s : BuildState) :
  templateConfigs !! t = Some c ->
  exists vs,
    buildViewConfigurations t s = (Normal vs, s) /\
    map view_name vs = views c /\
    Forall (fun v => view_type v ∈ ["kanban"; "timeline"; "table"; "calendar"]
                     /\ view_databases v <> []
                     /\ view_databases v ⊆ databases c) vs.
Proof.
  intros Hc. unfold buildViewConfigurations.
  rewrite (JsFacts.get_own _ _ _ Hc).
  eexists. split; [reflexivity|].
  split; [by rewrite map_map, map_id|].
  destruct (catalog_cases _ _ Hc) as [[_ ->]|[[_ ->]|[_ ->]]];
    apply (bool_decide_unpack _); vm_compute; exact I.
Qed.

Lemma buildViewConfigurations_within_tier_witness :
  exists vs,
    buildViewConfigurations "enterprise" initial_state
      = (Normal vs, initial_state) /\
    length vs = 12%nat.
Proof.
  destruct (buildViewConfigurations_within_tier "enterprise"
              enterprise_config initial_state eq_refl)
    as (vs & Hrun & Hnames & _).
  exists vs. split; [exact Hrun|].
  rewrite <- (length_map view_name), Hnames. reflexivity.
Defined.

(** X4: a build that succeeds returns a package whose metadata counts are
    the lengths of its schema and view lists, with one view per view name
    of the tier, the client and tier it was asked for, and seed data
    exactly when it was asked for. *)
Theorem buildTemplate_metadata (h : Host) (options : Options)
    (s s' : BuildState) (bp : BuildPackage) :
  buildTemplate h options s = (Normal bp, s') ->
  databaseCount (metadata bp) = length (default [] (schemas bp)) /\
  viewCount (metadata bp) = length (bp_views bp) /\
  client bp = opt_client options /\
  bp_tier bp = opt_tier options /\
  (sampleData bp = None <-> opt_sampleData options = false) /\
  exists c,
    templateConfigs !! opt_tier options = Some c /\
    map view_name (bp_views bp) = views c /\
    includedFeatures (metadata bp) = length (features c).
Proof.
  intros Hrun.
  destruct (buildTemplate_result h options s s' bp Hrun)
    as (c & Hc & _ & Hcl & Ht & Hv & Hdb & Hvc & Hf & Hsd & _).
  repeat split; try assumption; try apply Hsd.
  exists c. auto.
Qed.

Lemma buildTemplate_metadata_witness :
  match buildTemplate (Mock.host0 ∅ (Normal Mock.all_starter_files))
          Mock.acme_options initial_state with
  | (Normal bp, _) =>
      databaseCount (metadata bp) = length (default [] (schemas bp)) /\
      viewCount (metadata bp) = length (bp_views bp) /\
      client bp = "Acme Co"
  | (Throw _, _) => False
  end.
Proof.
  destruct (buildTemplate (Mock.host0 ∅ (Normal Mock.all_starter_files))
              Mock.acme_options initial_state) as [[bp|e] s'] eqn:Hrun.
  - destruct (buildTemplate_metadata _ _ _ _ _ Hrun) as (H1 & H2 & H3 & _).
    auto.
  - vm_compute in Hrun. discriminate.
Defined.

(** X5: the files of a build.  A build that succeeds writes the package
    file, then one file per schema of the package, then the README, in
    this order and nothing else; and the name of the package file is one
    that the deployment script selects for the tier of the build (it
    starts with template- and the tier, and ends with .json). *)
Theorem buildTemplate_files (h : Host) (options : Options)
    (s s' : BuildState) (bp : BuildPackage) :
  buildTemplate h options s = (Normal bp, s') ->
  let packageFile :=
    "template-" +:+ opt_tier options +:+ "-" +:+ buildId bp +:+ ".json" in
  written s'
  = (written s
     ++ [path_join "dist" packageFile]
     ++ map (fun d => path_join "dist/schemas" (name d +:+ ".json"))
            (default [] (schemas bp))
     ++ [path_join "dist/docs" "README.md"])%list /\
  JS.startsWith packageFile ("template-" +:+ opt_tier options)
  && JS.endsWith packageFile ".json" = true.
Proof.
  intros Hrun.
  destruct (buildTemplate_result h options s s' bp Hrun)
    as (c & _ & _ & _ & _ & _ & _ & _ & _ & _ & Hw).
  split; [exact Hw|].
  apply andb_true_intro. split.
  - rewrite <- StringFacts.append_assoc. apply StringFacts.startsWith_append.
  - rewrite <- !StringFacts.append_assoc. apply StringFacts.endsWith_append.
Qed.

Lemma buildTemplate_files_witness :
  match buildTemplate (Mock.host0 ∅ (Normal ["tasks.json"]))
          Mock.acme_options initial_state with
  | (Normal bp, s') =>
      written s'
      = ["dist/template-starter-build-1700000000001.json";
         "dist/schemas/tasks.json"; "dist/docs/README.md"]
  | (Throw _, _) => False
  end.
Proof.
  destruct (buildTemplate (Mock.host0 ∅ (Normal ["tasks.json"]))
              Mock.acme_options initial_state) as [[bp|e] s'] eqn:Hrun.
  - rewrite (proj1 (buildTemplate_files _ _ _ _ _ Hrun)).
    vm_compute in Hrun. injection Hrun as <- _. reflexivity.
  - vm_compute in Hrun. discriminate.
Defined.

(** X6: the build of a tier that is not in the catalog throws, and writes
    no file. *)
Theorem buildTemplate_unknown_tier (h : Host) (options : Options)
    (s : BuildState) :
  templateConfigs !! opt_tier options = None ->
  exists e s',
    buildTemplate h options s = (Throw e, s') /\
    written s' = written s.
Proof.
  intros Hc.
  set (Q := fun (r : Completion BuildPackage) (s' : BuildState) =>
         exists e, r = Throw e /\ written s' = written s).
  assert (wp (buildTemplate h options) s Q) as Hwp.
  { unfold buildTemplate.
    apply wp_bind, Date_now_run. intros startTime s1 Hw1 _.
    apply wp_bind, Date_now_run. intros idTime s2 Hw2 _.
    apply wp_try_catch.
    apply wp_bind, ensureDirectoryExists_run.
    - unfold generateTemplateConfig, buildViewConfigurations.
      destruct (JsFacts.get_missing _ _ Hc) as [-> | ->].
      + apply wp_bind, wp_ret, wp_bind, wp_throw, wp_throw.
        eexists. split; [reflexivity|congruence].
      + apply wp_bind, wp_throw, wp_throw.
        eexists. split; [reflexivity|congruence].
    - intros e. apply wp_throw. exists e. split; [reflexivity|congruence]. }
  destruct (wp_run _ _ _ Hwp) as (r & s' & Hrun & e & -> & Hw).
  eauto.
Qed.

Lemma buildTemplate_unknown_tier_witness :
  exists e s',
    buildTemplate (Mock.host0 ∅ (Normal Mock.all_starter_files))
      {| opt_tier := "premium"; opt_client := "Acme Co";
         opt_sampleData := true |} initial_state = (Throw e, s') /\
    written s' = [].
Proof.
  apply (buildTemplate_unknown_tier
           (Mock.host0 ∅ (Normal Mock.all_starter_files))
           {| opt_tier := "premium"; opt_client := "Acme Co";
              opt_sampleData := true |} initial_state).
  reflexivity.
Defined.

End BuilderExtras.

(** ** The tier tables, the estimator and the validator *)

Module TierExtras.

(** A table with the three tiers as keys. *)
Lemma three_tiers {A} (a b c : A) (t : string) :
  is_Some ((<["starter" := a]> (<["professional" := b]>
              (<["enterprise" := c]> (∅ : gmap string A)))) !! t)
  <-> t ∈ ["starter"; "professional"; "enterprise"].
Proof.
  rewrite !elem_of_cons, elem_of_nil.
  rewrite !lookup_insert_is_Some, lookup_empty.
  split.
  - intros [->|[_ [->|[_ [->|[_ H]]]]]]; auto. by destruct H.
  - intros [->|[->|[->|[]]]].
    + by left.
    + right. split; [done|]. by left.
    + right. split; [done|]. right. split; [done|]. by left.
Qed.

(** A name that is no tier is read from a table of the three tiers as
    [undefined], or as a member of [Object.prototype]. *)
Lemma get_other {A} (table : gmap string A) (t : string) :
  (is_Some (table !! t) <-> t ∈ ["starter"; "professional"; "enterprise"]) ->
  t ∉ ["starter"; "professional"; "enterprise"] ->
  JS.get table t
  = if bool_decide (t ∈ JS.objectPrototypeKeys)
    then JS.Inherited else JS.Undefined.
Proof.
  intros Hiff Hno.
  assert (table !! t = None) as Hnone.
  { destruct (table !! t) eqn:E; [|done]. destruct Hno. apply Hiff. by eexists. }
  unfold JS.get. rewrite Hnone.
  destruct (JS.arr_includes JS.objectPrototypeKeys t) eqn:Hin.
  - apply CompilerFacts.arr_includes_elem_of in Hin.
    by rewrite bool_decide_eq_true_2.
  - rewrite bool_decide_eq_false_2; [done|]. intros Hin'.
    apply CompilerFacts.arr_includes_elem_of in Hin'. congruence.
Qed.



(** X8: the breakdown of an estimate adds up to its total, and has an
    entry for the seed data exactly when the seed data is included. *)
Theorem breakdown_sums_to_total (t : string) (o : option bool) :
  t ∈ ["starter"; "professional"; "enterprise"] ->
  exists r,
    Estimator.estimateDeploymentCost t o = Normal (Estimator.Finite r) /\
    map_fold (fun _ calls sum => calls + sum) 0 (Estimator.breakdown r)
      = Estimator.totalApiCalls r /\
    bool_decide (is_Some (Estimator.breakdown r !! "sampleData"))
      = Estimator.includeSampleData r /\
    dom (Estimator.breakdown r)
      ⊆ ({["databases"; "views"; "properties"; "integrations"; "automations";
           "sampleData"; "baseSetup"]} : gset string).
Proof.
  rewrite !elem_of_cons, elem_of_nil.
  intros [->|[->|[->|[]]]]; destruct o as [[|]|];
    (eexists; split; [reflexivity|];
     split; [vm_compute; reflexivity|];
     split; [vm_compute; reflexivity|];
     apply (bool_decide_unpack _); vm_compute; exact I).
Qed.

Lemma breakdown_sums_to_total_witness :
  exists r,
    Estimator.estimateDeploymentCost "enterprise" (Some false)
      = Normal (Estimator.Finite r) /\
    map_fold (fun _ calls sum => calls + sum) 0 (Estimator.breakdown r) = 485.
Proof.
  destruct (breakdown_sums_to_total "enterprise" (Some false))
    as (r & Hr & Hsum & _).
  - apply (bool_decide_unpack _). vm_compute. exact I.
  - exists r. split; [exact Hr|]. rewrite Hsum.
    vm_compute in Hr. injection Hr as <-. reflexivity.
Defined.

(** X9: [validateNotionToken] accepts exactly the tokens made of secret_
    followed by 43 characters, whatever these are; so every token that
    fits the pattern of the input schema (43 letters or digits after
    secret_) is accepted. *)
Theorem validateNotionToken_accepts (token : string) :
  (Validator.validateNotionToken token = Normal tt <->
   exists rest, token = "secret_" +:+ rest /\ String.length rest = 43%nat) /\
  (Validator.tokenPattern_test token = true ->
   Validator.validateNotionToken token = Normal tt).
Proof.
  assert (Validator.validateNotionToken token = Normal tt <->
          exists rest, token = "secret_" +:+ rest /\
                       String.length rest = 43%nat) as Hiff.
  { unfold Validator.validateNotionToken, JS.startsWith.
    destruct (String.prefix "secret_" token) eqn:Hp; cbn [negb].
    - apply StringFacts.prefix_split in Hp as [rest ->].
      rewrite StringFacts.length_append.
      change (String.length "secret_") with 7%nat.
      destruct (Nat.eqb_spec (7 + String.length rest) 50) as [Hl|Hl];
        cbn [negb].
      + split; [|done]. intros _. exists rest. split; [done|lia].
      + split; [done|]. intros (rest' & Heq & Hl').
        apply String.app_inj in Heq. subst rest'. lia.
    - split; [done|]. intros (rest & -> & _).
      by rewrite StringFacts.prefix_append in Hp. }
  split; [exact Hiff|].
  unfold Validator.tokenPattern_test, JS.startsWith.
  rewrite !andb_true_iff. intros [[Hp _] Hl].
  apply Hiff. apply StringFacts.prefix_split in Hp as [rest ->].
  exists rest. split; [done|].
  change 7%nat with (String.length "secret_") in Hl.
  rewrite StringFacts.drop_chars_append in Hl. by apply Nat.eqb_eq.
Qed.

Lemma validateNotionToken_accepts_witness :
  Validator.validateNotionToken
    "secret_abcdefghijklmnopqrstuvwxyzABCDEFGHIJKLMNOPQ" = Normal tt.
Proof.
  apply (proj2 (validateNotionToken_accepts
                  "secret_abcdefghijklmnopqrstuvwxyzABCDEFGHIJKLMNOPQ")).
  reflexivity.
Defined.

(** A token with other characters than letters and digits passes
    [validateNotionToken] though it does not fit the pattern. *)
Example validateNotionToken_weaker_than_pattern :
  let token := "secret_-------------------------------------------" in
  Validator.validateNotionToken token = Normal tt /\
  Validator.tokenPattern_test token = false.
Proof. split; reflexivity. Qed.

Lemma checkIntegrations_spec (keys : list string) (t : string) :
  Validator.checkIntegrations keys t = Normal tt <->
  keys = [] \/
  exists cfg, Validator.tierConfigurations !! t = Some cfg /\
              Forall (fun k => k ∈ Validator.integrations cfg) keys.
Proof.
  induction keys as [|k rest IH]; cbn [Validator.checkIntegrations].
  - split; auto.
  - destruct (Validator.tierConfigurations !! t) as [cfg|] eqn:Hcfg.
    + rewrite (JsFacts.get_own _ _ _ Hcfg).
      destruct (JS.arr_includes (Validator.integrations cfg) k) eqn:Hk.
      * apply CompilerFacts.arr_includes_elem_of in Hk.
        rewrite IH. split.
        -- intros [->|(cfg' & Hc' & Hf)].
           ++ right. exists cfg. split; [done|]. by apply Forall_singleton.
           ++ right. exists cfg'. split; [done|].
              injection Hc' as <-. by apply Forall_cons.
        -- intros [?|(cfg' & Hc' & Hf)]; [done|].
           right. exists cfg'. split; [done|]. by inversion Hf.
      * split; [done|]. intros [?|(cfg' & Hc' & Hf)]; [done|].
        injection Hc' as <-. inversion Hf; subst.
        assert (JS.arr_includes (Validator.integrations cfg) k = true)
          by (by apply CompilerFacts.arr_includes_elem_of).
        congruence.
    + destruct (JsFacts.get_missing _ _ Hcfg) as [-> | ->];
        (split; [done|]; intros [?|(cfg' & Hc' & _)]; done).
Qed.

(** X10: integrations grow with the tier.  A configuration accepted for the
    starter tier has no key; one accepted for the starter tier is accepted
    for the professional tier, and one accepted for the professional tier
    is accepted for the enterprise tier.  A text that is not JSON is
    refused with the error of the script, whatever the tier; a
    configuration without keys is accepted whatever the tier, known or
    not. *)
Theorem integrations_grow_with_tier (parsed : Validator.ParsedConfig) :
  (Validator.validateIntegrationConfig parsed "starter" = Normal tt <->
   parsed = Validator.ParsedKeys []) /\
  (Validator.validateIntegrationConfig parsed "starter" = Normal tt ->
   Validator.validateIntegrationConfig parsed "professional" = Normal tt) /\
  (Validator.validateIntegrationConfig parsed "professional" = Normal tt ->
   Validator.validateIntegrationConfig parsed "enterprise" = Normal tt) /\
  (forall msg t,
     Validator.validateIntegrationConfig (Validator.ParseSyntaxError msg) t
     = Throw (Error "Integration configuration must be valid JSON")) /\
  (forall t, Validator.validateIntegrationConfig (Validator.ParsedKeys []) t
             = Normal tt).
Proof.
  assert (Validator.validateIntegrationConfig parsed "starter" = Normal tt <->
          parsed = Validator.ParsedKeys []) as Hstarter.
  { destruct parsed as [msg| |keys]; cbn [Validator.validateIntegrationConfig];
      [split; discriminate ..|].
    rewrite checkIntegrations_spec. split.
    - intros [->|(cfg & Hc & Hf)]; [done|].
      vm_compute in Hc. injection Hc as <-.
      destruct keys as [|k rest]; [done|].
      inversion Hf as [|? ? Hk _]; subst. by apply elem_of_nil in Hk.
    - intros [= ->]. by left. }
  split; [exact Hstarter|]. split; [|split; [|split]].
  - intros H. apply Hstarter in H as ->. reflexivity.
  - destruct parsed as [msg| |keys]; cbn [Validator.validateIntegrationConfig];
      [discriminate ..|].
    rewrite !checkIntegrations_spec.
    intros [->|(cfg & Hc & Hf)]; [by left|]. right.
    vm_compute in Hc. injection Hc as <-.
    eexists. split; [reflexivity|].
    eapply Forall_impl; [exact Hf|].
    intros k Hk. cbn in Hk |- *.
    rewrite !elem_of_cons in Hk. rewrite !elem_of_cons.
    destruct Hk as [->|[->|Hk]]; auto; by apply elem_of_nil in Hk.
  - reflexivity.
  - reflexivity.
Qed.

Lemma integrations_grow_with_tier_witness :
  Validator.validateIntegrationConfig
    (Validator.ParsedKeys ["slack"; "email"]) "enterprise" = Normal tt.
Proof.
  apply (proj1 (proj2 (proj2 (integrations_grow_with_tier
                  (Validator.ParsedKeys ["slack"; "email"]))))).
  reflexivity.
Defined.

Example integration_not_available :
  Validator.validateIntegrationConfig
    (Validator.ParsedKeys ["slack"; "quickbooks"]) "professional"
  = Throw (Error "Integration 'quickbooks' not available in professional tier").
Proof. reflexivity. Qed.

(** [Math.ceil(a / b)] by integer division. *)
Lemma ceil_div_spec (a : Z) (b : positive) :
  JS.ceil_div a b = - ((- a) / Z.pos b).
Proof. reflexivity. Qed.

Lemma minutes_bounds (a : Z) :
  0 <= a ->
  JS.ceil_div (JS.ceil_div a 3) 60 <= JS.ceil_div a 60
  /\ JS.ceil_div a 60 <= 3 * JS.ceil_div (JS.ceil_div a 3) 60.
Proof.
  intros Ha. rewrite !ceil_div_spec.
  Z.to_euclidean_division_equations. lia.
Qed.



End TierExtras.

(** ** Retrying *)

Module UtilsExtras.
Import Utils.

Section Retry.
Context {W A : Type}.
Variable fn : W -> Completion A * W.

Lemma outcomes_length (n : nat) (w : W) : length (outcomes fn n w) = n.
Proof.
  revert w. induction n as [|n IH]; intros w; [reflexivity|].
  cbn [outcomes]. destruct (fn w) as [r w']. cbn. by rewrite IH.
Qed.

Lemma retry_loop_spec (maxRetries : nat) (delay : Z) (rounds : nat) :
  forall (i : nat) (l : RetryLog),
    (i + rounds)%nat = maxRetries ->
    (0 < rounds)%nat \/ i = 0%nat ->
    calls l = i ->
    delays l = map (fun j => delay * 2 ^ Z.of_nat j) (seq 0 i) ->
    let '(r, l') := retry_loop fn rounds i maxRetries delay l in
    delays l' = backoff delay (calls l') /\
    match firstSuccess (outcomes fn rounds (outside l)) with
    | Some (k, a) => r = Normal (Some a) /\ calls l' = S (i + k)
    | None =>
        calls l' = maxRetries /\
        match last (outcomes fn rounds (outside l)) with
        | Some (Throw e) => r = Throw e
        | Some (Normal _) => False
        | None => r = Normal None
        end
    end.
Proof.
  induction rounds as [|rounds IH]; intros i l Hi Hpos Hc Hd.
  - destruct Hpos as [Hpos| ->]; [lia|].
    cbn. unfold backoff. rewrite Hc, Hd.
    repeat split; rewrite ?Nat.sub_0_r; (reflexivity || lia).
  - cbn [retry_loop outcomes].
    destruct (fn (outside l)) as [[a|e] w] eqn:Hfn.
    + cbn. unfold backoff. cbn [calls]. rewrite Hc, Hd.
      repeat split; rewrite ?Nat.sub_0_r; (reflexivity || lia).
    + destruct (Nat.eqb_spec i (maxRetries - 1)) as [Hlast|Hnot].
      * assert (rounds = 0%nat) as -> by lia.
        cbn. unfold backoff. cbn [calls]. rewrite Hc, Hd.
        repeat split; rewrite ?Nat.sub_0_r; (reflexivity || lia).
      * specialize (IH (S i)
                      {| outside := w; calls := S (calls l);
                         delays := delays l ++ [delay * 2 ^ Z.of_nat i] |}).
        cbn [outside calls delays] in IH.
        destruct (retry_loop fn rounds (S i) maxRetries delay _) as [r l'].
        destruct IH as [Hdel Hres].
        { lia. }
        { left. lia. }
        { by rewrite Hc. }
        { rewrite Hd, seq_S, map_app. reflexivity. }
        split; [exact Hdel|].
        cbn [firstSuccess].
        destruct (firstSuccess (outcomes fn rounds w)) as [[k a]|].
        -- destruct Hres as [-> Hcalls]. split; [reflexivity|lia].
        -- destruct Hres as [Hcalls Hlast]. split; [exact Hcalls|].
           pose proof (outcomes_length rounds w) as Hlen.
           destruct (outcomes fn rounds w) as [|o rest] eqn:Ho;
             [cbn in Hlen; lia|].
           exact Hlast.
Qed.

(** X12: what a retry does.  [retryWithBackoff] returns the value of the
    first call of [fn] that succeeds among the first [maxRetries], and
    makes no call after it; when they all fail it throws the error of the
    last one, after exactly [maxRetries] calls; it waits between two
    calls only (never after the last), the delay doubling each time; and
    with [maxRetries] at 0 it returns [undefined] without calling [fn]. *)
Theorem retryWithBackoff_spec (maxRetries : nat) (delay : Z) (w : W) :
  let '(r, l) := retryWithBackoff fn maxRetries delay w in
  (calls l <= maxRetries)%nat /\
  delays l = backoff delay (calls l) /\
  match firstSuccess (outcomes fn maxRetries w) with
  | Some (k, a) => r = Normal (Some a) /\ calls l = S k
  | None =>
      calls l = maxRetries /\
      match last (outcomes fn maxRetries w) with
      | Some (Throw e) => r = Throw e
      | Some (Normal _) => False
      | None => r = Normal None /\ maxRetries = 0%nat
      end
  end.
Proof.
  unfold retryWithBackoff.
  pose proof (retry_loop_spec maxRetries delay maxRetries 0
                {| outside := w; calls := 0; delays := [] |}) as H.
  cbn [outside calls delays] in H.
  destruct (retry_loop fn maxRetries 0 maxRetries delay _) as [r l].
  destruct H as [Hdel Hres]; [lia| |reflexivity|reflexivity|].
  { destruct maxRetries; [by right|left; lia]. }
  split; [|split; [exact Hdel|]].
  - pose proof (outcomes_length maxRetries w) as Hlen.
    destruct (firstSuccess (outcomes fn maxRetries w)) as [[k a]|] eqn:Hf.
    + destruct Hres as [_ ->].
      assert (forall (os : list (Completion A)) k a,
                firstSuccess os = Some (k, a) -> (k < length os)%nat) as Hk.
      { clear. induction os as [|[a'|e] os IH]; intros k a H; cbn in *.
        - discriminate.
        - injection H as <- _. lia.
        - destruct (firstSuccess os) as [[k' a'']|]; [|discriminate].
          injection H as <- _. specialize (IH _ _ eq_refl). lia. }
      specialize (Hk _ _ _ Hf). lia.
    + destruct Hres as [-> _]. lia.
  - destruct (firstSuccess (outcomes fn maxRetries w)) as [[k a]|].
    + exact Hres.
    + destruct Hres as [Hc Hl]. split; [exact Hc|].
      pose proof (outcomes_length maxRetries w) as Hlen.
      destruct (last (outcomes fn maxRetries w)) as [[a|e]|] eqn:Hlast;
        [exact Hl|exact Hl|].
      split; [exact Hl|].
      apply last_None in Hlast. rewrite Hlast in Hlen. cbn in Hlen. lia.
Qed.
End Retry.

(** A function that fails twice and then succeeds, retried with the
    defaults of the script: three calls, waits of one and two seconds. *)
Example retry_third_time_lucky :
  let fn (w : nat) : Completion string * nat :=
    (if (w <? 2)%nat then Throw (Error "rate_limited") else Normal "ok", S w) in
  let '(r, l) := retryWithBackoff fn 3 1000 0%nat in
  r = Normal (Some "ok") /\ calls l = 3%nat /\ delays l = [1000; 2000].
Proof. vm_compute. repeat split. Qed.

End UtilsExtras.

(** ** The deployment script: artifacts, pacing, sample data, the whole run *)

Module DeployExtras.
Import Deploy.

(** *** Sorting of file names *)

Lemma leb_total (a b : string) : String.leb a b = false -> String.leb b a = true.
Proof.
  intros H. destruct (total String.le a b) as [Hab|Hba].
  - unfold String.le in Hab. apply Is_true_true in Hab. congruence.
  - unfold String.le in Hba. by apply Is_true_true in Hba.
Qed.

Lemma leb_trans (a b c : string) :
  String.leb a b = true -> String.leb b c = true -> String.leb a c = true.
Proof.
  intros H1 H2. apply Is_true_true.
  change (String.le a c). transitivity b; unfold String.le;
    by apply Is_true_true.
Qed.

Lemma insert_sorted_elem (x y : string) (l : list string) :
  y ∈ JS.insert_sorted x l <-> y = x \/ y ∈ l.
Proof.
  induction l as [|z l IH]; cbn [JS.insert_sorted].
  - rewrite list_elem_of_singleton, elem_of_nil. tauto.
  - destruct (String.leb x z); rewrite !elem_of_cons; [tauto|].
    rewrite IH. tauto.
Qed.

Lemma sort_elem (y : string) (l : list string) : y ∈ JS.sort l <-> y ∈ l.
Proof.
  induction l as [|x l IH]; [reflexivity|].
  unfold JS.sort in *. cbn [foldr].
  rewrite insert_sorted_elem, IH, elem_of_cons. tauto.
Qed.

Lemma insert_sorted_sorted (x : string) (l : list string) :
  StronglySorted (fun a b => String.leb a b = true) l ->
  StronglySorted (fun a b => String.leb a b = true) (JS.insert_sorted x l).
Proof.
  induction l as [|z l IH]; intros Hs; cbn [JS.insert_sorted].
  - repeat constructor.
  - apply StronglySorted_inv in Hs as [Hl Hz].
    destruct (String.leb x z) eqn:Hxz.
    + constructor; [by constructor|].
      constructor; [exact Hxz|].
      eapply Forall_impl; [exact Hz|]. intros b Hb. by eapply leb_trans.
    + constructor; [by apply IH|].
      apply Forall_forall. intros b Hb.
      apply insert_sorted_elem in Hb as [->|Hb].
      * by apply leb_total.
      * rewrite Forall_forall in Hz. by apply Hz.
Qed.

Lemma sort_sorted (l : list string) :
  StronglySorted (fun a b => String.leb a b = true) (JS.sort l).
Proof.
  induction l as [|x l IH]; [constructor|].
  unfold JS.sort in *. cbn [foldr]. by apply insert_sorted_sorted.
Qed.

Lemma last_of_sorted (l : list string) (m : string) :
  StronglySorted (fun a b => String.leb a b = true) l ->
  last l = Some m ->
  forall x, x ∈ l -> String.leb x m = true.
Proof.
  induction l as [|a l IH]; intros Hs Hlast x Hx; [by apply elem_of_nil in Hx|].
  apply StronglySorted_inv in Hs as [Hl Ha].
  destruct l as [|b l'].
  - cbn in Hlast. injection Hlast as Heq. subst a.
    apply list_elem_of_singleton in Hx as ->.
    pose proof (leb_total m m) as Htot.
    destruct (String.leb m m); [done|by apply Htot].
  - change (last (a :: b :: l')) with (last (b :: l')) in Hlast.
    apply elem_of_cons in Hx as [->|Hx]; [|by apply IH].
    rewrite Forall_forall in Ha. apply Ha.
    apply list_elem_of_lookup. rewrite last_lookup in Hlast. eauto.
Qed.

(** [l.sort().pop()] of a list that is not empty: the greatest element. *)
Lemma sort_pop (l : list string) :
  l <> [] ->
  exists m, last (JS.sort l) = Some m /\ m ∈ l /\
            forall x, x ∈ l -> String.leb x m = true.
Proof.
  intros Hne.
  destruct (last (JS.sort l)) as [m|] eqn:Hlast.
  - exists m. split; [reflexivity|]. split.
    + apply sort_elem. apply list_elem_of_lookup.
      rewrite last_lookup in Hlast. eauto.
    + intros x Hx. eapply last_of_sorted; [apply sort_sorted|exact Hlast|].
      by apply sort_elem.
  - apply last_None in Hlast. destruct l as [|x l]; [done|].
    assert (x ∈ JS.sort (x :: l)) as Hx by (apply sort_elem; left).
    rewrite Hlast in Hx. by apply elem_of_nil in Hx.
Qed.

Section WithClient.
Variable h : Host.
Variable notion : Notion.
Local Abbreviation Ctx := (Deploy.Ctx notion).

(** X13: the artifact a deployment loads.  When the [dist] directory can
    be read and holds a file of the tier (its name starts with template-
    and the tier, and ends with .json), the package loaded is the one read
    from the greatest such name in the order of strings; the step
    artifacts_loaded is recorded when that file can be read and parsed,
    and the error of the reading is thrown otherwise. *)
Theorem loadBuildArtifacts_latest (c : Ctx) (files : list string) :
  let distPath := path_join (cwd h) "dist" in
  let tierName := default "null" (ds_tier (state c)) in
  let matching :=
    filter (fun file => JS.startsWith file ("template-" +:+ tierName)
                        && JS.endsWith file ".json" = true) files in
  readdir h distPath = Normal files ->
  matching <> [] ->
  exists latest,
    latest ∈ matching /\
    (forall file, file ∈ matching -> String.leb file latest = true) /\
    match readBuildPackage h (path_join distPath latest) with
    | Normal bp =>
        exists c', loadBuildArtifacts h notion c = (Normal bp, c') /\
                   unchanged_but_steps c c' ["artifacts_loaded"]
    | Throw e => loadBuildArtifacts h notion c = (Throw e, c)
    end.
Proof.
  cbv zeta. intros Hdir Hne.
  destruct (sort_pop _ Hne) as (latest & Hlast & Hin & Hmax).
  exists latest. split; [exact Hin|]. split; [exact Hmax|].
  unfold loadBuildArtifacts, latestBuildFile, bind, try_catch, lift, getState.
  rewrite Hdir, Hlast. cbn [ret].
  destruct (readBuildPackage h _) as [bp|e]; [|reflexivity].
  eexists. split; [reflexivity|].
  unfold unchanged_but_steps. cbn. repeat split.
Qed.

(** X14: every failure to find an artifact looks the same.  When the [dist]
    directory cannot be read, or holds no file of the tier, the error
    thrown is the one that tells to run the build first (the error
    raised for the second case inside the script is replaced by it), and
    nothing is recorded. *)
Theorem loadBuildArtifacts_not_found (c : Ctx) :
  (is_normal (readdir h (path_join (cwd h) "dist")) = false \/
   exists files,
     readdir h (path_join (cwd h) "dist") = Normal files /\
     filter (fun file =>
               JS.startsWith file
                 ("template-" +:+ default "null" (ds_tier (state c)))
               && JS.endsWith file ".json" = true) files = []) ->
  loadBuildArtifacts h notion c
  = (Throw (Error
       "Build artifacts directory not found. Run build-template.js first."),
     c).
Proof.
  unfold loadBuildArtifacts, latestBuildFile, bind, try_catch, lift, getState.
  intros [Hdir|(files & Hdir & Hnone)].
  - destruct (readdir h _) as [files|e]; [discriminate|]. reflexivity.
  - rewrite Hdir, Hnone. reflexivity.
Qed.

End WithClient.

Lemma loadBuildArtifacts_latest_witness :
  exists bp c',
    loadBuildArtifacts (Mock.host Mock.full_env) (Mock.workspace true [])
      (with_state (Mock.workspace true [])
         (fun d => {| ds_client := ds_client d; ds_tier := Some "starter";
                      startTime := startTime d;
                      completedSteps := completedSteps d;
                      createdResources := createdResources d;
                      errors := errors d |})
         (@initial_ctx (Mock.workspace true []) 0%nat))
    = (Normal bp, c') /\
    buildId bp = "build-1700000000001".
Proof.
  pose proof (loadBuildArtifacts_latest (Mock.host Mock.full_env)
                (Mock.workspace true [])
                (with_state (Mock.workspace true [])
                   (fun d => {| ds_client := ds_client d;
                                ds_tier := Some "starter";
                                startTime := startTime d;
                                completedSteps := completedSteps d;
                                createdResources := createdResources d;
                                errors := errors d |})
                   (@initial_ctx (Mock.workspace true []) 0%nat))
                ["template-starter-build-1700000000001.json"; "notes.txt";
                 "template-starter-build-1600000000000.json";
                 "template-professional-build-1700000000002.json"]
                eq_refl) as H.
  destruct H as (latest & Hin & Hmax & Hload).
  { vm_compute. discriminate. }
  assert (latest = "template-starter-build-1700000000001.json") as ->.
  { vm_compute in Hin.
    apply elem_of_cons in Hin as [->|Hin]; [reflexivity|].
    apply list_elem_of_singleton in Hin as ->.
    specialize (Hmax "template-starter-build-1700000000001.json").
    assert (String.leb "template-starter-build-1700000000001.json"
                       "template-starter-build-1600000000000.json" = true)
      as Habs.
    { apply Hmax. apply (bool_decide_unpack _). vm_compute. exact I. }
    vm_compute in Habs. discriminate. }
  destruct (readBuildPackage (Mock.host Mock.full_env) _) as [bp|e] eqn:Hread.
  - destruct Hload as (c' & Hrun & _). exists bp, c'. split; [exact Hrun|].
    vm_compute in Hread. injection Hread as <-. reflexivity.
  - vm_compute in Hread. discriminate.
Defined.

Lemma loadBuildArtifacts_not_found_witness :
  exists c',
    loadBuildArtifacts (Mock.host Mock.full_env) (Mock.workspace true [])
      (with_state (Mock.workspace true [])
         (fun d => {| ds_client := ds_client d; ds_tier := Some "enterprise";
                      startTime := startTime d;
                      completedSteps := completedSteps d;
                      createdResources := createdResources d;
                      errors := errors d |})
         (@initial_ctx (Mock.workspace true []) 0%nat))
    = (Throw (Error
         "Build artifacts directory not found. Run build-template.js first."),
       c') /\
    completedSteps (state c') = [].
Proof.
  eexists. split.
  - apply loadBuildArtifacts_not_found. right.
    eexists. split; reflexivity.
  - reflexivity.
Defined.
(** *** Sample records *)

(** One entry of a record sets at most one property, which is Name,
    Status or the key of the entry, and is never called title or name; the
    entry called __proto__ sets none. *)
Lemma convertRecord_step (h : Host) (acc : gmap string RecordProperty)
    (key : string) (value : SampleValue) :
  let acc' :=
    (let '(key, value) := (key, value) in
     if String.eqb key "title" || String.eqb key "name"
     then <["Name" := RP_title (String_of h value)]> acc
     else match value with
          | SVString s =>
              if JS.arr_includes
                   ["Planning"; "In Progress"; "Completed"; "Active"] s
              then <["Status" := RP_select s]> acc
              else JS.put acc key (RP_rich_text s)
          | SVNumber q => JS.put acc key (RP_number q)
          end) in
  (acc' = acc /\ key <> "title" /\ key <> "name") \/
  exists k v,
    acc' = <[k := v]> acc /\
    k <> "title" /\ k <> "name" /\
    (k = "Name" \/ k = "Status" \/ k = key) /\
    (key = "title" \/ key = "name" -> k = "Name").
Proof.
  cbv beta iota zeta.
  destruct (String.eqb_spec key "title") as [->|Ht]; cbn [orb].
  { right. do 2 eexists. split; [reflexivity|].
    repeat split; auto; discriminate. }
  destruct (String.eqb_spec key "name") as [->|Hn].
  { right. do 2 eexists. split; [reflexivity|].
    repeat split; auto; discriminate. }
  assert (forall v : RecordProperty,
            (JS.put acc key v = acc /\ key <> "title" /\ key <> "name") \/
            exists k v',
              JS.put acc key v = <[k := v']> acc /\
              k <> "title" /\ k <> "name" /\
              (k = "Name" \/ k = "Status" \/ k = key) /\
              (key = "title" \/ key = "name" -> k = "Name")) as Hput.
  { intros v. unfold JS.put. destruct (String.eqb key "__proto__").
    - left. auto.
    - right. do 2 eexists. split; [reflexivity|].
      repeat split; auto; intros [?|?]; done. }
  destruct value as [str|q]; [|apply Hput].
  destruct (JS.arr_includes _ str); [|apply Hput].
  right. do 2 eexists. split; [reflexivity|].
  repeat split; auto; try discriminate; intros [?|?]; done.
Qed.

Lemma convertRecord_fold (h : Host) (record : SampleRecord) :
  forall acc : gmap string RecordProperty,
    let props :=
      fold_left
        (fun properties entry =>
           let '(key, value) := entry in
           if String.eqb key "title" || String.eqb key "name"
           then <["Name" := RP_title (String_of h value)]> properties
           else match value with
                | SVString s =>
                    if JS.arr_includes
                         ["Planning"; "In Progress"; "Completed"; "Active"] s
                    then <["Status" := RP_select s]> properties
                    else JS.put properties key (RP_rich_text s)
                | SVNumber q => JS.put properties key (RP_number q)
                end)
        record acc in
    ("title" ∉ dom acc -> "title" ∉ dom props) /\
    ("name" ∉ dom acc -> "name" ∉ dom props) /\
    (forall k, k ∈ dom props ->
       k ∈ dom acc \/ k = "Name" \/ k = "Status" \/ k ∈ map fst record) /\
    (size props <= size acc + length record)%nat /\
    (is_Some (acc !! "Name") \/
     (exists key, key ∈ map fst record /\ (key = "title" \/ key = "name")) ->
     is_Some (props !! "Name")).
Proof.
  induction record as [|[key value] rest IH]; intros acc; cbn [fold_left].
  - cbv zeta. repeat split; auto.
    + lia.
    + intros [?|(key & Hk & _)]; [done|]. by apply elem_of_nil in Hk.
  - pose proof (convertRecord_step h acc key value) as Hstep.
    cbv beta iota zeta in Hstep.
    destruct Hstep as [(Hstep & Hkt & Hkn)|(k & v & Hstep & Hkt & Hkn & Hk & Hname)];
      rewrite Hstep.
    { specialize (IH acc). cbv zeta in IH |- *.
      destruct IH as (IHt & IHn & IHd & IHs & IHN).
      repeat split; auto.
      - intros k' Hk'. cbn [map fst]. rewrite elem_of_cons.
        destruct (IHd k' Hk') as [Hd|[?|[?|?]]]; auto.
      - cbn [length]. lia.
      - intros [Hacc|(key' & Hin & Hor)]; apply IHN; [by left|].
        cbn [map fst] in Hin. apply elem_of_cons in Hin as [->|Hin].
        + by destruct Hor.
        + right. eauto. }
    specialize (IH (<[k := v]> acc)). cbv zeta in IH |- *.
    destruct IH as (IHt & IHn & IHd & IHs & IHN).
    repeat split.
    + intros Hacc. apply IHt. rewrite dom_insert, elem_of_union.
      intros [Hin|Hin]; [|done]. by apply elem_of_singleton in Hin.
    + intros Hacc. apply IHn. rewrite dom_insert, elem_of_union.
      intros [Hin|Hin]; [|done]. by apply elem_of_singleton in Hin.
    + intros k' Hk'. cbn [map fst]. rewrite elem_of_cons.
      destruct (IHd k' Hk') as [Hd|[?|[?|?]]]; auto.
      rewrite dom_insert in Hd. apply elem_of_union in Hd as [Hd|Hd]; auto.
      apply elem_of_singleton in Hd. subst k'.
      destruct Hk as [?|[?|?]]; auto.
    + etrans; [exact IHs|]. cbn [length].
      pose proof (map_size_insert k v acc) as Hsz.
      destruct (acc !! k); unfold Datatypes.id in Hsz; lia.
    + intros [Hacc|(key' & Hin & Hor)]; apply IHN.
      * left. destruct (decide (k = "Name")) as [->|Hne].
        -- rewrite lookup_insert_eq. by eexists.
        -- by rewrite lookup_insert_ne.
      * cbn [map fst] in Hin. apply elem_of_cons in Hin as [->|Hin].
        -- left. rewrite (Hname Hor), lookup_insert_eq. by eexists.
        -- right. eauto.
Qed.

(** X15: the properties of a sample record.  The page properties made from
    a record never include one called title or name (such an entry sets
    the Name title instead, so a record with an entry title or name
    always has a Name); every property is Name, Status or the key of an
    entry; and there are at most as many as entries. *)
Theorem convertRecord_properties (h : Host) (record : SampleRecord) :
  let props := convertRecordToNotionProperties h record in
  ("title" ∉ dom props) /\
  ("name" ∉ dom props) /\
  (forall k, k ∈ dom props ->
     k = "Name" \/ k = "Status" \/ k ∈ map fst record) /\
  (size props <= length record)%nat /\
  ((exists key, key ∈ map fst record /\ (key = "title" \/ key = "name")) ->
   is_Some (props !! "Name")).
Proof.
  destruct (convertRecord_fold h record ∅) as (Ht & Hn & Hd & Hs & HN).
  cbv zeta in *. unfold convertRecordToNotionProperties.
  rewrite map_size_empty in Hs.
  repeat split.
  - apply Ht. rewrite dom_empty. apply not_elem_of_empty.
  - apply Hn. rewrite dom_empty. apply not_elem_of_empty.
  - intros k Hk. destruct (Hd k Hk) as [Hempty|?]; [|done].
    rewrite dom_empty in Hempty. by apply elem_of_empty in Hempty.
  - exact Hs.
  - intros Hex. apply HN. by right.
Qed.

Lemma convertRecord_properties_witness :
  is_Some (convertRecordToNotionProperties
             (Mock.host0 ∅ (Normal []))
             [("name", SVString "Concrete"); ("cost", SVNumber (120 # 1))]
           !! "Name").
Proof.
  apply (convertRecord_properties (Mock.host0 ∅ (Normal []))
           [("name", SVString "Concrete"); ("cost", SVNumber (120 # 1))]).
  exists "name". split; [|by right].
  apply (bool_decide_unpack _). vm_compute. exact I.
Defined.

(** A status value is stored under Status, whatever its key: a project
    record gets the properties Name, Status, type, budget, startDate and
    description, and the key status is lost. *)
Example convertRecord_project :
  dom (convertRecordToNotionProperties (Mock.host0 ∅ (Normal []))
         [("title", SVString "Acme Co Project 1");
          ("status", SVString "In Progress");
          ("type", SVString "Commercial Construction");
          ("budget", SVNumber (100000 # 1));
          ("startDate", SVString "2023-11-21");
          ("description", SVString "Sample construction project 1 for Acme Co")])
  = ({["Name"; "Status"; "type"; "budget"; "startDate"; "description"]}
     : gset string).
Proof.
  apply leibniz_equiv, set_equiv_subseteq. split;
    apply (bool_decide_unpack _); vm_compute; exact I.
Qed.

Lemma sleeps_app (t1 t2 : list Effect) :
  sleeps (t1 ++ t2) = (sleeps t1 ++ sleeps t2)%list.
Proof. apply omap_app. Qed.

Lemma pageRequests_app (t1 t2 : list Effect) :
  pageRequests (t1 ++ t2) = (pageRequests t1 ++ pageRequests t2)%list.
Proof. apply omap_app. Qed.

Lemma sleeps_page_calls {A} (g : A -> PageRequest) (l : list A) :
  sleeps (map (fun x => CallPagesCreate (g x)) l) = [].
Proof. induction l as [|x l IH]; [reflexivity|exact IH]. Qed.

Lemma pageRequests_page_calls {A} (g : A -> PageRequest) (l : list A) :
  pageRequests (map (fun x => CallPagesCreate (g x)) l) = map g l.
Proof.
  induction l as [|x l IH]; [reflexivity|].
  cbn [map]. change (pageRequests (?e :: ?t)) with (pageRequests ([e] ++ t)).
  unfold pageRequests in *. cbn. by rewrite IH.
Qed.

Section SampleData.
Variable h : Host.
Variable notion : Notion.
Local Abbreviation Ctx := (Deploy.Ctx notion).

(** One round of the loop over the records of a database: one page
    request, whatever its outcome. *)
Lemma add_record_round (database : CreatedResource) (record : SampleRecord)
    (c : Ctx) :
  exists c',
    try_catch
      (bind (notion_pages_create notion
               (DatabasePage (id database)
                  (convertRecordToNotionProperties h record)))
            (fun _ => ret tt))
      (fun _ => ret tt) c = (Normal tt, c') /\
    state c' = state c /\
    ticks c' = ticks c /\
    trace c'
    = (trace c
       ++ [CallPagesCreate
             (DatabasePage (id database)
                (convertRecordToNotionProperties h record))])%list.
Proof.
  unfold try_catch, bind, notion_pages_create.
  destruct (pages_create notion _ (world c)) as [[page|e] w];
    eexists; (split; [reflexivity|]); repeat split.
Qed.

Lemma add_records_run (database : CreatedResource)
    (records : list SampleRecord) :
  forall c : Ctx,
  exists c',
    for_of records
      (fun record =>
         try_catch
           (bind (notion_pages_create notion
                    (DatabasePage (id database)
                       (convertRecordToNotionProperties h record)))
                 (fun _ => ret tt))
           (fun _ => ret tt)) c = (Normal tt, c') /\
    state c' = state c /\
    ticks c' = ticks c /\
    trace c'
    = (trace c
       ++ map (fun record =>
                 CallPagesCreate
                   (DatabasePage (id database)
                      (convertRecordToNotionProperties h record)))
              records)%list.
Proof.
  induction records as [|record rest IH]; intros c.
  - exists c. cbn. rewrite app_nil_r. repeat split.
  - destruct (add_record_round database record c)
      as (c1 & Hrun1 & Hst1 & Htk1 & Htr1).
    destruct (IH c1) as (c' & Hrun & Hst & Htk & Htr).
    exists c'. cbn [for_of map]. unfold bind at 1.
    rewrite Hrun1, Hrun, Hst, Htk, Htr, Hst1, Htk1, Htr1, <- app_assoc.
    repeat split.
Qed.

(** What [addSampleDataToDatabase] leaves: the deployment state as it
    was, no pause, at most five page requests more. *)
Lemma addSampleDataToDatabase_pages (database : CreatedResource)
    (data : gmap string (list SampleRecord)) (c : Ctx) :
  exists c',
    addSampleDataToDatabase h notion database data c = (Normal tt, c') /\
    state c' = state c /\
    sleeps (trace c') = sleeps (trace c) /\
    (length (pageRequests (trace c'))
     <= length (pageRequests (trace c)) + 5)%nat.
Proof.
  unfold addSampleDataToDatabase.
  destruct (resource_name database ≫= fun key => data !! key) as [records|].
  - destruct (add_records_run database (take 5 records) c)
      as (c' & Hrun & Hst & _ & Htr).
    exists c'. rewrite Htr.
    rewrite sleeps_app, pageRequests_app, sleeps_page_calls,
      pageRequests_page_calls, length_app, length_map, length_take,
      app_nil_r.
    repeat split; try assumption. lia.
  - exists c. repeat split. cbn [ret snd]. lia.
Qed.

(** X16: sample records are added on a best-effort basis.
    [addSampleDataToDatabase] never throws and never touches the
    deployment state: for the records stored under the name of the
    database it issues one page request per record, in order, for the
    first five records at most, whatever requests fail; a database without
    records under its name gets none. *)
Theorem addSampleDataToDatabase_soft (database : CreatedResource)
    (data : gmap string (list SampleRecord)) (c : Ctx) :
  let records :=
    take 5 (default [] (resource_name database ≫= fun key => data !! key)) in
  exists c',
    addSampleDataToDatabase h notion database data c = (Normal tt, c') /\
    state c' = state c /\
    trace c'
    = (trace c
       ++ map (fun record =>
                 CallPagesCreate
                   (DatabasePage (id database)
                      (convertRecordToNotionProperties h record)))
              records)%list /\
    (length records <= 5)%nat.
Proof.
  cbv zeta. unfold addSampleDataToDatabase.
  destruct (resource_name database ≫= fun key => data !! key) as [records|].
  - destruct (add_records_run database (take 5 records) c)
      as (c' & Hrun & Hst & _ & Htr).
    exists c'. cbn [default]. unfold Datatypes.id.
    repeat split; try assumption.
    rewrite length_take. lia.
  - exists c. cbn. rewrite app_nil_r. repeat split. lia.
Qed.

(** One round of the loop of the sample-data phase. *)
Lemma phase3_round (data : gmap string (list SampleRecord))
    (r : CreatedResource) (c : Ctx) :
  exists c',
    when (String.eqb (resource_type r) "database")
      (bind (addSampleDataToDatabase h notion r data)
            (fun _ => sleep notion 500)) c = (Normal tt, c') /\
    state c' = state c /\
    sleeps (trace c')
    = (sleeps (trace c)
       ++ (if String.eqb (resource_type r) "database" then [500] else []))%list
    /\
    (length (pageRequests (trace c'))
     <= length (pageRequests (trace c))
        + (if String.eqb (resource_type r) "database" then 5 else 0))%nat.
Proof.
  unfold when.
  destruct (String.eqb (resource_type r) "database").
  - destruct (addSampleDataToDatabase_pages r data c)
      as (c1 & Hrun1 & Hst1 & Hsl1 & Hpg1).
    unfold bind. rewrite Hrun1. cbn [sleep].
    eexists. split; [reflexivity|].
    cbn [emit state trace].
    rewrite !sleeps_app, !pageRequests_app, Hsl1, !length_app.
    cbn. repeat split; [assumption|lia].
  - exists c. cbn. rewrite app_nil_r. repeat split. lia.
Qed.

(** The loop of the sample-data phase over the recorded resources. *)
Lemma phase3_loop (data : gmap string (list SampleRecord))
    (resources : list CreatedResource) :
  forall c : Ctx,
  exists c',
    for_of resources
      (fun resource =>
         when (String.eqb (resource_type resource) "database")
           (bind (addSampleDataToDatabase h notion resource data)
                 (fun _ => sleep notion 500))) c = (Normal tt, c') /\
    state c' = state c /\
    sleeps (trace c')
    = (sleeps (trace c)
       ++ map (fun _ => 500)
              (filter (fun r => String.eqb (resource_type r) "database" = true)
                      resources))%list /\
    (length (pageRequests (trace c'))
     <= length (pageRequests (trace c))
        + 5 * count_type "database" resources)%nat.
Proof.
  induction resources as [|r rest IH]; intros c.
  - exists c. cbn. rewrite app_nil_r. repeat split. lia.
  - destruct (phase3_round data r c) as (c1 & Hrun1 & Hst1 & Hsl1 & Hpg1).
    destruct (IH c1) as (c' & Hrun & Hst & Hsl & Hpg).
    exists c'. cbn [for_of]. unfold bind at 1. rewrite Hrun1, Hrun.
    unfold count_type in *.
    rewrite Hst, Hst1, Hsl, Hsl1.
    destruct (String.eqb (resource_type r) "database") eqn:Hdb.
    + rewrite filter_cons_True by done. cbn [map length].
      rewrite <- app_assoc. repeat split. lia.
    + rewrite filter_cons_False by (rewrite Hdb; done).
      rewrite app_nil_r. repeat split. lia.
Qed.

(** The steps of the sample-data phase: it ends normally, with its
    step recorded unless it was skipped, and records nothing else. *)
Lemma deployPhase3_steps (buildPackage : BuildPackage) (c : Ctx) :
  exists c',
    deployPhase3_SampleData h notion buildPackage c = (Normal tt, c') /\
    createdResources (state c') = createdResources (state c) /\
    errors (state c') = errors (state c) /\
    completedSteps (state c')
    = (completedSteps (state c)
       ++ (if skipsSampleData h buildPackage then []
           else ["sample_data_deployed"]))%list.
Proof.
  unfold deployPhase3_SampleData, skipsSampleData.
  destruct (sampleData buildPackage) as [data|];
    [|exists c; rewrite app_nil_r; repeat split].
  destruct (bool_decide (env h !! "INCLUDE_SAMPLE_DATA" = Some "false"));
    [exists c; rewrite app_nil_r; repeat split|].
  unfold bind at 1, getState. unfold bind at 1.
  destruct (phase3_loop data (createdResources (state c)) c)
    as (c1 & Hrun & Hst & _).
  rewrite Hrun. eexists. split; [reflexivity|].
  cbn. rewrite Hst. repeat split.
Qed.

(** X17: the sample-data phase.  It never throws and records no resource
    and no error, so a record that cannot be created leaves no trace in
    the deployment state.  When the package has no sample data, or the
    environment sets INCLUDE_SAMPLE_DATA to false, it does nothing at all
    and does not record its step; otherwise it records the step
    sample_data_deployed, pauses 500 ms once per recorded database, and
    asks for at most five pages per recorded database. *)
Theorem deployPhase3_soft (buildPackage : BuildPackage) (c : Ctx) :
  exists c',
    deployPhase3_SampleData h notion buildPackage c = (Normal tt, c') /\
    createdResources (state c') = createdResources (state c) /\
    errors (state c') = errors (state c) /\
    if skipsSampleData h buildPackage
    then c' = c
    else
      completedSteps (state c')
        = (completedSteps (state c) ++ ["sample_data_deployed"])%list /\
      sleeps (trace c')
        = (sleeps (trace c)
           ++ map (fun _ => 500)
                (filter (fun r =>
                           String.eqb (resource_type r) "database" = true)
                        (createdResources (state c))))%list /\
      (length (pageRequests (trace c'))
       <= length (pageRequests (trace c))
          + 5 * count_type "database" (createdResources (state c)))%nat.
Proof.
  unfold deployPhase3_SampleData, skipsSampleData.
  destruct (sampleData buildPackage) as [data|];
    [|exists c; repeat split].
  destruct (bool_decide (env h !! "INCLUDE_SAMPLE_DATA" = Some "false"));
    [exists c; repeat split|].
  unfold bind at 1, getState. unfold bind at 1.
  destruct (phase3_loop data (createdResources (state c)) c)
    as (c1 & Hrun & Hst & Hsl & Hpg).
  rewrite Hrun. eexists. split; [reflexivity|].
  cbn. rewrite Hst. repeat split; assumption.
Qed.
End SampleData.

(** The starter build deployed on a workspace where every call succeeds:
    the 10 tasks of the build give 5 pages, the 2 projects 2, the client
    1, and the two databases without records none. *)
Example sample_data_limited :
  match Mock.acme_build with
  | Throw _ => False
  | Normal bp =>
      let '(r, c) :=
        deployConstructionTemplate (Mock.host Mock.full_env)
          (Mock.workspace true [])
          (@initial_ctx (Mock.workspace true []) 0%nat) in
      (sampleData bp ≫= fun d => length <$> d !! "tasks") = Some 10%nat /\
      (sampleData bp ≫= fun d => length <$> d !! "projects") = Some 2%nat /\
      (sampleData bp ≫= fun d => length <$> d !! "clients") = Some 1%nat /\
      length (filter (fun e => match e with
                               | CallPagesCreate (DatabasePage _ _) => true
                               | _ => false
                               end = true) (trace c)) = 8%nat /\
      sleeps (trace c) = [1000; 1000; 1000; 1000; 1000; 500; 500; 500; 500; 500]
  end.
Proof. vm_compute. repeat split. Qed.

(** *** Pacing of the databases phase *)

Section Pacing.
Variable notion : Notion.
Local Abbreviation Ctx := (Deploy.Ctx notion).

(** The calls of a creation attempt: no pause among them. *)
Lemma attemptCreate_sleeps (d : DbSchema) (clientName : string)
    (w : World notion) :
  sleeps (attemptCreate notion d clientName w).1 = [].
Proof.
  unfold attemptCreate.
  destruct (convertSchemaToNotionProperties (schema d)) as [props|e0];
    [|reflexivity].
  cbv zeta.
  destruct (search notion _ w) as [[[|p ps]|e] w1]; [|reflexivity ..].
  destruct (pages_create notion _ w1) as [[p|e] w2]; reflexivity.
Qed.

Lemma phaseEffects_sleeps (clientName : string) (dbs : list DbSchema) :
  forall w,
    sleeps (phaseEffects notion clientName dbs w)
    = map (fun _ => 1000) (createdIds (attempts notion clientName dbs w)).
Proof.
  induction dbs as [|d rest IH]; intros w; [reflexivity|].
  cbn [phaseEffects attempts].
  pose proof (attemptCreate_sleeps d clientName w) as Hsl.
  destruct (attemptCreate notion d clientName w) as [calls [r w']].
  cbn [fst] in Hsl.
  rewrite !sleeps_app, Hsl, IH. unfold createdIds.
  change ((d, r) :: attempts notion clientName rest w')
    with ([(d, r)] ++ attempts notion clientName rest w')%list.
  rewrite omap_app, map_app. by destruct r.
Qed.

(** X18: the pacing of the databases phase.  The phase pauses 1000 ms after
    each database it creates and never after a failed creation: its pauses
    are as many as the identifiers it returns. *)
Theorem deployPhase1_pacing (buildPackage : BuildPackage) (c : Ctx) :
  exists ids c',
    deployPhase1_Databases notion buildPackage c = (Normal ids, c') /\
    sleeps (trace c') = (sleeps (trace c) ++ map (fun _ => 1000) ids)%list /\
    length (createdResources (state c'))
    = (length (createdResources (state c)) + length ids)%nat.
Proof.
  destruct (DeployFacts.phase1_loop notion (client buildPackage)
              (default [] (schemas buildPackage)) [] c)
    as (c1 & Hrun & He & Hr & Hs & Htr & Hw).
  unfold deployPhase1_Databases, bind. rewrite Hrun.
  do 2 eexists. split; [reflexivity|].
  cbn. fold (sleeps (trace c1)).
  rewrite Htr, sleeps_app, phaseEffects_sleeps, Hr. split; [reflexivity|].
  rewrite length_app. f_equal.
  unfold resourceRecords, createdIds.
  clear Hrun He Hr Hs Htr Hw.
  induction (attempts notion _ _ _) as [|[d [i|e]] l IHl]; cbn;
    [reflexivity| by f_equal | exact IHl].
Qed.
End Pacing.

(** *** What a run keeps of the deployment state *)

Section Recorded.
Variable h : Host.
Variable notion : Notion.
Local Abbreviation Ctx := (Deploy.Ctx notion).
Local Abbreviation M := (@Monad.M Ctx).
Local Abbreviation keeps m :=
  (forall c : Ctx, recorded_kept c (snd (m c))).

Lemma recorded_kept_refl (c : Ctx) : recorded_kept c c.
Proof. by repeat split. Qed.

Lemma recorded_kept_trans (c1 c2 c3 : Ctx) :
  recorded_kept c1 c2 -> recorded_kept c2 c3 -> recorded_kept c1 c3.
Proof.
  intros (Hs1 & Hr1 & He1) (Hs2 & Hr2 & He2).
  repeat split; etrans; eassumption.
Qed.

Lemma recorded_kept_same (c c' : Ctx) :
  state c' = state c -> recorded_kept c c'.
Proof. intros H. unfold recorded_kept. rewrite H. by repeat split. Qed.

Lemma keeps_ret {A} (a : A) : keeps (ret a).
Proof. intros c. apply recorded_kept_refl. Qed.

Lemma keeps_throw {A} (e : JsError) : keeps (@throw Ctx A e).
Proof. intros c. apply recorded_kept_refl. Qed.

Lemma keeps_lift {A} (r : Completion A) : keeps (lift notion r).
Proof. intros c. apply recorded_kept_refl. Qed.

Lemma keeps_getState : keeps (getState notion).
Proof. intros c. apply recorded_kept_refl. Qed.

Lemma keeps_bind {A B} (m : M A) (k : A -> M B) :
  keeps m -> (forall a, keeps (k a)) -> keeps (bind m k).
Proof.
  intros Hm Hk c. unfold bind. specialize (Hm c).
  destruct (m c) as [[a|e] c1]; cbn [snd] in *; [|exact Hm].
  eapply recorded_kept_trans; [exact Hm|apply Hk].
Qed.

Lemma keeps_try_catch {A} (m : M A) (handler : JsError -> M A) :
  keeps m -> (forall e, keeps (handler e)) -> keeps (try_catch m handler).
Proof.
  intros Hm Hk c. unfold try_catch. specialize (Hm c).
  destruct (m c) as [[a|e] c1]; cbn [snd] in *; [exact Hm|].
  eapply recorded_kept_trans; [exact Hm|apply Hk].
Qed.

Lemma keeps_when (b : bool) (m : M unit) : keeps m -> keeps (when b m).
Proof. intros Hm. destruct b; [exact Hm|apply keeps_ret]. Qed.

Lemma keeps_for_of {A} (l : list A) (body : A -> M unit) :
  (forall x, keeps (body x)) -> keeps (for_of l body).
Proof.
  intros Hbody. induction l as [|x l IH]; cbn [for_of].
  - apply keeps_ret.
  - apply keeps_bind; [apply Hbody|intros _; exact IH].
Qed.

Lemma keeps_for_of_acc {A B} (l : list A)
    (body : A -> list B -> M (list B)) :
  (forall x acc, keeps (body x acc)) ->
  forall acc, keeps (for_of_acc l acc body).
Proof.
  intros Hbody. induction l as [|x l IH]; intros acc; cbn [for_of_acc].
  - apply keeps_ret.
  - apply keeps_bind; [apply Hbody|intros acc'; apply IH].
Qed.

Lemma keeps_Date_now : keeps (Date_now h notion).
Proof. intros c. by apply recorded_kept_same. Qed.

Lemma keeps_sleep (ms : Z) : keeps (sleep notion ms).
Proof. intros c. by apply recorded_kept_same. Qed.

Lemma keeps_users_me : keeps (notion_users_me notion).
Proof.
  intros c. unfold notion_users_me.
  destruct (users_me notion (world c)). by apply recorded_kept_same.
Qed.

Lemma keeps_search (query : string) : keeps (notion_search notion query).
Proof.
  intros c. unfold notion_search.
  destruct (search notion query (world c)). by apply recorded_kept_same.
Qed.

Lemma keeps_pages_create (req : PageRequest) :
  keeps (notion_pages_create notion req).
Proof.
  intros c. unfold notion_pages_create.
  destruct (pages_create notion req (world c)). by apply recorded_kept_same.
Qed.

Lemma keeps_databases_create (req : DatabaseRequest) :
  keeps (notion_databases_create notion req).
Proof.
  intros c. unfold notion_databases_create.
  destruct (databases_create notion req (world c)).
  by apply recorded_kept_same.
Qed.

Lemma keeps_writeFile (path : string) : keeps (fs_writeFile h notion path).
Proof.
  intros c. unfold fs_writeFile.
  destruct (writeFile h path); by apply recorded_kept_same.
Qed.

Lemma keeps_set_client (v : option string) : keeps (set_client notion v).
Proof. intros c. by repeat split. Qed.

Lemma keeps_set_tier (v : option string) : keeps (set_tier notion v).
Proof. intros c. by repeat split. Qed.

Lemma keeps_set_startTime (v : Z) : keeps (set_startTime notion v).
Proof. intros c. by repeat split. Qed.

Lemma keeps_push_step (step : string) : keeps (push_step notion step).
Proof.
  intros c. repeat split; cbn; [by apply prefix_app_r|done|done].
Qed.

Lemma keeps_push_resource (r : CreatedResource) :
  keeps (push_resource notion r).
Proof.
  intros c. repeat split; cbn; [done|by apply prefix_app_r|done].
Qed.

Lemma keeps_push_error (e : DeploymentError) : keeps (push_error notion e).
Proof.
  intros c. repeat split; cbn; [done|done|by apply prefix_app_r].
Qed.

Ltac keeps_tac :=
  repeat first
    [ apply keeps_ret | apply keeps_throw | apply keeps_lift
    | apply keeps_getState | apply keeps_Date_now | apply keeps_sleep
    | apply keeps_users_me | apply keeps_search | apply keeps_pages_create
    | apply keeps_databases_create | apply keeps_writeFile
    | apply keeps_set_client | apply keeps_set_tier
    | apply keeps_set_startTime | apply keeps_push_step
    | apply keeps_push_resource | apply keeps_push_error
    | apply keeps_when
    | apply keeps_bind; [|intros ?]
    | apply keeps_try_catch; [|intros ?]
    | apply keeps_for_of; intros ?
    | apply keeps_for_of_acc; intros ? ? ].

Lemma keeps_initializeEnvironment : keeps (initializeEnvironment h notion).
Proof.
  unfold initializeEnvironment. keeps_tac.
  destruct (negb _); [|destruct (negb _)]; keeps_tac.
Qed.

Lemma keeps_loadBuildArtifacts : keeps (loadBuildArtifacts h notion).
Proof.
  unfold loadBuildArtifacts, latestBuildFile. keeps_tac.
  destruct (last _); keeps_tac.
Qed.

Lemma keeps_initializeNotionClient : keeps (initializeNotionClient notion).
Proof. unfold initializeNotionClient. keeps_tac. Qed.

Lemma keeps_deployPhase1 (buildPackage : BuildPackage) :
  keeps (deployPhase1_Databases notion buildPackage).
Proof.
  unfold deployPhase1_Databases, deployDatabase, createDatabase,
    getOrCreateParentPage.
  keeps_tac.
  match goal with
  | |- context [match ?results with [] => _ | _ :: _ => _ end] =>
      destruct results
  end; keeps_tac.
Qed.

Lemma keeps_deployPhase3 (buildPackage : BuildPackage) :
  keeps (deployPhase3_SampleData h notion buildPackage).
Proof.
  unfold deployPhase3_SampleData, addSampleDataToDatabase.
  destruct (sampleData buildPackage); [|keeps_tac].
  destruct (bool_decide _); keeps_tac.
  destruct (_ ≫= _); keeps_tac.
Qed.

Lemma keeps_deployPhase5 (buildPackage : BuildPackage) :
  keeps (deployPhase5_Finalization h notion buildPackage).
Proof.
  unfold deployPhase5_Finalization, createDeploymentSummaryPage,
    saveDeploymentMetadata.
  keeps_tac.
Qed.

(** X19: the deployment state is append-only.  Whatever the outcome of a
    run of the script, a report or a thrown error, the completed steps,
    the created resources and the errors recorded before the run are still
    recorded after it, in the same order and at the same positions: the
    script only ever pushes to these lists, and the cleanup after a
    failure removes nothing. *)
Theorem deployment_state_append_only (c : Ctx) :
  recorded_kept c (snd (deployConstructionTemplate h notion c)).
Proof.
  revert c. unfold deployConstructionTemplate, deployPhase2_Views,
    deployPhase4_Integrations, generateDeploymentReport,
    cleanupFailedDeployment.
  apply keeps_bind; [apply keeps_Date_now|intros t0].
  apply keeps_bind; [apply keeps_set_startTime|intros _].
  apply keeps_try_catch; [|intros e; keeps_tac].
  apply keeps_bind; [apply keeps_initializeEnvironment|intros _].
  apply keeps_bind; [apply keeps_loadBuildArtifacts|intros buildPackage].
  apply keeps_bind; [apply keeps_initializeNotionClient|intros _].
  apply keeps_bind; [apply keeps_deployPhase1|intros ids].
  apply keeps_bind; [apply keeps_push_step|intros _].
  apply keeps_bind; [apply keeps_deployPhase3|intros _].
  apply keeps_bind; [apply keeps_push_step|intros _].
  apply keeps_bind; [apply keeps_deployPhase5|intros _].
  keeps_tac.
Qed.
End Recorded.


(** *** The report of a run that completes *)

Lemma count_database_records (l : list (DbSchema * Completion string)) :
  count_type "database" (resourceRecords l) = length (resourceRecords l).
Proof.
  unfold count_type, resourceRecords.
  induction l as [|[d [i|e]] l IH]; [reflexivity| |exact IH].
  change ((d, Normal i) :: l) with ([(d, Normal i)] ++ l)%list.
  rewrite omap_app, filter_app, !length_app, IH. reflexivity.
Qed.

Lemma count_page_records (l : list (DbSchema * Completion string)) :
  count_type "page" (resourceRecords l) = 0%nat.
Proof.
  unfold count_type, resourceRecords.
  induction l as [|[d [i|e]] l IH]; [reflexivity| |exact IH].
  change ((d, Normal i) :: l) with ([(d, Normal i)] ++ l)%list.
  rewrite omap_app, filter_app, !length_app, IH. reflexivity.
Qed.

Lemma count_type_app (kind : string) (l1 l2 : list CreatedResource) :
  count_type kind (l1 ++ l2)
  = (count_type kind l1 + count_type kind l2)%nat.
Proof. unfold count_type. by rewrite filter_app, length_app. Qed.

Section CompletedRun.
Variable h : Host.
Variable notion : Notion.
Local Abbreviation Ctx := (Deploy.Ctx notion).
Local Abbreviation M := (@Monad.M Ctx).

Lemma push_step_run (step : string) (c : Ctx) :
  exists c',
    push_step notion step c = (Normal tt, c') /\
    createdResources (state c') = createdResources (state c) /\
    errors (state c') = errors (state c) /\
    completedSteps (state c') = (completedSteps (state c) ++ [step])%list.
Proof. eexists. split; [reflexivity|]. repeat split. Qed.

Lemma loadBuildArtifacts_reads (c : Ctx) :
  exists r c',
    loadBuildArtifacts h notion c = (r, c') /\
    createdResources (state c') = createdResources (state c) /\
    errors (state c') = errors (state c) /\
    forall bp, r = Normal bp ->
      (exists path, readBuildPackage h path = Normal bp) /\
      completedSteps (state c')
      = (completedSteps (state c) ++ ["artifacts_loaded"])%list.
Proof.
  unfold loadBuildArtifacts, latestBuildFile, bind, try_catch, lift,
    getState, push_step, modify, with_state, throw, ret.
  destruct (readdir h (path_join (cwd h) "dist")) as [files|e];
    [destruct (last _) as [buildFile|];
     [destruct (readBuildPackage h _) as [bp|e] eqn:Hread|]|];
    do 2 eexists; (split; [reflexivity|]); cbn [state createdResources errors];
    (split; [reflexivity|]); (split; [reflexivity|]);
    intros bp' Hbp; try discriminate.
  injection Hbp as <-. split; [eauto|reflexivity].
Qed.

Lemma initializeNotionClient_run (c : Ctx) :
  exists r c',
    initializeNotionClient notion c = (r, c') /\
    createdResources (state c') = createdResources (state c) /\
    errors (state c') = errors (state c) /\
    (r = Normal tt ->
     completedSteps (state c')
     = (completedSteps (state c) ++ ["notion_connected"])%list).
Proof.
  unfold initializeNotionClient, bind, try_catch, notion_users_me, throw,
    ret, push_step, modify.
  destruct (users_me notion (world c)) as [[user|e] w];
    do 2 eexists; (split; [reflexivity|]); repeat split; discriminate.
Qed.

Lemma deployPhase1_run (buildPackage : BuildPackage) (c : Ctx) :
  exists c',
    deployPhase1_Databases notion buildPackage c
    = (Normal (createdIds
                 (attempts notion (client buildPackage)
                    (default [] (schemas buildPackage)) (world c))), c') /\
    createdResources (state c')
    = (createdResources (state c)
       ++ resourceRecords
            (attempts notion (client buildPackage)
               (default [] (schemas buildPackage)) (world c)))%list /\
    errors (state c')
    = (errors (state c)
       ++ errorRecords
            (attempts notion (client buildPackage)
               (default [] (schemas buildPackage)) (world c)))%list /\
    completedSteps (state c')
    = (completedSteps (state c) ++ ["databases_deployed"])%list.
Proof.
  destruct (DeployFacts.phase1_loop notion (client buildPackage)
              (default [] (schemas buildPackage)) [] c)
    as (c1 & Hrun & He & Hr & Hs & _).
  unfold deployPhase1_Databases, bind. rewrite Hrun.
  eexists. split; [reflexivity|].
  cbn. rewrite He, Hr, Hs. repeat split.
Qed.

Lemma deployPhase5_run (buildPackage : BuildPackage) (c : Ctx) :
  exists r c',
    deployPhase5_Finalization h notion buildPackage c = (r, c') /\
    errors (state c') = errors (state c) /\
    (r = Normal tt ->
     exists page,
       createdResources (state c')
       = (createdResources (state c)
          ++ [{| resource_type := "summary_page"; resource_name := None;
                 id := page |}])%list /\
       completedSteps (state c')
       = (completedSteps (state c) ++ ["deployment_finalized"])%list).
Proof.
  unfold deployPhase5_Finalization, createDeploymentSummaryPage,
    saveDeploymentMetadata, bind, Date_now, notion_pages_create,
    push_resource, push_step, modify, fs_writeFile.
  cbn [world state trace ticks].
  destruct (pages_create notion _ (world c)) as [[page|e] w];
    cbn [world state trace ticks emit with_state];
    [destruct (writeFile h _)|];
    do 2 eexists; (split; [reflexivity|]); (split; [reflexivity|]);
    intros Hr; try discriminate.
  exists page. split; reflexivity.
Qed.

Lemma generateDeploymentReport_run (buildPackage : BuildPackage) (c : Ctx) :
  exists report c',
    generateDeploymentReport h notion buildPackage c = (Normal report, c') /\
    state c' = state c /\
    report_client report = client buildPackage /\
    report_tier report = bp_tier buildPackage /\
    report_completedSteps report = length (completedSteps (state c)) /\
    report_createdResources report = length (createdResources (state c)) /\
    report_errors report = length (errors (state c)) /\
    summary_databases report
    = count_type "database" (createdResources (state c)) /\
    summary_pages report = count_type "page" (createdResources (state c)).
Proof. do 2 eexists. split; [reflexivity|]. repeat split. Qed.

(** X20: the report of a run that completes.  When the script, started on
    its initial deployment state, returns a report, the report is about
    a build package read from the file system: it carries the client and
    the tier of the package; the completed steps are the eight steps of
    the script in order, without sample_data_deployed when the sample
    data phase was skipped; the databases counted and the errors counted
    add up to the number of schemas of the package; the created
    resources are the databases and the summary page; and the count of
    pages is 0, since no resource of type page is ever recorded. *)
Theorem completed_run_report (c c' : Ctx) (report : DeploymentReport) :
  state c = deploymentState ->
  deployConstructionTemplate h notion c = (Normal report, c') ->
  exists path buildPackage,
    readBuildPackage h path = Normal buildPackage /\
    report_client report = client buildPackage /\
    report_tier report = bp_tier buildPackage /\
    completedSteps (state c')
    = allSteps (negb (skipsSampleData h buildPackage)) /\
    report_completedSteps report = length (completedSteps (state c')) /\
    (summary_databases report + report_errors report)%nat
    = length (default [] (schemas buildPackage)) /\
    report_createdResources report = S (summary_databases report) /\
    summary_pages report = 0%nat.
Proof.
  intros Hfresh Hrun.
  set (Q := fun (r : Completion DeploymentReport) (c1 : Ctx) =>
         forall report1, r = Normal report1 ->
         exists path buildPackage,
           readBuildPackage h path = Normal buildPackage /\
           report_client report1 = client buildPackage /\
           report_tier report1 = bp_tier buildPackage /\
           completedSteps (state c1)
           = allSteps (negb (skipsSampleData h buildPackage)) /\
           report_completedSteps report1 = length (completedSteps (state c1)) /\
           (summary_databases report1 + report_errors report1)%nat
           = length (default [] (schemas buildPackage)) /\
           report_createdResources report1 = S (summary_databases report1) /\
           summary_pages report1 = 0%nat).
  assert (forall e (c1 : Ctx),
            wp (bind (cleanupFailedDeployment notion)
                  (fun _ => @throw Ctx DeploymentReport e)) c1 Q)
    as Hthrown by (intros e c1 report1 Habs; discriminate Habs).
  assert (wp (deployConstructionTemplate h notion) c Q) as Hwp.
  { unfold deployConstructionTemplate.
    apply wp_bind. unfold wp at 1. cbn [Date_now fst snd].
    apply wp_bind, wp_modify.
    match goal with |- wp _ ?c1 _ =>
      assert (completedSteps (state c1) = [] /\
              createdResources (state c1) = [] /\
              errors (state c1) = []) as (Hs0 & Hr0 & He0)
        by (cbn; rewrite Hfresh; repeat split);
      revert Hs0 Hr0 He0; generalize c1
    end.
    intros c0 Hs0 Hr0 He0.
    apply wp_try_catch, wp_bind.
    destruct (DeployFacts.initializeEnvironment_spec h notion c0)
      as (r1 & c1 & Hrun1 & (_ & _ & Hr1 & He1 & Hs1) & _).
    eapply wp_of_run; [exact Hrun1|].
    destruct r1 as [[]|e]; [|apply Hthrown]. cbn [is_normal] in Hs1.
    apply wp_bind.
    destruct (loadBuildArtifacts_reads c1)
      as (r2 & c2 & Hrun2 & Hr2 & He2 & Hload).
    eapply wp_of_run; [exact Hrun2|].
    destruct r2 as [bp|e]; [|apply Hthrown].
    destruct (Hload bp eq_refl) as [[path Hread] Hs2]. clear Hload.
    apply wp_bind.
    destruct (initializeNotionClient_run c2)
      as (r3 & c3 & Hrun3 & Hr3 & He3 & Hs3).
    eapply wp_of_run; [exact Hrun3|].
    destruct r3 as [[]|e]; [|apply Hthrown]. specialize (Hs3 eq_refl).
    apply wp_bind.
    destruct (deployPhase1_run bp c3) as (c4 & Hrun4 & Hr4 & He4 & Hs4).
    eapply wp_of_run; [exact Hrun4|].
    apply wp_bind.
    destruct (push_step_run "views_deployed" c4)
      as (c5 & Hrun5 & Hr5 & He5 & Hs5).
    eapply wp_of_run; [exact Hrun5|].
    apply wp_bind.
    destruct (deployPhase3_steps h notion bp c5)
      as (c6 & Hrun6 & Hr6 & He6 & Hs6).
    eapply wp_of_run; [exact Hrun6|].
    apply wp_bind.
    destruct (push_step_run "integrations_deployed" c6)
      as (c7 & Hrun7 & Hr7 & He7 & Hs7).
    eapply wp_of_run; [exact Hrun7|].
    apply wp_bind.
    destruct (deployPhase5_run bp c7) as (r8 & c8 & Hrun8 & He8 & Hfin).
    eapply wp_of_run; [exact Hrun8|].
    destruct r8 as [[]|e]; [|apply Hthrown].
    destruct (Hfin eq_refl) as (page & Hr8 & Hs8). clear Hfin.
    apply wp_bind.
    destruct (generateDeploymentReport_run bp c8)
      as (rep & c9 & Hrun9 & Hst9 & Hcl & Hti & Hns & Hnr & Hne & Hdb & Hpg).
    eapply wp_of_run; [exact Hrun9|].
    apply wp_bind. unfold wp at 1. cbn [Date_now fst snd].
    apply wp_ret.
    intros report1 [= <-].
    exists path, bp.
    assert (completedSteps (state c8)
            = allSteps (negb (skipsSampleData h bp))) as Hsteps.
    { rewrite Hs8, Hs7, Hs6, Hs5, Hs4, Hs3, Hs2, Hs1, Hs0.
      by destruct (skipsSampleData h bp). }
    assert (createdResources (state c8)
            = (resourceRecords
                 (attempts notion (client bp) (default [] (schemas bp))
                    (world c3))
               ++ [{| resource_type := "summary_page"; resource_name := None;
                      id := page |}])%list) as Hres.
    { by rewrite Hr8, Hr7, Hr6, Hr5, Hr4, Hr3, Hr2, Hr1, Hr0. }
    assert (errors (state c8)
            = errorRecords
                (attempts notion (client bp) (default [] (schemas bp))
                   (world c3))) as Herr.
    { by rewrite He8, He7, He6, He5, He4, He3, He2, He1, He0. }
    cbn [state]. rewrite Hst9.
    rewrite Hcl, Hti, Hns, Hnr, Hne, Hdb, Hpg, Hres, Herr, Hsteps.
    rewrite !count_type_app, count_database_records, count_page_records.
    rewrite length_app.
    pose proof (DeployFacts.records_partition
                  (attempts notion (client bp) (default [] (schemas bp))
                     (world c3))) as Hpart.
    pose proof (DeployFacts.attempts_schemas notion (client bp)
                  (default [] (schemas bp)) (world c3)) as Hsch.
    apply (f_equal length) in Hsch. rewrite length_map in Hsch.
    change (count_type "database" [_]) with 0%nat.
    change (count_type "page" [_]) with 0%nat.
    cbn [length].
    repeat split; try assumption; lia. }
  unfold wp in Hwp. rewrite Hrun in Hwp. exact (Hwp report eq_refl).
Qed.
End CompletedRun.

Lemma completed_run_report_witness :
  exists report c',
    deployConstructionTemplate (Mock.host Mock.full_env)
      (Mock.workspace true ["Acme Co - Tasks"])
      (@initial_ctx (Mock.workspace true ["Acme Co - Tasks"]) 0%nat)
    = (Normal report, c') /\
    report_completedSteps report = 8%nat /\
    summary_databases report = 4%nat /\
    report_errors report = 1%nat /\
    report_createdResources report = 5%nat /\
    summary_pages report = 0%nat.
Proof.
  assert (let '(r, c1) :=
            deployConstructionTemplate (Mock.host Mock.full_env)
              (Mock.workspace true ["Acme Co - Tasks"])
              (@initial_ctx (Mock.workspace true ["Acme Co - Tasks"]) 0%nat)
          in
          match r with
          | Throw _ => False
          | Normal report =>
              report_completedSteps report = 8%nat /\
              summary_databases report = 4%nat /\
              report_errors report = 1%nat
          end) as Hfacts by (vm_compute; repeat split).
  destruct (deployConstructionTemplate (Mock.host Mock.full_env)
              (Mock.workspace true ["Acme Co - Tasks"])
              (@initial_ctx (Mock.workspace true ["Acme Co - Tasks"]) 0%nat))
    as [[report|e] c'] eqn:Hrun; [|destruct Hfacts].
  destruct (completed_run_report (Mock.host Mock.full_env)
              (Mock.workspace true ["Acme Co - Tasks"])
              (@initial_ctx (Mock.workspace true ["Acme Co - Tasks"]) 0%nat)
              c' report eq_refl Hrun)
    as (path & bp & _ & _ & _ & _ & _ & _ & Hres & Hpages).
  destruct Hfacts as (Hs & Hd & He).
  exists report, c'. split; [reflexivity|].
  rewrite Hres, Hpages, Hd. repeat split; assumption.
Defined.

(** *** The parent page of the databases *)

Lemma databaseRequests_app (t1 t2 : list Effect) :
  databaseRequests (t1 ++ t2)
  = (databaseRequests t1 ++ databaseRequests t2)%list.
Proof. apply omap_app. Qed.

Section ParentPage.
Variable notion : Notion.
Local Abbreviation Ctx := (Deploy.Ctx notion).

(** The schemas whose translation does not throw: the only ones for
    which [createDatabase] comes to a remote call. *)
Local Abbreviation translated dbs :=
  (filter (fun d : DbSchema =>
             is_normal (convertSchemaToNotionProperties (schema d)) = true)
          dbs).

(** A creation attempt makes no request when the schema cannot be
    translated.  Otherwise it asks for a parent page exactly when the
    search returns an empty list; the database it asks for is under the
    first page found, or under the page just created. *)
Lemma attemptCreate_requests (d : DbSchema) (clientName : string)
    (w : World notion) :
  let calls := (attemptCreate notion d clientName w).1 in
  match convertSchemaToNotionProperties (schema d) with
  | Throw _ => pageRequests calls = [] /\ databaseRequests calls = []
  | Normal props =>
      match fst (search notion (parentQuery clientName) w) with
      | Normal [] =>
          pageRequests calls = [WorkspacePage (parentQuery clientName) []]
      | Normal (first :: _) =>
          pageRequests calls = [] /\
          databaseRequests calls
          = [databaseRequest d clientName first props]
      | Throw _ => pageRequests calls = [] /\ databaseRequests calls = []
      end
  end.
Proof.
  cbv zeta. unfold attemptCreate.
  destruct (convertSchemaToNotionProperties (schema d)) as [props|e0];
    [|by split].
  cbv zeta.
  destruct (search notion _ w) as [[[|p ps]|e] w1]; cbn [fst];
    [|by split ..].
  destruct (pages_create notion _ w1) as [[p|e] w2]; reflexivity.
Qed.

Lemma phaseEffects_requests_none (clientName : string) (dbs : list DbSchema) :
  (forall q w, fst (search notion q w) = Normal []) ->
  forall w,
    pageRequests (phaseEffects notion clientName dbs w)
    = map (fun _ => WorkspacePage (parentQuery clientName) [])
          (translated dbs).
Proof.
  intros Hsearch.
  induction dbs as [|d rest IH]; intros w; [reflexivity|].
  cbn [phaseEffects].
  pose proof (attemptCreate_requests d clientName w) as Hreq.
  cbv zeta in Hreq. rewrite Hsearch in Hreq.
  destruct (attemptCreate notion d clientName w) as [calls [r w']].
  cbn [fst] in Hreq.
  rewrite !pageRequests_app, IH.
  assert (pageRequests (if is_normal r then [Sleep 1000] else []) = [])
    as -> by (by destruct (is_normal r)).
  destruct (convertSchemaToNotionProperties (schema d)) as [props|e0] eqn:Hconv.
  - rewrite filter_cons_True by (by rewrite Hconv). by rewrite Hreq.
  - rewrite filter_cons_False by (by rewrite Hconv).
    destruct Hreq as [-> _]. reflexivity.
Qed.

Lemma phaseEffects_requests_found (clientName : string) (dbs : list DbSchema)
    (parent : string) :
  (forall q w, exists others,
     fst (search notion q w) = Normal (parent :: others)) ->
  forall w,
    pageRequests (phaseEffects notion clientName dbs w) = [] /\
    Forall (fun req => parent_page_id req = parent)
           (databaseRequests (phaseEffects notion clientName dbs w)) /\
    length (databaseRequests (phaseEffects notion clientName dbs w))
    = length (translated dbs) /\
    Forall2 (fun d req =>
               exists props,
                 convertSchemaToNotionProperties (schema d) = Normal props /\
                 req = databaseRequest d clientName parent props)
            (translated dbs)
            (databaseRequests (phaseEffects notion clientName dbs w)).
Proof.
  intros Hsearch.
  induction dbs as [|d rest IH]; intros w;
    [repeat split; by constructor|].
  cbn [phaseEffects].
  pose proof (attemptCreate_requests d clientName w) as Hreq.
  cbv zeta in Hreq.
  destruct (Hsearch (parentQuery clientName) w) as [others Hs].
  rewrite Hs in Hreq.
  destruct (attemptCreate notion d clientName w) as [calls [r w']].
  cbn [fst] in Hreq.
  destruct (IH w') as (IHpg & IHall & IHlen & IHreq).
  rewrite !pageRequests_app, !databaseRequests_app, IHpg.
  assert (pageRequests (if is_normal r then [Sleep 1000] else []) = [] /\
          databaseRequests (if is_normal r then [Sleep 1000] else []) = [])
    as [-> ->] by (by destruct (is_normal r)).
  rewrite !app_nil_r, !app_nil_l, length_app, IHlen.
  destruct (convertSchemaToNotionProperties (schema d)) as [props|e0] eqn:Hconv.
  - rewrite filter_cons_True by (by rewrite Hconv).
    destruct Hreq as [-> ->]. repeat split.
    + by apply Forall_cons.
    + apply Forall2_cons. split; [|exact IHreq]. by exists props.
  - rewrite filter_cons_False by (by rewrite Hconv).
    destruct Hreq as [-> ->]. by repeat split.
Qed.

(** X21: the parent page is looked up for every database and never kept
    from one database to the next.  On a workspace whose search finds
    nothing, the databases phase asks for one parent page per schema of
    the build package that can be translated, whether or not the
    creations succeed; a schema whose translation throws gets no request,
    since the translation comes first. *)
Theorem parent_page_per_database (buildPackage : BuildPackage) (c : Ctx) :
  (forall q w, fst (search notion q w) = Normal []) ->
  pageRequests (trace (snd (deployPhase1_Databases notion buildPackage c)))
  = (pageRequests (trace c)
     ++ map (fun _ =>
               WorkspacePage (parentQuery (client buildPackage)) [])
            (filter (fun d : DbSchema =>
                       is_normal
                         (convertSchemaToNotionProperties (schema d)) = true)
                    (default [] (schemas buildPackage))))%list.
Proof.
  intros Hsearch.
  destruct (DeployFacts.phase1_loop notion (client buildPackage)
              (default [] (schemas buildPackage)) [] c)
    as (c1 & Hrun & _ & _ & _ & Htr & _).
  unfold deployPhase1_Databases, bind. rewrite Hrun.
  cbn. fold (pageRequests (trace c1)).
  rewrite Htr, pageRequests_app.
  by rewrite (phaseEffects_requests_none _ _ Hsearch).
Qed.

(** X22: on a workspace whose search lists a page first, the databases
    phase creates no page, and it asks for one database per schema of the
    build package that can be translated, in order, each under that page
    and with the translation of the schema as properties; a schema whose
    translation throws gets no request. *)
Theorem parent_page_reused (buildPackage : BuildPackage) (c : Ctx)
    (parent : string) :
  (forall q w, exists others,
     fst (search notion q w) = Normal (parent :: others)) ->
  exists reqs,
    pageRequests (trace (snd (deployPhase1_Databases notion buildPackage c)))
    = pageRequests (trace c) /\
    databaseRequests
      (trace (snd (deployPhase1_Databases notion buildPackage c)))
    = (databaseRequests (trace c) ++ reqs)%list /\
    Forall (fun req => parent_page_id req = parent) reqs /\
    length reqs
    = length (filter (fun d : DbSchema =>
                        is_normal
                          (convertSchemaToNotionProperties (schema d)) = true)
                     (default [] (schemas buildPackage))) /\
    Forall2 (fun d req =>
               exists props,
                 convertSchemaToNotionProperties (schema d) = Normal props /\
                 req = databaseRequest d (client buildPackage) parent props)
            (filter (fun d : DbSchema =>
                       is_normal
                         (convertSchemaToNotionProperties (schema d)) = true)
                    (default [] (schemas buildPackage)))
            reqs.
Proof.
  intros Hsearch.
  destruct (phaseEffects_requests_found (client buildPackage)
              (default [] (schemas buildPackage)) parent Hsearch (world c))
    as (Hpg & Hall & Hlen & Hreqs).
  destruct (DeployFacts.phase1_loop notion (client buildPackage)
              (default [] (schemas buildPackage)) [] c)
    as (c1 & Hrun & _ & _ & _ & Htr & _).
  eexists. unfold deployPhase1_Databases, bind. rewrite Hrun.
  cbn. fold (pageRequests (trace c1)). fold (databaseRequests (trace c1)).
  rewrite Htr, pageRequests_app, databaseRequests_app, Hpg, app_nil_r.
  split; [reflexivity|]. split; [reflexivity|]. repeat split; assumption.
Qed.
End ParentPage.

(** Of the five schemas of the careless build, two cannot be translated:
    three parent pages are asked for. *)
Lemma parent_page_per_database_witness :
  match Mock.careless_build with
  | Throw _ => False
  | Normal bp =>
      length (default [] (schemas bp)) = 5%nat /\
      length
        (pageRequests
           (trace
              (snd (deployPhase1_Databases (Mock.workspace true []) bp
                      (@initial_ctx (Mock.workspace true []) 0%nat)))))
      = 3%nat
  end.
Proof.
  destruct Mock.careless_build as [bp|e] eqn:Hbuild;
    [|vm_compute in Hbuild; discriminate].
  rewrite (parent_page_per_database (Mock.workspace true []) bp
             (@initial_ctx (Mock.workspace true []) 0%nat)
             (fun q w => eq_refl)).
  rewrite length_app, length_map.
  vm_compute in Hbuild. injection Hbuild as <-. split; reflexivity.
Defined.

Lemma parent_page_reused_witness :
  match Mock.careless_build with
  | Throw _ => False
  | Normal bp =>
      pageRequests
        (trace
           (snd (deployPhase1_Databases
                   (Mock.workspace_with_parent "page-acme") bp
                   (@initial_ctx (Mock.workspace_with_parent "page-acme")
                      0%nat))))
      = [] /\
      map parent_page_id
        (databaseRequests
           (trace
              (snd (deployPhase1_Databases
                      (Mock.workspace_with_parent "page-acme") bp
                      (@initial_ctx (Mock.workspace_with_parent "page-acme")
                         0%nat)))))
      = ["page-acme"; "page-acme"; "page-acme"]
  end.
Proof.
  destruct Mock.careless_build as [bp|e] eqn:Hbuild;
    [|vm_compute in Hbuild; discriminate].
  destruct (parent_page_reused (Mock.workspace_with_parent "page-acme") bp
              (@initial_ctx (Mock.workspace_with_parent "page-acme") 0%nat)
              "page-acme"
              (fun q w => ex_intro _ ["page-old"] eq_refl))
    as (reqs & Hpg & _).
  split; [exact Hpg|].
  vm_compute in Hbuild. injection Hbuild as <-. reflexivity.
Defined.

(** *** When the finalization fails *)

Lemma filesWritten_app (t1 t2 : list Effect) :
  filesWritten (t1 ++ t2) = (filesWritten t1 ++ filesWritten t2)%list.
Proof. apply omap_app. Qed.

Section Finalization.
Variable h : Host.
Variable notion : Notion.
Local Abbreviation Ctx := (Deploy.Ctx notion).
Local Abbreviation summaryRequest buildPackage t :=
  (WorkspacePage (client buildPackage +:+ " - Deployment Summary")
     [ Heading1 (client buildPackage +:+ " Construction Template");
       Paragraph ("Deployed: " +:+ toLocaleDateString h t);
       Paragraph ("Tier: " +:+ bp_tier buildPackage) ]).

(** X23: the two ways the finalization fails.  When
    [deployPhase5_Finalization] throws, the step deployment_finalized is
    not recorded, the failure is not recorded among the errors and no file
    has been written; either the request for the summary page failed and
    no resource was recorded, or the page was created and recorded and
    it is the writing of the metadata file that failed. *)
Theorem deployPhase5_failure (buildPackage : BuildPackage) (c c' : Ctx)
    (e : JsError) :
  deployPhase5_Finalization h notion buildPackage c = (Throw e, c') ->
  completedSteps (state c') = completedSteps (state c) /\
  errors (state c') = errors (state c) /\
  filesWritten (trace c') = filesWritten (trace c) /\
  ((createdResources (state c') = createdResources (state c) /\
    fst (pages_create notion
           (summaryRequest buildPackage (now h (ticks c))) (world c))
    = Throw e)
   \/
   (exists page path,
      fst (pages_create notion
             (summaryRequest buildPackage (now h (ticks c))) (world c))
      = Normal page /\
      createdResources (state c')
      = (createdResources (state c)
         ++ [{| resource_type := "summary_page"; resource_name := None;
                id := page |}])%list /\
      writeFile h path = Some e)).
Proof.
  unfold deployPhase5_Finalization, createDeploymentSummaryPage,
    saveDeploymentMetadata, bind, Date_now, notion_pages_create,
    push_resource, push_step, modify, fs_writeFile.
  cbn [world state trace ticks].
  destruct (pages_create notion _ (world c)) as [[page|e1] w];
    cbn [world state trace ticks emit with_state fst].
  - destruct (writeFile h _) as [e2|] eqn:Hwrite; [|discriminate].
    intros [= <- <-]. cbn [state trace completedSteps errors createdResources].
    rewrite filesWritten_app, app_nil_r.
    repeat split. right. eauto.
  - intros [= <- <-]. unfold emit. cbn [state trace].
    rewrite filesWritten_app, app_nil_r.
    repeat split. by left.
Qed.

(** On a file system that refuses the metadata file the finalization
    throws. *)
Lemma deployPhase5_unwritable (buildPackage : BuildPackage) (c : Ctx) :
  (forall path, is_Some (writeFile h path)) ->
  exists e c', deployPhase5_Finalization h notion buildPackage c = (Throw e, c').
Proof.
  intros Hro.
  unfold deployPhase5_Finalization, createDeploymentSummaryPage,
    saveDeploymentMetadata, bind, Date_now, notion_pages_create,
    push_resource, push_step, modify, fs_writeFile.
  cbn [world state trace ticks].
  destruct (pages_create notion _ (world c)) as [[page|e1] w];
    cbn [world state trace ticks emit with_state fst]; [|eauto].
  match goal with |- context [writeFile h ?p] =>
    destruct (Hro p) as [e2 ->] end.
  eauto.
Qed.

(** X24: a run cannot complete when the metadata file cannot be written.
    On a host whose file system refuses every write, every run of the
    script ends with a thrown error, whatever the workspace answers:
    also when all the databases and the summary page were created. *)
Theorem unwritable_metadata_fails_run (c : Ctx) :
  (forall path, is_Some (writeFile h path)) ->
  exists e c', deployConstructionTemplate h notion c = (Throw e, c').
Proof.
  intros Hro.
  set (Q := fun (r : Completion DeploymentReport) (c1 : Ctx) =>
         exists e, r = Throw e).
  assert (forall e (c1 : Ctx),
            wp (bind (cleanupFailedDeployment notion)
                  (fun _ => @throw Ctx DeploymentReport e)) c1 Q)
    as Hthrown by (intros e c1; by exists e).
  assert (wp (deployConstructionTemplate h notion) c Q) as Hwp.
  { unfold deployConstructionTemplate.
    apply wp_bind. unfold wp at 1. cbn [Date_now fst snd].
    apply wp_bind, wp_modify.
    apply wp_try_catch, wp_bind.
    match goal with |- wp _ ?c0 _ =>
      destruct (DeployFacts.initializeEnvironment_spec h notion c0)
        as (r1 & c1 & Hrun1 & _)
    end.
    eapply wp_of_run; [exact Hrun1|].
    destruct r1 as [[]|e]; [|apply Hthrown].
    apply wp_bind.
    destruct (DeployFacts.loadBuildArtifacts_spec h notion c1)
      as (r2 & c2 & Hrun2 & _).
    eapply wp_of_run; [exact Hrun2|].
    destruct r2 as [bp|e]; [|apply Hthrown].
    apply wp_bind.
    destruct (initializeNotionClient_run notion c2) as (r3 & c3 & Hrun3 & _).
    eapply wp_of_run; [exact Hrun3|].
    destruct r3 as [[]|e]; [|apply Hthrown].
    apply wp_bind.
    destruct (deployPhase1_run notion bp c3) as (c4 & Hrun4 & _).
    eapply wp_of_run; [exact Hrun4|].
    apply wp_bind.
    destruct (push_step_run notion "views_deployed" c4) as (c5 & Hrun5 & _).
    eapply wp_of_run; [exact Hrun5|].
    apply wp_bind.
    destruct (deployPhase3_steps h notion bp c5) as (c6 & Hrun6 & _).
    eapply wp_of_run; [exact Hrun6|].
    apply wp_bind.
    destruct (push_step_run notion "integrations_deployed" c6)
      as (c7 & Hrun7 & _).
    eapply wp_of_run; [exact Hrun7|].
    apply wp_bind.
    destruct (deployPhase5_unwritable bp c7 Hro) as (e & c8 & Hrun8).
    eapply wp_of_run; [exact Hrun8|].
    apply Hthrown. }
  destruct (wp_run _ _ _ Hwp) as (r & c' & Hrun & e & ->).
  by exists e, c'.
Qed.
End Finalization.

Lemma deployPhase5_failure_witness :
  match Mock.acme_build with
  | Throw _ => False
  | Normal bp =>
      let '(r, c) :=
        deployPhase5_Finalization (Mock.read_only_host Mock.full_env)
          (Mock.workspace true []) bp
          (@initial_ctx (Mock.workspace true []) 0%nat) in
      is_normal r = false /\
      completedSteps (state c) = [] /\
      errors (state c) = [] /\
      filesWritten (trace c) = [] /\
      length (createdResources (state c)) = 1%nat
  end.
Proof.
  destruct Mock.acme_build as [bp|e0] eqn:Hbuild;
    [|vm_compute in Hbuild; discriminate].
  destruct (deployPhase5_Finalization (Mock.read_only_host Mock.full_env)
              (Mock.workspace true []) bp
              (@initial_ctx (Mock.workspace true []) 0%nat))
    as [[[]|e] c] eqn:Hrun; [vm_compute in Hrun; discriminate|].
  destruct (deployPhase5_failure (Mock.read_only_host Mock.full_env)
              (Mock.workspace true []) bp
              (@initial_ctx (Mock.workspace true []) 0%nat) c e Hrun)
    as (Hs & He & Hf & Hcase).
  split; [reflexivity|]. split; [exact Hs|]. split; [exact He|].
  split; [exact Hf|].
  destruct Hcase as [[_ Habs]|(page & path & _ & Hr & _)];
    [discriminate Habs|].
  by rewrite Hr.
Defined.

Lemma unwritable_metadata_fails_run_witness :
  exists e c',
    deployConstructionTemplate (Mock.read_only_host Mock.full_env)
      (Mock.workspace true [])
      (@initial_ctx (Mock.workspace true []) 0%nat) = (Throw e, c') /\
    message e = "EROFS: read-only file system" /\
    map resource_type (createdResources (state c'))
    = ["database"; "database"; "database"; "database"; "database";
       "summary_page"] /\
    errors (state c') = [].
Proof.
  destruct (unwritable_metadata_fails_run (Mock.read_only_host Mock.full_env)
              (Mock.workspace true [])
              (@initial_ctx (Mock.workspace true []) 0%nat))
    as (e & c' & Hrun).
  - intros path. by eexists.
  - exists e, c'. split; [exact Hrun|].
    assert (let '(r, c1) :=
              deployConstructionTemplate (Mock.read_only_host Mock.full_env)
                (Mock.workspace true [])
                (@initial_ctx (Mock.workspace true []) 0%nat) in
            match r with
            | Normal _ => False
            | Throw e1 =>
                message e1 = "EROFS: read-only file system" /\
                map resource_type (createdResources (state c1))
                = ["database"; "database"; "database"; "database";
                   "database"; "summary_page"] /\
                errors (state c1) = []
            end) as Hfacts by (vm_compute; repeat split).
    rewrite Hrun in Hfacts. exact Hfacts.
Defined.

End DeployExtras.
